(** * exgen-cli: option resolution, validation and the project-creation pipeline

    A shallow embedding of the TypeScript sources of exgen-cli
    (src/utils/options.ts, src/utils/validation.ts, src/utils/config.ts,
    src/utils/installer.ts, src/utils/git.ts, src/commands/create.ts,
    src/commands/init.ts, src/generators/project.ts and
    src/constants/index.ts) together with the properties the specification
    states about them.

    Option bags ([ProjectOptions]) are JavaScript objects used as maps from
    property names to values; they are modelled as [gmap string jsval], and
    the object spread [{...a, ...b}] as the right-biased union. *)

From Stdlib Require Import String Ascii List Bool Arith Lia.
From stdpp Require Import base option gmap strings list fin_maps pretty.
Import ListNotations.
Local Open Scope string_scope.
Local Open Scope list_scope.

(** ** JavaScript values held by option bags *)

Module Js.

(** The values a [ProjectOptions] property can hold: [undefined] (also the
    result of reading an absent property), a boolean or a string. *)
Inductive jsval : Type :=
  | VUndef
  | VBool (b : bool)
  | VStr (s : string).

#[export] Instance jsval_eq_dec : EqDecision jsval.
Proof. solve_decision. Defined.

(** [o.k]: reading a property; an absent key reads as [undefined]. *)
Definition get (o : gmap string jsval) (k : string) : jsval :=
  match o !! k with
  | Some v => v
  | None => VUndef
  end.

(** JavaScript truthiness ([if (v)], [!!v]). *)
Definition truthy (v : jsval) : bool :=
  match v with
  | VUndef => false
  | VBool b => b
  | VStr s => negb (String.eqb s "")
  end.

(** [`${v}`]: string conversion inside a template literal. *)
Definition to_string (v : jsval) : string :=
  match v with
  | VUndef => "undefined"
  | VBool true => "true"
  | VBool false => "false"
  | VStr s => s
  end.

(** [v === "s"]: strict equality with a string literal. *)
Definition is_str (v : jsval) (s : string) : bool :=
  match v with
  | VStr t => String.eqb t s
  | _ => false
  end.

(** [arr.includes(v)] for an array of strings: strict equality, so only a
    string value can be found. *)
Definition includes (arr : list string) (v : jsval) : bool :=
  existsb (is_str v) arr.

(** [{...a, ...b}]: the keys of [b] overwrite those of [a]. *)
Definition spread (a b : gmap string jsval) : gmap string jsval := b ∪ a.

(** An object literal [{k1: v1, ..., kn: vn}]. *)
Definition obj (kvs : list (string * jsval)) : gmap string jsval :=
  list_to_map kvs.

(** [arr.join(sep)]. *)
Fixpoint join (sep : string) (arr : list string) : string :=
  match arr with
  | [] => ""
  | [x] => x
  | x :: rest => x +:+ sep +:+ join sep rest
  end.

(** [deps.push(x1, ..., xn)] guarded by [if (c)]. *)
Definition push_if (c : bool) (xs : list string) (arr : list string) : list string :=
  if c then arr ++ xs else arr.

End Js.
Import Js.

Notation "o .[ k ]" := (Js.get o k) (at level 1, left associativity, format "o .[ k ]").
Notation "'T'" := (VBool true) (only parsing).

(** ** src/generators/types/index.ts and src/constants/index.ts *)

Record PresetDefinition : Type := {
  preset_name : string;
  preset_description : string;
  preset_options : gmap string jsval;
  preset_example : option string
}.

Inductive PackageManager : Type := Npm | Yarn | Pnpm.

Record ResolvedOptions : Type := {
  (** the spread [...resolved]: every [ProjectOptions] property *)
  opts : gmap string jsval;
  projectName : string;
  projectPath : string;
  packageManager : PackageManager;
  isTypescript : bool;
  features : list string
}.

Record ValidationResult : Type := {
  valid : bool;
  errors : list string;
  warnings : list string
}.

Definition SUPPORTED_VIEW_ENGINES : list string :=
  ["ejs"; "pug"; "hbs"; "hogan"; "mustache"; "handlebars"].

Definition SUPPORTED_CSS_ENGINES : list string :=
  ["less"; "sass"; "scss"; "stylus"; "compass"].

Definition PRESET_DEFINITIONS : list PresetDefinition :=
  [ {| preset_name := "light";
       preset_description := "Lightweight structure with essentials (TypeScript, basic structure)";
       preset_options := obj [("light", T); ("typescript", T)];
       preset_example := Some "exgen my-app --light" |};
    {| preset_name := "api";
       preset_description := "REST API preset with TypeScript, CORS, Helmet, Validation, Tests";
       preset_options := obj [("api", T); ("typescript", T); ("cors", T); ("helmet", T);
                              ("validation", T); ("test", T); ("noView", T)];
       preset_example := Some "exgen my-api --api" |};
    {| preset_name := "fullstack";
       preset_description := "Full-stack application with views, authentication, and database";
       preset_options := obj [("fullstack", T); ("view", VStr "ejs"); ("css", VStr "sass");
                              ("auth", T); ("mongodb", T); ("test", T)];
       preset_example := Some "exgen my-fullstack-app --fullstack" |};
    {| preset_name := "microservice";
       preset_description := "Microservice-ready with Docker, Redis, Tests, and Logging";
       preset_options := obj [("microservice", T); ("typescript", T); ("docker", T);
                              ("redis", T); ("test", T); ("elk", T); ("noView", T);
                              ("cors", T); ("helmet", T)];
       preset_example := Some "exgen my-service --microservice" |};
    {| preset_name := "startup";
       preset_description := "Startup-ready with everything: TypeScript, MongoDB, Auth, Swagger, Docker, Tests";
       preset_options := obj [("startup", T); ("typescript", T); ("mongodb", T); ("auth", T);
                              ("swagger", T); ("docker", T); ("test", T); ("cors", T);
                              ("helmet", T); ("rateLimit", T); ("validation", T)];
       preset_example := Some "exgen my-startup --startup" |};
    {| preset_name := "prod";
       preset_description := "Full production setup with Docker, Swagger, ELK, Tests";
       preset_options := obj [("prod", T); ("typescript", T); ("swagger", T); ("docker", T);
                              ("test", T); ("elk", T); ("cors", T); ("helmet", T);
                              ("rateLimit", T)];
       preset_example := Some "exgen my-prod-app --prod" |};
    {| preset_name := "min";
       preset_description := "Minimal production setup (excludes Docker and Swagger)";
       preset_options := obj [("min", T); ("typescript", T); ("test", T); ("cors", T);
                              ("helmet", T)];
       preset_example := Some "exgen my-min-app --min" |} ].

(** ** src/utils/options.ts: the pure part of the option resolver *)

Module Options.

Definition getPresetOptions (presetName : string) : gmap string jsval :=
  match find (fun p => String.eqb (preset_name p) presetName) PRESET_DEFINITIONS with
  | Some preset => preset_options preset
  | None => ∅
  end.

Definition getAllPresetOptions : gmap string jsval :=
  obj [("typescript", T); ("cors", T); ("helmet", T); ("rateLimit", T);
       ("validation", T); ("test", T); ("elk", T)].

(** One [if (options.p) resolved = {...resolved, ...bundle}] step. *)
Definition applyPreset_if (options : gmap string jsval) (p : string)
    (bundle : gmap string jsval) (resolved : gmap string jsval) : gmap string jsval :=
  if truthy options.[p] then spread resolved bundle else resolved.

Definition applyPresets (options : gmap string jsval) : gmap string jsval :=
  let resolved := spread ∅ options in
  let resolved := applyPreset_if options "light" (getPresetOptions "light") resolved in
  let resolved := applyPreset_if options "api" (getPresetOptions "api") resolved in
  let resolved := applyPreset_if options "fullstack" (getPresetOptions "fullstack") resolved in
  let resolved := applyPreset_if options "microservice" (getPresetOptions "microservice") resolved in
  let resolved := applyPreset_if options "startup" (getPresetOptions "startup") resolved in
  let resolved := applyPreset_if options "min" (getPresetOptions "min") resolved in
  let resolved := applyPreset_if options "prod" (getPresetOptions "prod") resolved in
  let resolved := applyPreset_if options "all" getAllPresetOptions resolved in
  (* Re-apply original options to ensure CLI flags take precedence *)
  spread resolved options.

Definition resolveTypeScript (options : gmap string jsval) : bool :=
  if truthy options.["javascript"] && negb (truthy options.["typescript"]) then false
  else if truthy options.["typescript"]
          || truthy options.["api"]
          || truthy options.["microservice"]
          || truthy options.["startup"]
          || truthy options.["prod"]
          || truthy options.["min"]
          || truthy options.["light"]
  then true
  else false.

Definition determineFeatures (options : gmap string jsval) : list string :=
  let features := [] in
  (* Language *)
  let features :=
    if resolveTypeScript options then features ++ ["TypeScript"]
    else features ++ ["JavaScript"] in
  (* View and CSS *)
  let features :=
    if negb (truthy options.["noView"]) then
      if truthy options.["view"] then features ++ ["View: " +:+ to_string options.["view"]]
      else if truthy options.["fullstack"] then features ++ ["View: EJS"]
      else features
    else features in
  let features :=
    push_if (truthy options.["css"]) ["CSS: " +:+ to_string options.["css"]] features in
  (* Databases *)
  let features := push_if (truthy options.["mongodb"]) ["MongoDB"] features in
  let features := push_if (truthy options.["postgres"]) ["PostgreSQL"] features in
  let features := push_if (truthy options.["redis"]) ["Redis"] features in
  (* Authentication and Security *)
  let features := push_if (truthy options.["auth"]) ["JWT Auth"] features in
  let features := push_if (truthy options.["cors"]) ["CORS"] features in
  let features := push_if (truthy options.["helmet"]) ["Helmet"] features in
  let features := push_if (truthy options.["rateLimit"]) ["Rate Limiting"] features in
  (* Validation and Documentation *)
  let features := push_if (truthy options.["validation"]) ["Joi Validation"] features in
  let features := push_if (truthy options.["swagger"]) ["Swagger/OpenAPI"] features in
  (* Development and Operations *)
  let features := push_if (truthy options.["test"]) ["Jest Testing"] features in
  let features := push_if (truthy options.["docker"]) ["Docker"] features in
  let features := push_if (truthy options.["elk"]) ["ELK Logging"] features in
  (* Git: [options.git !== false] *)
  let features :=
    push_if (negb (bool_decide (options.["git"] = VBool false))) ["Git"] features in
  features.

(** The view engine in use, [undefined] when there is none. *)
Definition getFinalViewEngine (options : gmap string jsval) : jsval :=
  if truthy options.["noView"] then VUndef
  else if truthy options.["view"] then options.["view"]
  else if truthy options.["fullstack"] then VStr "ejs"
  else VUndef.

Definition getFinalCSSEngine (options : gmap string jsval) : jsval :=
  if truthy options.["css"] then options.["css"]
  else if truthy options.["fullstack"] then VStr "sass"
  else VUndef.

Definition shouldIncludeFeature (feature : string) (options : ResolvedOptions) : bool :=
  let o := opts options in
  if String.eqb feature "view" then
    negb (truthy o.["noView"]) && truthy (getFinalViewEngine o)
  else if String.eqb feature "css" then truthy (getFinalCSSEngine o)
  else if String.eqb feature "typescript" then isTypescript options
  else if String.eqb feature "mongodb" then truthy o.["mongodb"]
  else if String.eqb feature "postgres" then truthy o.["postgres"]
  else if String.eqb feature "redis" then truthy o.["redis"]
  else if String.eqb feature "swagger" then truthy o.["swagger"]
  else if String.eqb feature "docker" then truthy o.["docker"]
  else if String.eqb feature "test" then truthy o.["test"]
  else if String.eqb feature "auth" then truthy o.["auth"]
  else if String.eqb feature "cors" then truthy o.["cors"]
  else if String.eqb feature "helmet" then truthy o.["helmet"]
  else if String.eqb feature "rateLimit" then truthy o.["rateLimit"]
  else if String.eqb feature "validation" then truthy o.["validation"]
  else if String.eqb feature "elk" then truthy o.["elk"]
  else false.

Definition getRequiredDependencies (options : ResolvedOptions) : list string :=
  let deps := ["express"; "dotenv"] in
  let deps := push_if (shouldIncludeFeature "cors" options) ["cors"] deps in
  let deps :=
    if shouldIncludeFeature "view" options then
      let deps := deps ++ ["cookie-parser"; "morgan"] in
      let viewEngine := getFinalViewEngine (opts options) in
      push_if (truthy viewEngine) [to_string viewEngine] deps
    else deps in
  let deps :=
    if shouldIncludeFeature "css" options then
      let cssEngine := getFinalCSSEngine (opts options) in
      if is_str cssEngine "sass" || is_str cssEngine "scss" then
        deps ++ ["node-sass-middleware"]
      else if is_str cssEngine "less" then deps ++ ["less-middleware"]
      else if is_str cssEngine "stylus" then deps ++ ["stylus"]
      else deps
    else deps in
  let deps := push_if (shouldIncludeFeature "mongodb" options) ["mongoose"] deps in
  let deps := push_if (shouldIncludeFeature "postgres" options) ["sequelize"; "pg"] deps in
  let deps := push_if (shouldIncludeFeature "redis" options) ["ioredis"] deps in
  let deps :=
    push_if (shouldIncludeFeature "swagger" options)
      ["swagger-jsdoc"; "swagger-ui-express"] deps in
  let deps := push_if (shouldIncludeFeature "auth" options) ["jsonwebtoken"; "bcryptjs"] deps in
  let deps := push_if (shouldIncludeFeature "helmet" options) ["helmet"] deps in
  let deps := push_if (shouldIncludeFeature "rateLimit" options) ["express-rate-limit"] deps in
  let deps := push_if (shouldIncludeFeature "validation" options) ["joi"] deps in
  let deps :=
    push_if (shouldIncludeFeature "elk" options) ["winston"; "winston-elasticsearch"] deps in
  deps.

Definition getRequiredDevDependencies (options : ResolvedOptions) : list string :=
  let devDeps := ["nodemon"] in
  let devDeps :=
    if shouldIncludeFeature "typescript" options then
      let devDeps :=
        devDeps ++ ["typescript"; "@types/node"; "@types/express"; "ts-node"; "tsx"] in
      let devDeps := push_if (shouldIncludeFeature "cors" options) ["@types/cors"] devDeps in
      let devDeps :=
        if shouldIncludeFeature "view" options then
          let viewEngine := getFinalViewEngine (opts options) in
          push_if (is_str viewEngine "ejs") ["@types/ejs"] devDeps
        else devDeps in
      let devDeps :=
        push_if (shouldIncludeFeature "mongodb" options) ["@types/mongoose"] devDeps in
      let devDeps := push_if (shouldIncludeFeature "postgres" options) ["@types/pg"] devDeps in
      let devDeps := push_if (shouldIncludeFeature "redis" options) ["@types/redis"] devDeps in
      let devDeps :=
        push_if (shouldIncludeFeature "swagger" options)
          ["@types/swagger-jsdoc"; "@types/swagger-ui-express"] devDeps in
      let devDeps :=
        push_if (shouldIncludeFeature "auth" options)
          ["@types/jsonwebtoken"; "@types/bcryptjs"] devDeps in
      let devDeps := push_if (shouldIncludeFeature "helmet" options) ["@types/helmet"] devDeps in
      let devDeps :=
        push_if (shouldIncludeFeature "validation" options) ["@types/joi"] devDeps in
      devDeps
    else devDeps in
  let devDeps :=
    if shouldIncludeFeature "test" options then
      let devDeps := devDeps ++ ["jest"] in
      push_if (isTypescript options) ["@types/jest"; "ts-jest"] devDeps
    else devDeps in
  devDeps.

End Options.

(** ** The third-party package validate-npm-package-name

    [validateProjectName] delegates to the npm package
    validate-npm-package-name, which is a dependency of the repository and
    not part of its sources.  [NpmValidation] is the shape of its result;
    [NpmName.validate] transcribes the checks of the published package
    (index.js) for names given as ASCII strings.  [builtins] stands for
    Node's [module.builtinModules], which depends on the runtime. *)

Record NpmValidation : Type := {
  validForNewPackages : bool;
  validForOldPackages : bool;
  (** [errors] and [warnings] are deleted from the result when empty *)
  npm_errors : option (list string);
  npm_warnings : option (list string)
}.

(** String primitives of JavaScript, on ASCII strings (on which the length
    and the case mapping of JavaScript and of [string] agree). *)
Module Str.

Definition lower_ascii (c : ascii) : ascii :=
  let n := nat_of_ascii c in
  if ((65 <=? n) && (n <=? 90))%nat then ascii_of_nat (n + 32) else c.

(** [s.toLowerCase()] on ASCII strings. *)
Fixpoint toLowerCase (s : string) : string :=
  match s with
  | EmptyString => EmptyString
  | String c rest => String (lower_ascii c) (toLowerCase rest)
  end.

Definition is_space (c : ascii) : bool :=
  let n := nat_of_ascii c in
  (((9 <=? n) && (n <=? 13)) || (n =? 32))%nat.

Fixpoint trimStart (s : string) : string :=
  match s with
  | String c rest => if is_space c then trimStart rest else s
  | EmptyString => EmptyString
  end.

Fixpoint rev_string (s acc : string) : string :=
  match s with
  | EmptyString => acc
  | String c rest => rev_string rest (String c acc)
  end.

(** [s.trim()] (ASCII white space). *)
Definition trim (s : string) : string :=
  rev_string (trimStart (rev_string (trimStart s) "")) "".

Fixpoint existsb_char (p : ascii -> bool) (s : string) : bool :=
  match s with
  | EmptyString => false
  | String c rest => p c || existsb_char p rest
  end.

(** [s.includes(sub)]. *)
Fixpoint includes (sub s : string) : bool :=
  String.prefix sub s ||
  match s with
  | EmptyString => false
  | String _ rest => includes sub rest
  end.

(** [s.split("/").slice(-1)[0]]: the part after the last slash. *)
Fixpoint last_segment (s : string) (cur : string) : string :=
  match s with
  | EmptyString => rev_string cur ""
  | String c rest =>
      if Ascii.eqb c "/"%char then last_segment rest "" else last_segment rest (String c cur)
  end.

(** Splits [s] at its first slash. *)
Fixpoint split_slash (s : string) (cur : string) : option (string * string) :=
  match s with
  | EmptyString => None
  | String c rest =>
      if Ascii.eqb c "/"%char then Some (rev_string cur "", rest)
      else split_slash rest (String c cur)
  end.

(** The line feed and double quote characters as strings. *)
Definition nl : string := String (ascii_of_nat 10) EmptyString.

Definition dquote : string := String (ascii_of_nat 34) EmptyString.

End Str.

Module NpmName.

Definition blacklist : list string := ["node_modules"; "favicon.ico"].

Definition in_range (lo hi : nat) (c : ascii) : bool :=
  ((lo <=? nat_of_ascii c) && (nat_of_ascii c <=? hi))%nat.

(** The characters [encodeURIComponent] leaves as they are: letters, digits
    and [- _ . ! ~ * ' ( )]. *)
Definition uri_unreserved (c : ascii) : bool :=
  in_range 65 90 c || in_range 97 122 c || in_range 48 57 c
  || Str.existsb_char (Ascii.eqb c) "-_.!~*'()".

(** [encodeURIComponent(s) === s]. *)
Definition uri_friendly (s : string) : bool :=
  negb (Str.existsb_char (fun c => negb (uri_unreserved c)) s).

(** [/[~'!()*]/.test(s)]. *)
Definition has_special (s : string) : bool :=
  Str.existsb_char (fun c => Str.existsb_char (Ascii.eqb c) "~'!()*") s.

(** [name.match(/^(?:@([^/]+?)[/])?([^/]+?)$/)]: the captured scope (when
    present) and package part. *)
Definition scoped_match (name : string) : option (option string * string) :=
  match Str.split_slash name "" with
  | None => if String.eqb name "" then None else Some (None, name)
  | Some (String "@" user, pkg) =>
      if negb (String.eqb user "") && negb (String.eqb pkg "")
         && negb (Str.existsb_char (Ascii.eqb "/") pkg)
      then Some (Some user, pkg) else None
  | Some _ => None
  end.

Definition done (warnings errors : list string) : NpmValidation :=
  {| validForNewPackages := ((length errors =? 0) && (length warnings =? 0))%nat;
     validForOldPackages := (length errors =? 0)%nat;
     npm_errors := if (length errors =? 0)%nat then None else Some errors;
     npm_warnings := if (length warnings =? 0)%nat then None else Some warnings |}.

Definition validate (builtins : list string) (name : string) : NpmValidation :=
  let warnings := [] in
  let errors := [] in
  let errors :=
    push_if (String.length name =? 0)%nat ["name length must be greater than zero"] errors in
  let errors := push_if (String.prefix "." name) ["name cannot start with a period"] errors in
  let errors :=
    push_if (String.prefix "_" name) ["name cannot start with an underscore"] errors in
  let errors :=
    push_if (negb (String.eqb (Str.trim name) name))
      ["name cannot contain leading or trailing spaces"] errors in
  (* No funny business *)
  let errors :=
    fold_left
      (fun errors blacklistedName =>
         push_if (String.eqb (Str.toLowerCase name) blacklistedName)
           [blacklistedName +:+ " is a blacklisted name"] errors)
      blacklist errors in
  (* Generate warnings for stuff that used to be allowed *)
  let warnings :=
    push_if (existsb (String.eqb (Str.toLowerCase name)) builtins)
      [name +:+ " is a core module name"] warnings in
  let warnings :=
    push_if (214 <? String.length name)%nat
      ["name can no longer contain more than 214 characters"] warnings in
  let warnings :=
    push_if (negb (String.eqb (Str.toLowerCase name) name))
      ["name can no longer contain capital letters"] warnings in
  let warnings :=
    push_if (has_special (Str.last_segment name ""))
      ["name can no longer contain special characters (" +:+ Str.dquote +:+ "~'!()*"
       +:+ Str.dquote +:+ ")"] warnings in
  if negb (uri_friendly name) then
    (* Maybe it's a scoped package name, like @user/package *)
    match scoped_match name with
    | Some (Some user, pkg) =>
        if uri_friendly user && uri_friendly pkg then done warnings errors
        else done warnings (errors ++ ["name can only contain URL-friendly characters"])
    | _ => done warnings (errors ++ ["name can only contain URL-friendly characters"])
    end
  else done warnings errors.

End NpmName.

(** ** src/utils/validation.ts *)

(** A thrown JavaScript error: its message and, for system errors, its code. *)
Record JsError : Type := { message : string; code : option string }.

Definition Error (msg : string) : JsError := {| message := msg; code := None |}.

(** The file-system calls of [validateProjectPath] ([fs-extra] and [path]).
    A call that can throw returns [inl error]. *)
Record FileSystem : Type := {
  existsSync : string -> bool;
  (** [fs.statSync(p).isDirectory()] *)
  statSync_isDirectory : string -> JsError + bool;
  readdirSync : string -> JsError + list string;
  (** [fs.accessSync(p, fs.constants.W_OK)] *)
  accessSync_W_OK : string -> JsError + unit;
  dirname : string -> string
}.

Module Validation.

Definition new_result : ValidationResult :=
  {| valid := true; errors := []; warnings := [] |}.

(** [result.valid = false] *)
Definition set_invalid (result : ValidationResult) : ValidationResult :=
  {| valid := false; errors := errors result; warnings := warnings result |}.

(** [result.errors.push(...es)] *)
Definition push_errors (es : list string) (result : ValidationResult) : ValidationResult :=
  {| valid := valid result; errors := errors result ++ es; warnings := warnings result |}.

(** [result.warnings.push(...ws)] *)
Definition push_warnings (ws : list string) (result : ValidationResult) : ValidationResult :=
  {| valid := valid result; errors := errors result; warnings := warnings result ++ ws |}.

Definition validateProjectName (validateNpmPackageName : string -> NpmValidation)
    (name : string) : ValidationResult :=
  let result := new_result in
  if String.eqb name "" then
    push_errors ["Project name is required"] (set_invalid result)
  else
    (* Check npm package name validity *)
    let npmValidation := validateNpmPackageName name in
    let result :=
      if negb (validForNewPackages npmValidation) then
        let result := set_invalid result in
        let result := push_errors ["Project name must be a valid npm package name"] result in
        match npm_errors npmValidation with
        | Some es => push_errors es result
        | None => result
        end
      else result in
    let result :=
      match npm_warnings npmValidation with
      | Some ws => push_warnings ws result
      | None => result
      end in
    (* Additional checks *)
    let result :=
      if (214 <? String.length name)%nat then
        push_errors ["Project name must be less than 214 characters"] (set_invalid result)
      else result in
    let result :=
      if negb (String.eqb name (Str.toLowerCase name)) then
        push_warnings ["Project name should be lowercase"] result
      else result in
    result.

Definition validateProjectPath (fs : FileSystem) (projectPath : string) : ValidationResult :=
  let result := new_result in
  (* the handler of the outer try *)
  let on_error (result : ValidationResult) (error : JsError) :=
    push_errors ["Cannot access project path: " +:+ message error] (set_invalid result) in
  (* Check if parent directory is writable *)
  let check_parent (result : ValidationResult) :=
    let parentDir := dirname fs projectPath in
    match accessSync_W_OK fs parentDir with
    | inr _ => result
    | inl _ => push_errors ["Parent directory is not writable"] (set_invalid result)
    end in
  (* Check if directory already exists *)
  if existsSync fs projectPath then
    match statSync_isDirectory fs projectPath with
    | inl error => on_error result error
    | inr isDirectory =>
        if negb isDirectory then
          push_errors ["A file with this name already exists"] (set_invalid result)
        else
          (* Check if directory is empty *)
          match readdirSync fs projectPath with
          | inl error => on_error result error
          | inr files =>
              let result :=
                if (0 <? length files)%nat then
                  push_warnings ["Directory is not empty. Files may be overwritten"] result
                else result in
              check_parent result
          end
    end
  else check_parent result.

Definition validateOptions (options : gmap string jsval) : ValidationResult :=
  let result := new_result in
  (* Validate view engine *)
  let result :=
    if truthy options.["view"] && negb (includes SUPPORTED_VIEW_ENGINES options.["view"]) then
      push_errors
        ["Unsupported view engine: " +:+ to_string options.["view"]
         +:+ ". Supported engines: " +:+ join ", " SUPPORTED_VIEW_ENGINES]
        (set_invalid result)
    else result in
  (* Validate CSS engine *)
  let result :=
    if truthy options.["css"] && negb (includes SUPPORTED_CSS_ENGINES options.["css"]) then
      push_errors
        ["Unsupported CSS engine: " +:+ to_string options.["css"]
         +:+ ". Supported engines: " +:+ join ", " SUPPORTED_CSS_ENGINES]
        (set_invalid result)
    else result in
  (* Validate conflicting options *)
  let result :=
    if truthy options.["typescript"] && truthy options.["javascript"] then
      push_warnings
        ["Both TypeScript and JavaScript flags specified. TypeScript will be used"] result
    else result in
  let result :=
    if truthy options.["mongodb"] && truthy options.["postgres"] then
      push_warnings ["Both MongoDB and PostgreSQL selected. Both will be included"] result
    else result in
  let result :=
    if truthy options.["noView"] && truthy options.["view"] then
      push_errors ["Cannot specify both --no-view and --view"] (set_invalid result)
    else result in
  (* Validate preset combinations *)
  let presets :=
    [options.["light"]; options.["all"]; options.["prod"]; options.["min"];
     options.["api"]; options.["fullstack"]; options.["microservice"];
     options.["startup"]] in
  let activePresets := List.filter truthy presets in
  let result :=
    if (1 <? length activePresets)%nat then
      push_warnings ["Multiple presets specified. Last one will take precedence"] result
    else result in
  result.

(** [sanitizeProjectName]: lower-case, white space runs to one hyphen, drop
    every character outside [a-z0-9-], squeeze hyphens, strip one leading and
    one trailing hyphen. *)
Fixpoint spaces_to_hyphen (s : string) (in_space : bool) : string :=
  match s with
  | EmptyString => EmptyString
  | String c rest =>
      if Str.is_space c then
        if in_space then spaces_to_hyphen rest true
        else String "-" (spaces_to_hyphen rest true)
      else String c (spaces_to_hyphen rest false)
  end.

Definition is_name_char (c : ascii) : bool :=
  NpmName.in_range 97 122 c || NpmName.in_range 48 57 c || Ascii.eqb c "-".

Fixpoint keep_chars (p : ascii -> bool) (s : string) : string :=
  match s with
  | EmptyString => EmptyString
  | String c rest => if p c then String c (keep_chars p rest) else keep_chars p rest
  end.

Fixpoint squeeze_hyphens (s : string) (after_hyphen : bool) : string :=
  match s with
  | EmptyString => EmptyString
  | String c rest =>
      if Ascii.eqb c "-" then
        if after_hyphen then squeeze_hyphens rest true
        else String c (squeeze_hyphens rest true)
      else String c (squeeze_hyphens rest false)
  end.

Definition strip_leading_hyphen (s : string) : string :=
  match s with
  | String "-" rest => rest
  | _ => s
  end.

Definition strip_trailing_hyphen (s : string) : string :=
  Str.rev_string (strip_leading_hyphen (Str.rev_string s "")) "".

Definition sanitizeProjectName (name : string) : string :=
  strip_trailing_hyphen
    (strip_leading_hyphen
       (squeeze_hyphens
          (keep_chars is_name_char (spaces_to_hyphen (Str.toLowerCase name) false))
          false)).

End Validation.

(** ** Effects: console output and exceptions

    The stateful code writes to the console (through the logger, [console]
    and the [ora] spinner) and throws.  A computation of type [Eff A] yields
    the lines it wrote, in order, and either the error it threw or its
    result. *)

Inductive Channel : Type :=
  | LInfo | LWarn | LError | LSuccess | LDebug   (* the methods of [Logger] *)
  | LConsole                                     (* [console.log], [console.error] *)
  | LSpinner.                                    (* the [ora] spinner *)

Definition Trace : Type := list (Channel * string).

Definition Eff (A : Type) : Type := Trace * (JsError + A).

#[export] Instance Eff_ret : MRet Eff := λ A x, ([], inr x).

#[export] Instance Eff_bind : MBind Eff := λ A B f m,
  match m with
  | (t, inl e) => (t, inl e)
  | (t, inr x) => let '(t', r) := f x in (t ++ t', r)
  end.

(** [throw e] *)
Definition throw {A : Type} (e : JsError) : Eff A := ([], inl e).

(** one line written on a channel *)
Definition emit (c : Channel) (msg : string) : Eff unit := ([(c, msg)], inr tt).

(** [try { m } catch (error) { h error }] *)
Definition try_catch {A : Type} (m : Eff A) (h : JsError -> Eff A) : Eff A :=
  match m with
  | (t, inl e) => let '(t', r) := h e in (t ++ t', r)
  | (t, inr x) => (t, inr x)
  end.

(** the outcome of a call into the outside world *)
Definition call {A : Type} (r : JsError + A) : Eff A := ([], r).

(** [arr.forEach(x => f x)] *)
Fixpoint forEach {A : Type} (f : A -> Eff unit) (arr : list A) : Eff unit :=
  match arr with
  | [] => mret tt
  | x :: rest => f x ;; forEach f rest
  end.

(** ** The outside world of one run *)

Record InstallResult : Type := {
  success : bool;
  ir_error : option string;
  ir_output : option string
}.

Record ExgenConfig : Type := {
  defaults : option (gmap string jsval);
  cfg_packageManager : option PackageManager
}.

(** What the run observes of its environment: the file system, the
    subprocesses it spawns, the discovered configuration, and how the
    file-system calls of the project generator end.  Every query is answered
    once per run, so the answers are functions of the query. *)
Record World : Type := {
  fs : FileSystem;
  validateNpmPackageName : string -> NpmValidation;
  (** [process.cwd()] and [process.env.VERBOSE] *)
  cwd : string;
  env_VERBOSE : bool;
  (** the [path] module *)
  path_resolve : string -> string -> string;
  path_join : string -> string -> string;
  path_relative : string -> string -> string;
  (** [explorer.search(searchFrom)] of cosmiconfig: the file found and its content *)
  explorer_search : option string -> JsError + option (string * ExgenConfig);
  (** [execSync(command, {cwd})]: the output, or the error thrown on a non-zero exit *)
  execSync : string -> option string -> JsError + string;
  pathExists : string -> JsError + bool;
  ensureDir : string -> JsError + unit;
  (** [fs.writeFile(path, content)] *)
  writeFile : string -> JsError + unit;
  (** the file-system work of [generateProject], that is its [try] block
      ([createDirectoryStructure] and the template generators, which print
      nothing): it returns, or throws the error of the first call that fails *)
  generateFiles : ResolvedOptions -> JsError + unit;
  (** [executeCommand(command, args, cwd)] of installer.ts: the promise only resolves *)
  executeCommand : string -> list string -> string -> InstallResult
}.

Definition pm_name (pm : PackageManager) : string :=
  match pm with Npm => "npm" | Yarn => "yarn" | Pnpm => "pnpm" end.

Section Run.

Context (w : World).

(** *** src/utils/logger.ts

    One trace entry per message: colours, rules, padding and the stack
    trace that [logError] prints after the message are left out. *)

Definition logStep (step total : nat) (msg : string) : Eff unit :=
  emit LInfo ("[" +:+ pretty step +:+ "/" +:+ pretty total +:+ "] " +:+ msg).

Definition logHeader (title : string) : Eff unit := emit LConsole title.

Definition logSuccess (msg : string) : Eff unit := emit LConsole msg.

Definition logError (error : JsError) : Eff unit :=
  emit LConsole ("Error: " +:+ message error).

Definition logTable (data : list (string * string)) (title : string) : Eff unit :=
  emit LConsole title ;;
  forEach (fun '(label, value) => emit LConsole (label +:+ ": " +:+ value)) data.

(** *** src/utils/config.ts *)

Definition loadConfig (searchFrom : option string) : Eff (option ExgenConfig) :=
  try_catch
    (result ← call (explorer_search w searchFrom);
     match result with
     | Some (filepath, config) =>
         emit LDebug ("Found config file: " +:+ filepath) ;; mret (Some config)
     | None => emit LDebug "No config file found" ;; mret None
     end)
    (fun error =>
       emit LWarn ("Error loading config file: " +:+ message error) ;; mret None).

Definition mergeWithConfig (options : gmap string jsval) (projectPath : option string)
    : Eff (gmap string jsval) :=
  config ← loadConfig projectPath;
  match config with
  | Some {| defaults := Some d |} =>
      (* Merge config defaults with CLI options (CLI options take precedence) *)
      mret (spread d options)
  | _ => mret options
  end.

Definition probe (command : string) : bool :=
  match execSync w command None with
  | inr _ => true
  | inl _ => false
  end.

Definition detectPackageManager (projectPath : string) : Eff PackageManager :=
  (* Check for lock files *)
  if existsSync (fs w) (path_join w projectPath "pnpm-lock.yaml") then mret Pnpm
  else if existsSync (fs w) (path_join w projectPath "yarn.lock") then mret Yarn
  else
    (* Check for package manager in config *)
    config ← loadConfig (Some projectPath);
    match config ≫= cfg_packageManager with
    | Some pm => mret pm
    | None =>
        (* Check global installation *)
        if probe "yarn --version" then mret Yarn
        else if probe "pnpm --version" then mret Pnpm
        else mret Npm
    end.

(** *** src/utils/options.ts: [resolveOptions] *)

Definition resolveOptions (projectName projectPath : string) (options : gmap string jsval)
    : Eff ResolvedOptions :=
  (* Start with base options *)
  let resolved := spread ∅ options in
  (* Apply presets first (they can be overridden by specific flags) *)
  let resolved := Options.applyPresets resolved in
  (* Resolve TypeScript preference *)
  let isTypescript := Options.resolveTypeScript resolved in
  (* Determine features *)
  let features := Options.determineFeatures resolved in
  (* Detect package manager *)
  packageManager ← detectPackageManager projectPath;
  mret {| opts := resolved;
          projectName := projectName;
          projectPath := projectPath;
          packageManager := packageManager;
          isTypescript := isTypescript;
          features := features |}.

(** *** src/utils/installer.ts *)

(** The "bun" case of the switch is outside ["npm" | "yarn" | "pnpm"], the
    type of [options.packageManager]. *)
Definition getInstallCommand (packageManager : PackageManager) (isDev : bool)
    : string * list string :=
  match packageManager with
  | Yarn => ("yarn", if isDev then ["add"; "--dev"] else ["add"])
  | Pnpm => ("pnpm", if isDev then ["add"; "--save-dev"] else ["add"])
  | Npm => ("npm", if isDev then ["install"; "--save-dev"] else ["install"; "--save"])
  end.

Definition installPackages (packages : list string) (isDev : bool)
    (options : ResolvedOptions) : Eff InstallResult :=
  let installCommand := getInstallCommand (packageManager options) isDev in
  let args := snd installCommand ++ packages in
  emit LSpinner
    ("Installing " +:+ (if isDev then "development" else "production")
     +:+ " dependencies (" +:+ pretty (length packages) +:+ " packages)...") ;;
  try_catch
    (let result := executeCommand w (fst installCommand) args (projectPath options) in
     (if success result then
        emit LSpinner
          ((if isDev then "Development" else "Production")
           +:+ " dependencies installed (" +:+ pretty (length packages) +:+ " packages)") ;;
        (* Log installed packages in verbose mode *)
        (if env_VERBOSE w then emit LInfo ("Installed packages: " +:+ join ", " packages)
         else mret tt)
      else
        emit LSpinner
          ("Failed to install " +:+ (if isDev then "development" else "production")
           +:+ " dependencies") ;;
        throw (Error (match ir_error result with
                      | Some e => if String.eqb e "" then "Installation failed" else e
                      | None => "Installation failed"
                      end))) ;;
     mret result)
    (fun error =>
       emit LSpinner
         ("Failed to install " +:+ (if isDev then "development" else "production")
          +:+ " dependencies") ;;
       throw error).

Definition installDependencies (options : ResolvedOptions) : Eff unit :=
  try_catch
    ((* Get dependencies to install *)
     let dependencies := Options.getRequiredDependencies options in
     let devDependencies := Options.getRequiredDevDependencies options in
     (* Install production dependencies *)
     (if (0 <? length dependencies)%nat then
        installPackages dependencies false options ;; mret tt
      else mret tt) ;;
     (* Install development dependencies *)
     (if (0 <? length devDependencies)%nat then
        installPackages devDependencies true options ;; mret tt
      else mret tt) ;;
     emit LInfo "All dependencies installed successfully")
    (fun error =>
       emit LError ("Failed to install dependencies: Error: " +:+ message error) ;;
       throw error).

(** *** src/utils/git.ts *)

Definition isGitAvailable : bool := probe "git --version".

Definition isGitRepository (projectPath : string) : Eff bool :=
  try_catch (call (pathExists w (path_join w projectPath ".git")))
            (fun _ => mret false).

(** Writes the fixed [.gitignore] text. *)
Definition createGitignore (projectPath : string) : Eff unit :=
  call (writeFile w (path_join w projectPath ".gitignore")).

Definition createInitialCommit (projectPath : string) : Eff unit :=
  try_catch
    ((* Add all files *)
     call (execSync w "git add ." (Some projectPath)) ;;
     (* Check if there's anything to commit *)
     match execSync w "git diff --cached --exit-code" (Some projectPath) with
     | inr _ => mret tt   (* no changes to commit *)
     | inl _ =>
         (* Create initial commit *)
         call (execSync w
                 ("git commit -m " +:+ Str.dquote
                  +:+ "Initial commit: Created with EXGEN" +:+ Str.dquote)
                 (Some projectPath)) ;;
         mret tt
     end)
    (fun error =>
       (* If commit fails due to user configuration, that's okay *)
       if Str.includes "user.email" (message error)
          || Str.includes "user.name" (message error)
       then
         emit LInfo "Git user configuration needed - skipping initial commit" ;;
         emit LInfo "Configure Git with: git config --global user.name 'Your Name'" ;;
         emit LInfo
           "Configure Git with: git config --global user.email 'your.email@example.com'"
       else throw error).

Definition suggestGitConfig (projectPath : string) : Eff unit :=
  try_catch
    (userName ← call (execSync w "git config --global user.name" (Some projectPath));
     userEmail ← call (execSync w "git config --global user.email" (Some projectPath));
     let userName := Str.trim userName in
     let userEmail := Str.trim userEmail in
     if String.eqb userName "" || String.eqb userEmail "" then
       emit LInfo "Git configuration recommendations:" ;;
       (if String.eqb userName "" then
          emit LInfo "  Set your name: git config --global user.name 'Your Name'"
        else mret tt) ;;
       (if String.eqb userEmail "" then
          emit LInfo
            "  Set your email: git config --global user.email 'your.email@example.com'"
        else mret tt)
     else mret tt)
    (fun _ =>
       emit LInfo "Consider setting up Git configuration:" ;;
       emit LInfo "  git config --global user.name 'Your Name'" ;;
       emit LInfo "  git config --global user.email 'your.email@example.com'").

(** The [try] block of [initializeGit]. *)
Definition initializeGit_steps (projectPath : string) : Eff unit :=
  (* Check if Git is available *)
  if negb isGitAvailable then
    emit LSpinner "Git is not available - skipping repository initialization" ;;
    emit LWarn "Please install Git to enable version control features"
  else
    (* Check if already a Git repository *)
    isRepo ← isGitRepository projectPath;
    if (isRepo : bool) then emit LSpinner "Directory is already a Git repository"
    else
      (* Initialize Git repository *)
      call (execSync w "git init" (Some projectPath)) ;;
      createGitignore projectPath ;;
      createInitialCommit projectPath ;;
      emit LSpinner "Git repository initialized" ;;
      suggestGitConfig projectPath.

Definition initializeGit (projectPath : string) : Eff unit :=
  emit LSpinner "Initializing Git repository..." ;;
  try_catch
    (initializeGit_steps projectPath)
    (fun error =>
       emit LSpinner "Failed to initialize Git repository" ;;
       (if Str.includes "not found" (message error)
           || bool_decide (code error = Some "ENOENT")
        then
          emit LWarn "Git is not installed or not in PATH" ;;
          emit LInfo "Please install Git: https://git-scm.com/downloads"
        else emit LError ("Git initialization error: " +:+ message error)) ;;
       (* Don't throw error - Git initialization is not critical *)
       emit LInfo "Continuing without Git initialization...").

(** *** src/generators/project.ts: [generateProject]

    The generators write the project files and print nothing;
    [generateProject] reports how they ended and throws their error on. *)

Definition generateProject (options : ResolvedOptions) : Eff unit :=
  try_catch
    (call (generateFiles w options) ;;
     emit LInfo "Project files generated successfully")
    (fun error =>
       emit LError ("Failed to generate project files: Error: " +:+ message error) ;;
       throw error).

(** *** src/commands/create.ts *)

Definition displayProjectSummary (options : ResolvedOptions) : Eff unit :=
  let o := opts options in
  let tableData :=
    [("Project Name", projectName options);
     ("Location", projectPath options);
     ("Language", if isTypescript options then "TypeScript" else "JavaScript");
     ("Package Manager", pm_name (packageManager options));
     ("Features",
      let joined := join ", " (features options) in
      if String.eqb joined "" then "Basic Express setup" else joined)] in
  let tableData :=
    if truthy o.["view"] && negb (truthy o.["noView"]) then
      tableData ++ [("View Engine", to_string o.["view"])]
    else tableData in
  let tableData :=
    if truthy o.["css"] then tableData ++ [("CSS Engine", to_string o.["css"])]
    else tableData in
  logTable tableData "Project Summary".

Definition showDryRun (options : ResolvedOptions) : Eff unit :=
  emit LInfo "DRY RUN - Project would be created with the following configuration:" ;;
  displayProjectSummary options ;;
  (* Show file structure that would be created *)
  emit LInfo "Files and directories that would be created:" ;;
  let structure :=
    ["src/"; "src/api/"; "src/config/"; "src/utils/"; "bin/"; "public/";
     "package.json"; "README.md"] in
  let structure := push_if (isTypescript options) ["tsconfig.json"] structure in
  let structure :=
    push_if (truthy (opts options).["docker"]) ["Dockerfile"; "docker-compose.yml"]
      structure in
  let structure :=
    push_if (truthy (opts options).["test"]) ["tests/"; "jest.config.js"] structure in
  forEach (fun item => emit LInfo ("  " +:+ item)) structure.

Definition showCompletionMessage (options : ResolvedOptions) : Eff unit :=
  let o := opts options in
  let pm := pm_name (packageManager options) in
  let relativeProjectPath := path_relative w (cwd w) (projectPath options) in
  logSuccess "Project created successfully!" ;;
  let nextSteps := ["cd " +:+ relativeProjectPath] in
  let nextSteps := push_if (truthy o.["skipInstall"]) [pm +:+ " install"] nextSteps in
  let nextSteps :=
    if isTypescript options then nextSteps ++ [pm +:+ " run build"; pm +:+ " run dev"]
    else nextSteps ++ [pm +:+ " run dev"] in
  emit LConsole "Next steps:" ;;
  forEach (fun step => emit LConsole ("  " +:+ step)) nextSteps ;;
  (* Show additional information based on features *)
  let additionalInfo := [] in
  let additionalInfo :=
    push_if (truthy o.["swagger"])
      ["Swagger documentation will be available at http://localhost:3000/api-docs"]
      additionalInfo in
  let additionalInfo :=
    push_if (truthy o.["mongodb"])
      ["MongoDB connection configured - update DATABASE_URL in .env"] additionalInfo in
  let additionalInfo :=
    push_if (truthy o.["postgres"])
      ["PostgreSQL connection configured - update DATABASE_URL in .env"] additionalInfo in
  let additionalInfo :=
    push_if (truthy o.["redis"])
      ["Redis connection configured - update REDIS_URL in .env"] additionalInfo in
  let additionalInfo :=
    push_if (truthy o.["docker"])
      ["Docker setup included - run: docker-compose up --build"] additionalInfo in
  let additionalInfo :=
    push_if (truthy o.["test"]) ["Test suite configured - run: npm test"] additionalInfo in
  (if (0 <? length additionalInfo)%nat then
     emit LConsole "Additional information:" ;;
     forEach (fun info => emit LConsole ("  " +:+ info)) additionalInfo
   else mret tt) ;;
  emit LConsole "Documentation and examples are included in the generated README.md" ;;
  emit LConsole "Happy coding with EXGEN!".

(** Steps 1 and 2 of [createProject]: the three validation checks and the
    resolution of the options. *)
Definition validateAndResolve (projectName : option string) (options : gmap string jsval)
    : Eff ResolvedOptions :=
  (* Step 1: Validate and resolve project name *)
  logStep 1 6 "Validating project configuration..." ;;
  match projectName with
  | None | Some "" =>
      throw (Error "Project name is required. Use: exgen <project-name> [options]")
  | Some projectName =>
      (* Validate project name *)
      let nameValidation :=
        Validation.validateProjectName (validateNpmPackageName w) projectName in
      if negb (valid nameValidation) then
        throw (Error ("Invalid project name:" +:+ Str.nl
                      +:+ join Str.nl (errors nameValidation)))
      else
        forEach (emit LWarn) (warnings nameValidation) ;;
        (* Sanitize project name *)
        let sanitizedName := Validation.sanitizeProjectName projectName in
        let projectPath := path_resolve w (cwd w) sanitizedName in
        (* Validate project path *)
        let pathValidation := Validation.validateProjectPath (fs w) projectPath in
        if negb (valid pathValidation) then
          throw (Error ("Invalid project path:" +:+ Str.nl
                        +:+ join Str.nl (errors pathValidation)))
        else
          forEach (emit LWarn) (warnings pathValidation) ;;
          (* Step 2: Resolve options with config *)
          logStep 2 6 "Resolving project options..." ;;
          mergedOptions ← mergeWithConfig options (Some (cwd w));
          let optionsValidation := Validation.validateOptions mergedOptions in
          if negb (valid optionsValidation) then
            throw (Error ("Invalid options:" +:+ Str.nl
                          +:+ join Str.nl (errors optionsValidation)))
          else
            forEach (emit LWarn) (warnings optionsValidation) ;;
            (* Resolve final options *)
            resolveOptions sanitizedName projectPath mergedOptions
  end.

(** Steps 3 to 6 of [createProject], after the options are resolved. *)
Definition materializeAndFinish (options : gmap string jsval)
    (resolvedOptions : ResolvedOptions) : Eff unit :=
  (* Show what will be created *)
  if truthy options.["dryRun"] then showDryRun resolvedOptions
  else
    (* Display project summary *)
    displayProjectSummary resolvedOptions ;;
    (* Step 3: Create project directory structure *)
    logStep 3 6 "Creating project structure..." ;;
    emit LSpinner "Setting up project directories..." ;;
    try_catch
      (call (ensureDir w (projectPath resolvedOptions)) ;;
       generateProject resolvedOptions ;;
       emit LSpinner "Project structure created")
      (fun error => emit LSpinner "Failed to create project structure" ;; throw error) ;;
    (* Step 4: Install dependencies *)
    (if negb (truthy options.["skipInstall"]) then
       logStep 4 6 "Installing dependencies..." ;;
       installDependencies resolvedOptions
     else emit LInfo "Skipping dependency installation") ;;
    (* Step 5: Initialize Git repository *)
    (if negb (truthy options.["skipGit"])
        && negb (bool_decide (options.["git"] = VBool false))
     then
       logStep 5 6 "Initializing Git repository..." ;;
       initializeGit (projectPath resolvedOptions)
     else emit LInfo "Skipping Git initialization") ;;
    (* Step 6: Show completion message *)
    logStep 6 6 "Finalizing project setup..." ;;
    showCompletionMessage resolvedOptions.

(** How a call of [createProject] ends: it returns (the process goes on and
    exits with code 0) or it calls [process.exit(code)]. *)
Inductive Exit : Type :=
  | Returned
  | ProcessExit (code : nat).

Definition createProject (projectName : option string) (options : gmap string jsval)
    : Trace * Exit :=
  let body : Eff unit :=
    logHeader "EXGEN - Express Application Generator" ;;
    resolvedOptions ← validateAndResolve projectName options;
    materializeAndFinish options resolvedOptions in
  match try_catch (body ;; mret Returned)
                  (fun error => logError error ;; mret (ProcessExit 1)) with
  | (t, inr exit) => (t, exit)
  | (t, inl _) => (t, ProcessExit 1)
  end.

End Run.

(** ** Observations on runs, and sample inputs *)

(** The result of a computation that did not throw. *)
Definition result_of {A : Type} (m : Eff A) : option A :=
  match snd m with
  | inr x => Some x
  | inl _ => None
  end.

Module Samples.

(** A file system in which nothing exists yet and every directory is writable. *)
Definition fs_empty : FileSystem :=
  {| existsSync := fun _ => false;
     statSync_isDirectory := fun _ => inl (Error "ENOENT: no such file or directory");
     readdirSync := fun _ => inl (Error "ENOENT: no such file or directory");
     accessSync_W_OK := fun _ => inr tt;
     dirname := fun _ => "/work" |}.

(** The target path is an existing directory holding [files]; [writable]
    tells whether its parent can be written. *)
Definition fs_dir (files : list string) (writable : bool) : FileSystem :=
  {| existsSync := fun _ => true;
     statSync_isDirectory := fun _ => inr true;
     readdirSync := fun _ => inr files;
     accessSync_W_OK :=
       fun _ => if writable then inr tt else inl (Error "EACCES: permission denied");
     dirname := fun _ => "/work" |}.

(** The target path is an existing plain file. *)
Definition fs_file : FileSystem :=
  {| existsSync := fun _ => true;
     statSync_isDirectory := fun _ => inr false;
     readdirSync := fun _ => inl (Error "ENOTDIR: not a directory");
     accessSync_W_OK := fun _ => inr tt;
     dirname := fun _ => "/work" |}.

Definition builtins : list string :=
  ["assert"; "buffer"; "child_process"; "crypto"; "events"; "fs"; "http"; "https";
   "net"; "os"; "path"; "stream"; "url"; "util"; "zlib"].

(** A machine on which every subprocess succeeds ([install_ok], [git_ok]) or
    fails, with no configuration file. *)
Definition world (install_ok git_ok : bool) : World :=
  {| fs := fs_empty;
     validateNpmPackageName := NpmName.validate builtins;
     cwd := "/work";
     env_VERBOSE := false;
     path_resolve := fun a b => a +:+ "/" +:+ b;
     path_join := fun a b => a +:+ "/" +:+ b;
     path_relative := fun _ b => b;
     explorer_search := fun _ => inr None;
     execSync :=
       fun _ _ => if git_ok then inr "" else inl (Error "/bin/sh: git: not found");
     pathExists := fun _ => inr false;
     ensureDir := fun _ => inr tt;
     writeFile := fun _ => inr tt;
     generateFiles := fun _ => inr tt;
     executeCommand :=
       fun _ _ _ =>
         if install_ok then {| success := true; ir_error := None; ir_output := Some "" |}
         else {| success := false; ir_error := Some "npm ERR! network"; ir_output := None |} |}.

Definition prod_without_typescript : gmap string jsval :=
  obj [("prod", T); ("typescript", VBool false)].

Definition javascript_with_prod : gmap string jsval :=
  obj [("javascript", T); ("prod", T)].

Definition api_only : gmap string jsval := obj [("api", T)].

Definition fullstack_only : gmap string jsval := obj [("fullstack", T)].

Definition noView_with_view : gmap string jsval :=
  obj [("noView", T); ("view", VStr "ejs")].

(** [ResolvedOptions{mongodb: true, auth: true, isTypescript: true}] *)
Definition mongo_auth_ts : ResolvedOptions :=
  {| opts := obj [("mongodb", T); ("auth", T)];
     projectName := "demo";
     projectPath := "/work/demo";
     packageManager := Npm;
     isTypescript := true;
     features := ["TypeScript"; "MongoDB"; "JWT Auth"; "Git"] |}.

End Samples.

(** ** The language rule in terms of the raw flags *)

Module LanguageRule.

(** One of the presets [resolveTypeScript] names is active. *)
Definition typescript_preset (o : gmap string jsval) : bool :=
  truthy o.["api"] || truthy o.["microservice"] || truthy o.["startup"]
  || truthy o.["prod"] || truthy o.["min"] || truthy o.["light"].

(** The rule of the specification, read on a record [o]: JavaScript when
    "use JavaScript" is set and "use TypeScript" is not; otherwise TypeScript
    exactly when it is set or a preset implying it is active. *)
Definition rule (o : gmap string jsval) : bool :=
  if truthy o.["javascript"] && negb (truthy o.["typescript"]) then false
  else truthy o.["typescript"] || typescript_preset o.

(** The value of [typescript] after preset application: the raw record's
    own property when it has one, else [true] exactly when an active preset
    bundle sets it (the six presets above and [all]). *)
Definition merged_typescript (raw : gmap string jsval) : bool :=
  match raw !! "typescript" with
  | Some v => truthy v
  | None => typescript_preset raw || truthy raw.["all"]
  end.

(** The rule on the raw flags, with [typescript] read after preset application. *)
Definition rule_after_presets (raw : gmap string jsval) : bool :=
  if truthy raw.["javascript"] && negb (merged_typescript raw) then false
  else merged_typescript raw || typescript_preset raw.

End LanguageRule.

(** ** Dependency lists: the packages each list can hold *)

Module Deps.

(** Both engines, when set, are from the supported lists (the options check
    of the validator has passed). *)
Definition engines_supported (o : gmap string jsval) : bool :=
  (negb (truthy o.["view"]) || includes SUPPORTED_VIEW_ENGINES o.["view"])
  && (negb (truthy o.["css"]) || includes SUPPORTED_CSS_ENGINES o.["css"]).

(** Every package [getRequiredDependencies] names, the view engine apart. *)
Definition runtime_packages : list string :=
  ["express"; "dotenv"; "cors"; "cookie-parser"; "morgan"; "node-sass-middleware";
   "less-middleware"; "stylus"; "mongoose"; "sequelize"; "pg"; "ioredis";
   "swagger-jsdoc"; "swagger-ui-express"; "jsonwebtoken"; "bcryptjs"; "helmet";
   "express-rate-limit"; "joi"; "winston"; "winston-elasticsearch"].

(** Every package [getRequiredDevDependencies] names. *)
Definition development_packages : list string :=
  ["nodemon"; "typescript"; "@types/node"; "@types/express"; "ts-node"; "tsx";
   "@types/cors"; "@types/ejs"; "@types/mongoose"; "@types/pg"; "@types/redis";
   "@types/swagger-jsdoc"; "@types/swagger-ui-express"; "@types/jsonwebtoken";
   "@types/bcryptjs"; "@types/helmet"; "@types/joi"; "jest"; "@types/jest"; "ts-jest"].

Definition mem (x : string) (l : list string) : bool := existsb (String.eqb x) l.

Definition subset (l1 l2 : list string) : bool := forallb (fun x => mem x l2) l1.

Definition disjoint (l1 l2 : list string) : bool := forallb (fun x => negb (mem x l2)) l1.

End Deps.

(** ** The rules of the options check *)

Module OptionsCheck.

(** A view engine is set and is not one of the supported names. *)
Definition unsupported_view (o : gmap string jsval) : bool :=
  truthy o.["view"] && negb (includes SUPPORTED_VIEW_ENGINES o.["view"]).

Definition unsupported_css (o : gmap string jsval) : bool :=
  truthy o.["css"] && negb (includes SUPPORTED_CSS_ENGINES o.["css"]).

(** [--no-view] together with a view engine. *)
Definition view_conflict (o : gmap string jsval) : bool :=
  truthy o.["noView"] && truthy o.["view"].

Definition both_languages (o : gmap string jsval) : bool :=
  truthy o.["typescript"] && truthy o.["javascript"].

Definition both_databases (o : gmap string jsval) : bool :=
  truthy o.["mongodb"] && truthy o.["postgres"].

(** The number of named presets that are active. *)
Definition active_presets (o : gmap string jsval) : nat :=
  length (List.filter truthy
            [o.["light"]; o.["all"]; o.["prod"]; o.["min"]; o.["api"];
             o.["fullstack"]; o.["microservice"]; o.["startup"]]).

Definition view_error (o : gmap string jsval) : string :=
  "Unsupported view engine: " +:+ to_string o.["view"]
  +:+ ". Supported engines: ejs, pug, hbs, hogan, mustache, handlebars".

Definition css_error (o : gmap string jsval) : string :=
  "Unsupported CSS engine: " +:+ to_string o.["css"]
  +:+ ". Supported engines: less, sass, scss, stylus, compass".

Definition conflict_error : string := "Cannot specify both --no-view and --view".

Definition languages_warning : string :=
  "Both TypeScript and JavaScript flags specified. TypeScript will be used".

Definition databases_warning : string :=
  "Both MongoDB and PostgreSQL selected. Both will be included".

Definition presets_warning : string :=
  "Multiple presets specified. Last one will take precedence".

End OptionsCheck.

(** A result is consistent when it is valid exactly if it has no error. *)
Definition consistent (r : ValidationResult) : Prop :=
  if valid r then errors r = [] else errors r <> [].

(** ** The three checks as [createProject] runs them *)

Module Checks.

Section WithWorld.

Context (w : World).

Definition nameValidation (name : string) : ValidationResult :=
  Validation.validateProjectName (validateNpmPackageName w) name.

(** The target path: the sanitized name resolved against the working directory. *)
Definition target_path (name : string) : string :=
  path_resolve w (cwd w) (Validation.sanitizeProjectName name).

Definition pathValidation (name : string) : ValidationResult :=
  Validation.validateProjectPath (fs w) (target_path name).

(** The options after the defaults of the configuration file are merged in. *)
Definition merged_options (options : gmap string jsval) : gmap string jsval :=
  match result_of (mergeWithConfig w options (Some (cwd w))) with
  | Some merged => merged
  | None => options
  end.

Definition optionsValidation (options : gmap string jsval) : ValidationResult :=
  Validation.validateOptions (merged_options options).

End WithWorld.

(** The error thrown for a failed check: a header line, then the errors of
    that check, one per line. *)
Definition report (header : string) (v : ValidationResult) : JsError :=
  Error (header +:+ Str.nl +:+ join Str.nl (errors v)).

(** No line of the trace mentions [text]. *)
Definition unmentioned (text : string) (t : Trace) : bool :=
  forallb (fun '(_, msg) => negb (Str.includes text msg)) t.

(** The line that reports overall success. *)
Definition success_line : Channel * string := (LConsole, "Project created successfully!").

End Checks.

(** A computation that returns a result rather than throwing. *)
Definition succeeds {A : Type} (m : Eff A) : Prop := exists t x, m = (t, inr x).

(** ** The built-in presets as layers *)

Module Presets.

(** The built-in presets in the order [applyPresets] applies them, each with
    the bundle it merges. *)
Definition builtin : list (string * gmap string jsval) :=
  [("light", Options.getPresetOptions "light");
   ("api", Options.getPresetOptions "api");
   ("fullstack", Options.getPresetOptions "fullstack");
   ("microservice", Options.getPresetOptions "microservice");
   ("startup", Options.getPresetOptions "startup");
   ("min", Options.getPresetOptions "min");
   ("prod", Options.getPresetOptions "prod");
   ("all", Options.getAllPresetOptions)].

(** The value the presets active in [raw] give to property [k]: that of the
    last active bundle that has it, [init] when none has. *)
Definition setting (raw : gmap string jsval) (k : string)
    (l : list (string * gmap string jsval)) (init : option jsval) : option jsval :=
  fold_left
    (fun r '(p, bundle) =>
       match (if truthy raw.[p] then bundle !! k else None) with
       | Some v => Some v
       | None => r
       end)
    l init.

(** Two bundles give the same value to every property both have. *)
Definition agree (b c : gmap string jsval) : bool :=
  forallb
    (fun '(k, v) =>
       match c !! k with
       | Some v' => bool_decide (v = v')
       | None => true
       end)
    (map_to_list b).

End Presets.

(** ** Feature labels *)

Module Labels.

(** The label [determineFeatures] shows for each feature that
    [shouldIncludeFeature] knows by name. *)
Definition of_feature : list (string * string) :=
  [("TypeScript", "typescript"); ("MongoDB", "mongodb"); ("PostgreSQL", "postgres");
   ("Redis", "redis"); ("JWT Auth", "auth"); ("CORS", "cors"); ("Helmet", "helmet");
   ("Rate Limiting", "rateLimit"); ("Joi Validation", "validation");
   ("Swagger/OpenAPI", "swagger"); ("Jest Testing", "test"); ("Docker", "docker");
   ("ELK Logging", "elk")].

(** The list has an entry for a view engine, for a CSS engine. *)
Definition has_view (l : list string) : bool := existsb (String.prefix "View: ") l.

Definition has_css (l : list string) : bool := existsb (String.prefix "CSS: ") l.

End Labels.

(** ** Package lists without repetition *)

Module Packages.

(** No string occurs twice in [l]. *)
Fixpoint distinct (l : list string) : bool :=
  match l with
  | [] => true
  | x :: rest => negb (Deps.mem x rest) && distinct rest
  end.

(** [l] repeats nothing and stays within the packages [U]. *)
Definition within (U l : list string) : Prop := NoDup l /\ incl l U.

(** The runtime package each type-declaration package belongs to. *)
Definition declared_for : list (string * string) :=
  [("@types/express", "express"); ("@types/cors", "cors"); ("@types/ejs", "ejs");
   ("@types/mongoose", "mongoose"); ("@types/pg", "pg");
   ("@types/swagger-jsdoc", "swagger-jsdoc");
   ("@types/swagger-ui-express", "swagger-ui-express");
   ("@types/jsonwebtoken", "jsonwebtoken"); ("@types/bcryptjs", "bcryptjs");
   ("@types/helmet", "helmet"); ("@types/joi", "joi")].

End Packages.

(** ** Further sample inputs *)

Module MoreSamples.

(** A configuration file that sets defaults and prefers npm. *)
Definition config : ExgenConfig :=
  {| defaults := Some (obj [("typescript", VBool true); ("cors", VBool true)]);
     cfg_packageManager := Some Npm |}.

(** The sample machine with that configuration file and a [yarn.lock] in
    every project directory. *)
Definition world_with_config : World :=
  {| fs :=
       {| existsSync := fun p => String.eqb p "/work/demo/yarn.lock";
          statSync_isDirectory := fun _ => inr true;
          readdirSync := fun _ => inr [];
          accessSync_W_OK := fun _ => inr tt;
          dirname := fun _ => "/work" |};
     validateNpmPackageName := NpmName.validate Samples.builtins;
     cwd := "/work";
     env_VERBOSE := false;
     path_resolve := fun a b => a +:+ "/" +:+ b;
     path_join := fun a b => a +:+ "/" +:+ b;
     path_relative := fun _ b => b;
     explorer_search := fun _ => inr (Some ("/work/.exgenrc.json", config));
     execSync := fun _ _ => inr "";
     pathExists := fun _ => inr false;
     ensureDir := fun _ => inr tt;
     writeFile := fun _ => inr tt;
     generateFiles := fun _ => inr tt;
     executeCommand :=
       fun _ _ _ => {| success := true; ir_error := None; ir_output := Some "" |} |}.

(** A record that carries every boolean flag, all [false] but [prod]. *)
Definition every_flag_prod : gmap string jsval :=
  obj [("light", VBool false); ("all", VBool false); ("prod", VBool true);
       ("min", VBool false); ("typescript", VBool false); ("javascript", VBool false);
       ("swagger", VBool false); ("docker", VBool false); ("mongodb", VBool false);
       ("postgres", VBool false); ("redis", VBool false); ("test", VBool false);
       ("elk", VBool false); ("auth", VBool false); ("cors", VBool false);
       ("helmet", VBool false); ("rateLimit", VBool false); ("validation", VBool false);
       ("api", VBool false); ("fullstack", VBool false); ("microservice", VBool false);
       ("startup", VBool false); ("skipInstall", VBool false); ("skipGit", VBool false);
       ("verbose", VBool false); ("dryRun", VBool false)].

End MoreSamples.

(** ** src/utils/validation.ts: the environment check *)

Module Environment.

(** One round of the loop over the required commands. *)
Definition require_command (w : World) (result : ValidationResult) (cmd : string)
    : ValidationResult :=
  match execSync w (cmd +:+ " --version") None with
  | inr _ => result
  | inl _ =>
      Validation.push_errors [cmd +:+ " is not installed or not in PATH"]
        (Validation.set_invalid result)
  end.

(** One round of the loop over the optional commands. *)
Definition suggest_command (w : World) (result : ValidationResult) (cmd : string)
    : ValidationResult :=
  match execSync w (cmd +:+ " --version") None with
  | inr _ => result
  | inl _ => Validation.push_warnings [cmd +:+ " is not available (optional)"] result
  end.

Definition validateEnvironment (w : World) : ValidationResult :=
  let result := Validation.new_result in
  (* Check for required tools *)
  let requiredCommands := ["node"; "npm"] in
  let result := fold_left (require_command w) requiredCommands result in
  (* Check for optional tools *)
  let optionalCommands := ["git"; "docker"; "yarn"; "pnpm"] in
  let result := fold_left (suggest_command w) optionalCommands result in
  result.

End Environment.

(** ** The installer's answers *)

Module Install.

Section WithWorld.

Context (w : World) (r : ResolvedOptions).

Definition packages (isDev : bool) : list string :=
  if isDev then Options.getRequiredDevDependencies r
  else Options.getRequiredDependencies r.

(** What [executeCommand] answers for the production ([isDev = false]) or the
    development list. *)
Definition answer (isDev : bool) : InstallResult :=
  let installCommand := getInstallCommand (packageManager r) isDev in
  executeCommand w (fst installCommand) (snd installCommand ++ packages isDev)
    (projectPath r).

End WithWorld.

(** [new Error(result.error || "Installation failed")] *)
Definition failure (result : InstallResult) : JsError :=
  Error (match ir_error result with
         | Some e => if String.eqb e "" then "Installation failed" else e
         | None => "Installation failed"
         end).

Definition started (isDev : bool) (n : nat) : Channel * string :=
  (LSpinner,
   "Installing " +:+ (if isDev then "development" else "production")
   +:+ " dependencies (" +:+ pretty n +:+ " packages)...").

Definition failed (isDev : bool) : Channel * string :=
  (LSpinner,
   "Failed to install " +:+ (if isDev then "development" else "production")
   +:+ " dependencies").

Definition reported (e : JsError) : Channel * string :=
  (LError, "Failed to install dependencies: Error: " +:+ message e).

End Install.

(** A world that differs from [w] in the calls that change the machine:
    directory creation, generation, file writing and package installation. *)
Definition with_actions (w : World)
    (ensure : string -> JsError + unit) (write : string -> JsError + unit)
    (generate : ResolvedOptions -> JsError + unit)
    (execute : string -> list string -> string -> InstallResult) : World :=
  {| fs := fs w;
     validateNpmPackageName := validateNpmPackageName w;
     cwd := cwd w;
     env_VERBOSE := env_VERBOSE w;
     path_resolve := path_resolve w;
     path_join := path_join w;
     path_relative := path_relative w;
     explorer_search := explorer_search w;
     execSync := execSync w;
     pathExists := pathExists w;
     ensureDir := ensure;
     writeFile := write;
     generateFiles := generate;
     executeCommand := execute |}.

(** ** Lines of the Git initializer *)

Module GitLines.

Definition started : Channel * string := (LSpinner, "Initializing Git repository...").

Definition continuing : Channel * string :=
  (LInfo, "Continuing without Git initialization...").

(** The commit failed for lack of a Git identity. *)
Definition identity_missing (e : JsError) : bool :=
  Str.includes "user.email" (message e) || Str.includes "user.name" (message e).

Definition commit_command : string :=
  "git commit -m " +:+ Str.dquote +:+ "Initial commit: Created with EXGEN" +:+ Str.dquote.

End GitLines.

(** A machine with Git on which [git commit] fails with [msg]; nothing is
    staged-clean, so a commit is attempted. *)
Definition world_commit_fails (msg : string) : World :=
  {| fs := Samples.fs_empty;
     validateNpmPackageName := NpmName.validate Samples.builtins;
     cwd := "/work";
     env_VERBOSE := false;
     path_resolve := fun a b => a +:+ "/" +:+ b;
     path_join := fun a b => a +:+ "/" +:+ b;
     path_relative := fun _ b => b;
     explorer_search := fun _ => inr None;
     execSync :=
       fun cmd _ =>
         if String.eqb cmd GitLines.commit_command then inl (Error msg)
         else if String.eqb cmd "git diff --cached --exit-code" then inl (Error "exit 1")
         else inr "";
     pathExists := fun _ => inr false;
     ensureDir := fun _ => inr tt;
     writeFile := fun _ => inr tt;
     generateFiles := fun _ => inl (Error "EACCES: permission denied");
     executeCommand :=
       fun _ _ _ => {| success := true; ir_error := None; ir_output := Some "" |} |}.

(** ** src/commands/init.ts: the options of the interactive setup *)

Module Init.

(** What the user answers to the prompts of [initProject], in order.  The
    answers to prompts that are not shown ([cssEngine] when no view engine is
    chosen, the custom configuration when a preset is) are not read. *)
Record Answers : Type := {
  projectName : string;
  language : string;
  projectType : string;
  viewEngine : string;
  cssEngine : string;
  database : string;
  features : list string;
  additionalOptions : list string;
  proceed : bool
}.

(** [preset] is one of the values of the project-type prompt. *)
Definition applyPreset (preset : string) (baseOptions : gmap string jsval)
    : gmap string jsval :=
  let presets :=
    [("api",
      spread baseOptions
        (obj [("typescript", T); ("cors", T); ("helmet", T); ("validation", T);
              ("test", T)]));
     ("fullstack",
      spread baseOptions
        (obj [("view", VStr "ejs"); ("css", VStr "sass"); ("auth", T); ("mongodb", T);
              ("test", T)]));
     ("microservice",
      spread baseOptions
        (obj [("typescript", T); ("docker", T); ("redis", T); ("test", T); ("elk", T)]));
     ("startup",
      spread baseOptions
        (obj [("typescript", T); ("mongodb", T); ("auth", T); ("swagger", T);
              ("docker", T); ("test", T)]));
     ("light", spread baseOptions (obj [("cors", T); ("helmet", T)]));
     ("prod",
      spread baseOptions
        (obj [("typescript", T); ("docker", T); ("swagger", T); ("test", T); ("elk", T);
              ("cors", T); ("helmet", T); ("rateLimit", T); ("validation", T)]))] in
  match find (fun '(name, _) => String.eqb name preset) presets with
  | Some (_, options) => options
  | None => baseOptions
  end.

(** [features.forEach(feature => options[feature] = true)] *)
Definition enable (features : list string) (options : gmap string jsval)
    : gmap string jsval :=
  fold_left (fun options feature => <[feature := T]> options) features options.

Definition customConfiguration (a : Answers) (options : gmap string jsval)
    : gmap string jsval :=
  (* View engine *)
  let options :=
    if negb (String.eqb (viewEngine a) "none") then
      let options := <["view" := VStr (viewEngine a)]> options in
      if negb (String.eqb (cssEngine a) "none") then
        <["css" := VStr (cssEngine a)]> options
      else options
    else options in
  (* Database *)
  let options :=
    if String.eqb (database a) "mongodb" then <["mongodb" := T]> options else options in
  let options :=
    if String.eqb (database a) "postgres" then <["postgres" := T]> options else options in
  (* Apply selected features *)
  enable (features a) options.

(** [additionalOptions.includes(x)] *)
Definition checked (a : Answers) (x : string) : bool :=
  existsb (String.eqb x) (additionalOptions a).

(** The options [initProject] passes to [createProject]. *)
Definition chosenOptions (a : Answers) : gmap string jsval :=
  let options := obj [("typescript", VBool (String.eqb (language a) "typescript"))] in
  (* Apply preset configurations *)
  let options :=
    if negb (String.eqb (projectType a) "custom") then applyPreset (projectType a) options
    else customConfiguration a options in
  (* Apply additional options *)
  let options := <["git" := VBool (checked a "git")]> options in
  let options := <["skipInstall" := VBool (checked a "skipInstall")]> options in
  let options := <["skipGit" := VBool (negb (checked a "git"))]> options in
  let options := <["verbose" := VBool (checked a "verbose")]> options in
  options.

(** Every answer is one of the choices its prompt offers. *)
Definition offered (a : Answers) : bool :=
  Deps.mem (language a) ["typescript"; "javascript"]
  && Deps.mem (projectType a)
       ["custom"; "api"; "fullstack"; "microservice"; "startup"; "light"; "prod"]
  && Deps.mem (viewEngine a) ["none"; "ejs"; "pug"; "hbs"; "mustache"]
  && Deps.mem (cssEngine a) ["none"; "sass"; "less"; "stylus"]
  && Deps.mem (database a) ["none"; "mongodb"; "postgres"]
  && Deps.subset (features a)
       ["swagger"; "docker"; "redis"; "test"; "elk"; "auth"; "cors"; "helmet";
        "rateLimit"; "validation"]
  && Deps.subset (additionalOptions a) ["git"; "skipInstall"; "verbose"].

(** The answers with no feature ticked in the last two lists. *)
Definition unticked (a : Answers) : Answers :=
  {| projectName := projectName a;
     language := language a;
     projectType := projectType a;
     viewEngine := viewEngine a;
     cssEngine := cssEngine a;
     database := database a;
     features := [];
     additionalOptions := [];
     proceed := proceed a |}.

(** The properties that the options check, preset application and language
    resolution read, apart from those the feature list can set. *)
Definition read : list string :=
  ["view"; "css"; "noView"; "typescript"; "javascript"; "mongodb"; "postgres";
   "light"; "all"; "prod"; "min"; "api"; "fullstack"; "microservice"; "startup";
   "dryRun"].

(** The summary line [initProject] prints for the language. *)
Definition summary_language (a : Answers) : string :=
  if String.eqb (language a) "typescript" then "TypeScript" else "JavaScript".

(** JavaScript, a custom stack with Pug, Less and PostgreSQL, no Git. *)
Definition sample : Answers :=
  {| projectName := "shop";
     language := "javascript";
     projectType := "custom";
     viewEngine := "pug";
     cssEngine := "less";
     database := "postgres";
     features := ["swagger"; "test"];
     additionalOptions := ["verbose"];
     proceed := true |}.

(** JavaScript chosen, then the API preset. *)
Definition javascript_api : Answers :=
  {| projectName := "shop";
     language := "javascript";
     projectType := "api";
     viewEngine := "none";
     cssEngine := "none";
     database := "none";
     features := [];
     additionalOptions := ["git"];
     proceed := true |}.

End Init.

(** ** Sanitized project names *)

Module Sanitized.

Fixpoint all_chars (p : ascii -> bool) (s : string) : bool :=
  match s with
  | EmptyString => true
  | String c rest => p c && all_chars p rest
  end.

(** No two hyphens in a row; [after_hyphen] tells whether a hyphen comes
    right before [s]. *)
Fixpoint single_hyphens (s : string) (after_hyphen : bool) : bool :=
  match s with
  | EmptyString => true
  | String c rest =>
      if Ascii.eqb c "-" then negb after_hyphen && single_hyphens rest true
      else single_hyphens rest false
  end.

Definition starts_with_hyphen (s : string) : bool :=
  match s with
  | String c _ => Ascii.eqb c "-"
  | EmptyString => false
  end.

Fixpoint ends_with_hyphen (s : string) : bool :=
  match s with
  | EmptyString => false
  | String c EmptyString => Ascii.eqb c "-"
  | String _ rest => ends_with_hyphen rest
  end.

(** Lower-case letters, digits and single hyphens, with no hyphen at either end. *)
Definition clean (s : string) : bool :=
  all_chars Validation.is_name_char s && single_hyphens s false
  && negb (starts_with_hyphen s) && negb (ends_with_hyphen s).

End Sanitized.

(** ** node:path, POSIX flavour

    The generators build every path with [path.join(projectPath, ...)], where
    [projectPath] is absolute and normalised (it comes from [path.resolve]).
    [path.join] joins its non-empty arguments with "/" and normalises the
    result: empty and "." components are dropped, and ".." removes the
    component before it.  Paths are kept relative to the project directory:
    "." is the project directory itself, and a path that starts with ".."
    lies outside of it (Node drops a ".." above the root of the file system,
    which is not modelled). *)

Module Path.

(** [path.split("/")] *)
Fixpoint split (path : string) : list string :=
  match path with
  | EmptyString => [""]
  | String c rest =>
      if Ascii.eqb c "/" then "" :: split rest
      else match split rest with
           | [] => [String c ""]
           | part :: parts => String c part :: parts
           end
  end.

(** The components that remain of [parts]; [seen] are the components kept
    so far, the last one first. *)
Fixpoint resolve (seen parts : list string) : list string :=
  match parts with
  | [] => rev seen
  | part :: rest =>
      if String.eqb part "" || String.eqb part "." then resolve seen rest
      else if String.eqb part ".." then
        match seen with
        | [] => resolve [".."] rest
        | last :: before =>
            if String.eqb last ".." then resolve (".." :: seen) rest
            else resolve before rest
        end
      else resolve (part :: seen) rest
  end.

Definition components (path : string) : list string := resolve [] (split path).

(** [path] ends with a separator. *)
Definition trailing_separator (path : string) : bool :=
  match Str.rev_string path "" with
  | String c _ => Ascii.eqb c "/"
  | EmptyString => false
  end.

(** [path.normalize(path)] for a relative path *)
Definition normalize (path : string) : string :=
  let body := Js.join "/" (components path) in
  if String.eqb body "" then (if trailing_separator path then "./" else ".")
  else if trailing_separator path then body +:+ "/"
  else body.

(** [path.join(projectPath, ...segments)], relative to [projectPath] *)
Definition join (segments : list string) : string :=
  normalize (Js.join "/" (filter (fun segment => negb (String.eqb segment "")) segments)).

(** The directory that holds the entry [path] names. *)
Definition parent (path : string) : string :=
  match rev (components path) with
  | [] => ".."
  | last :: before =>
      if String.eqb last ".." then Js.join "/" (components path ++ [".."])
      else match before with
           | [] => "."
           | _ => Js.join "/" (rev before)
           end
  end.

End Path.

(** ** src/generators/project.ts and src/generators/templates: the files of a project

    The generators write fixed templates.  What is modelled is the sequence
    of file-system calls they make when none fails: which directories are
    ensured and which files are written, in order.  A directory is the
    string [dir] of [path.join(projectPath, dir)], a file the arguments that
    follow [projectPath] in [path.join(projectPath, ...)]; [Path.join] gives
    the path each call reaches.  The content written is left out. *)

Module Project.

Inductive Action : Type :=
  | EnsureDir (dir : string)
  | WriteFile (segments : list string).

Section Generators.

Context (options : ResolvedOptions).

(** [options.k] as a condition *)
Definition on (k : string) : bool := truthy (opts options).[k].

Definition createDirectoryStructure : list Action :=
  (* Core directories *)
  let directories :=
    ["src"; "src/api"; "src/api/routes"; "src/api/middleware"; "src/config";
     "src/utils"; "src/models"; "src/services"; "bin"; "public";
     "public/stylesheets"; "public/javascripts"; "public/images"] in
  (* Add view directories if views are enabled *)
  let directories := push_if (negb (on "noView")) ["views"] directories in
  (* Add test directories if testing is enabled *)
  let directories :=
    push_if (on "test") ["tests"; "tests/unit"; "tests/integration"] directories in
  (* Add logs directory if ELK is enabled *)
  let directories := push_if (on "elk") ["logs"] directories in
  (* Create all directories *)
  map EnsureDir directories.

(** templates/package-json.ts *)
Definition generatePackageJson : list Action := [WriteFile ["package.json"]].

(** templates/server.ts *)
Definition generateServerFile : list Action :=
  let filename := if isTypescript options then "app.ts" else "app.js" in
  [WriteFile ["src"; filename]].

(** templates/env.ts *)
Definition generateEnvExample : list Action := [WriteFile [".env.example"]].

Definition generateEnvLocal : list Action :=
  [WriteFile [".env.development"]; WriteFile [".env.production"];
   WriteFile [".env.test"]].

Definition generateEnvironmentFiles : list Action :=
  generateEnvExample ++ generateEnvLocal.

(** templates/readme.ts *)
Definition generateReadme : list Action := [WriteFile ["README.md"]].

(** templates/config.ts *)
Definition generateMainConfig : list Action :=
  let filename := if isTypescript options then "index.ts" else "index.js" in
  [WriteFile ["src"; "config"; filename]].

Definition generateDatabaseConfig : list Action :=
  let filename := if isTypescript options then "database.ts" else "database.js" in
  [WriteFile ["src"; "config"; filename]].

Definition generateLoggerConfig : list Action :=
  let filename := if isTypescript options then "logger.ts" else "logger.js" in
  [WriteFile ["src"; "utils"; filename]].

Definition generateConfig : list Action :=
  generateMainConfig
  ++ (if on "postgres" then generateDatabaseConfig else [])
  ++ (if on "elk" then generateLoggerConfig else []).

(** templates/typescript.ts *)
Definition generateTsConfigJson : list Action := [WriteFile ["tsconfig.json"]].

Definition generateTsConfigBuild : list Action := [WriteFile ["tsconfig.build.json"]].

Definition generateTsConfigTest : list Action :=
  if negb (on "test") then [] else [WriteFile ["tsconfig.test.json"]].

Definition generateTypeDefinitions : list Action :=
  (* Create types directory *)
  [EnsureDir "types"]
  ++ [WriteFile ["types"; "express.d.ts"]]
  ++ [WriteFile ["types"; "environment.d.ts"]]
  ++ [WriteFile ["types"; "api.d.ts"]]
  (* Generate database-specific types *)
  ++ (if on "mongodb" then [WriteFile ["types"; "mongodb.d.ts"]] else [])
  ++ (if on "postgres" then [WriteFile ["types"; "sequelize.d.ts"]] else [])
  ++ (if on "auth" then [WriteFile ["types"; "auth.d.ts"]] else [])
  ++ [WriteFile ["types"; "index.ts"]].

Definition generateTSConfig : list Action :=
  generateTsConfigJson ++ generateTsConfigBuild ++ generateTsConfigTest
  ++ generateTypeDefinitions.

(** templates/routes.ts *)
Definition generateIndexRoute : list Action :=
  let filename := if isTypescript options then "index.ts" else "index.js" in
  [WriteFile ["src"; "api"; "routes"; filename]].

Definition generateUsersRoute : list Action :=
  let filename := if isTypescript options then "users.ts" else "users.js" in
  [WriteFile ["src"; "api"; "routes"; filename]].

Definition generateRoutes : list Action := generateIndexRoute ++ generateUsersRoute.

(** templates/middleware.ts *)
Definition generateAuthMiddleware : list Action :=
  let filename := if isTypescript options then "auth.ts" else "auth.js" in
  [WriteFile ["src"; "api"; "middleware"; filename]].

Definition generateValidationMiddleware : list Action :=
  let filename := if isTypescript options then "validation.ts" else "validation.js" in
  [WriteFile ["src"; "api"; "middleware"; filename]].

Definition generateErrorHandlingMiddleware : list Action :=
  let filename := if isTypescript options then "errorHandler.ts" else "errorHandler.js" in
  [WriteFile ["src"; "api"; "middleware"; filename]].

Definition generateMiddleware : list Action :=
  (if on "auth" then generateAuthMiddleware else [])
  ++ generateValidationMiddleware
  ++ generateErrorHandlingMiddleware.

(** templates/test.ts *)
Definition generateJestConfig : list Action := [WriteFile ["jest.config.js"]].

Definition generateTestFiles : list Action :=
  let setupFilename := if isTypescript options then "setup.ts" else "setup.js" in
  let unitTestFilename := if isTypescript options then "app.test.ts" else "app.test.js" in
  let integrationTestFilename :=
    if isTypescript options then "integration.test.ts" else "integration.test.js" in
  [WriteFile ["tests"; setupFilename];
   WriteFile ["tests"; "unit"; unitTestFilename];
   WriteFile ["tests"; "integration"; integrationTestFilename]].

Definition generateTests : list Action := generateJestConfig ++ generateTestFiles.

(** templates/docker.ts *)
Definition generateDockerfile : list Action := [WriteFile ["Dockerfile"]].

Definition generateDockerIgnore : list Action := [WriteFile [".dockerignore"]].

Definition generateDockerCompose : list Action :=
  let healthCheckFilename :=
    if isTypescript options then "healthcheck.ts" else "healthcheck.js" in
  [WriteFile ["docker-compose.yml"];
   (* Generate development docker-compose *)
   WriteFile ["docker-compose.dev.yml"];
   (* Generate development Dockerfile *)
   WriteFile ["Dockerfile.dev"];
   (* Generate health check script *)
   WriteFile [healthCheckFilename]].

Definition generateDockerFiles : list Action :=
  generateDockerfile ++ generateDockerIgnore ++ generateDockerCompose.

(** project.ts: the feature files *)
Definition generateMongoModels : list Action :=
  let filename := if isTypescript options then "User.ts" else "User.js" in
  [WriteFile ["src"; "models"; filename]].

Definition generateSequelizeModels : list Action :=
  let filename := if isTypescript options then "User.ts" else "User.js" in
  [WriteFile ["src"; "models"; filename]].

Definition generateRedisConfig : list Action :=
  let filename := if isTypescript options then "redis.ts" else "redis.js" in
  [WriteFile ["src"; "config"; filename]].

Definition generateSwaggerConfig : list Action :=
  let filename := if isTypescript options then "swagger.ts" else "swagger.js" in
  [WriteFile ["src"; "config"; filename]].

Definition generateAuthFiles : list Action :=
  let filename := if isTypescript options then "jwt.ts" else "jwt.js" in
  [WriteFile ["src"; "utils"; filename]].

Definition generateViewTemplates : list Action :=
  if is_str (opts options).["view"] "ejs" then
    [WriteFile ["views"; "layout.ejs"]; WriteFile ["views"; "index.ejs"]]
  else [].

(** The extension is whatever [options.css] holds, and the file name built
    from it is one argument of [path.join]: a value with a separator or ".."
    in it moves the file. *)
Definition generateCSSFiles : list Action :=
  let css := (opts options).["css"] in
  let extension :=
    if is_str css "sass" || is_str css "scss" then "scss"
    else if truthy css then to_string css else "css" in
  [WriteFile ["public"; "stylesheets"; "style." +:+ extension]].

Definition generateGitignore : list Action := [WriteFile [".gitignore"]].

Definition generateFeatureFiles : list Action :=
  (* Generate database models if databases are enabled *)
  (if on "mongodb" then generateMongoModels else [])
  ++ (if on "postgres" then generateSequelizeModels else [])
  ++ (if on "redis" then generateRedisConfig else [])
  (* Generate Swagger config if enabled *)
  ++ (if on "swagger" then generateSwaggerConfig else [])
  (* Generate authentication files if enabled *)
  ++ (if on "auth" then generateAuthFiles else [])
  (* Generate view templates if enabled *)
  ++ (if negb (on "noView") && on "view" then generateViewTemplates else [])
  (* Generate CSS files if enabled *)
  ++ (if on "css" then generateCSSFiles else [])
  (* Create .gitignore *)
  ++ generateGitignore.

Definition generateProject : list Action :=
  (* Create base directory structure *)
  createDirectoryStructure
  (* Generate core files *)
  ++ generatePackageJson
  ++ generateServerFile
  ++ generateEnvironmentFiles
  ++ generateReadme
  (* Generate configuration files *)
  ++ generateConfig
  (* Generate TypeScript config if needed *)
  ++ (if isTypescript options then generateTSConfig else [])
  (* Generate routes *)
  ++ generateRoutes
  (* Generate middleware *)
  ++ generateMiddleware
  (* Generate tests if enabled *)
  ++ (if on "test" then generateTests else [])
  (* Generate Docker files if enabled *)
  ++ (if on "docker" then generateDockerFiles else [])
  (* Create additional directories and files based on features *)
  ++ generateFeatureFiles.

End Generators.

(** The directory a file is written into, relative to the project
    directory. *)
Definition parent (segments : list string) : string := Path.parent (Path.join segments).

(** Every file is written into the project directory itself or into a
    directory ensured before; [created] are the directories ensured so far. *)
Fixpoint prepared (created : list string) (actions : list Action) : bool :=
  match actions with
  | [] => true
  | EnsureDir dir :: rest => prepared (Path.join [dir] :: created) rest
  | WriteFile segments :: rest =>
      (String.eqb (parent segments) "." || Deps.mem (parent segments) created)
      && prepared created rest
  end.

(** The paths written, relative to the project directory, in order. *)
Fixpoint written (actions : list Action) : list string :=
  match actions with
  | [] => []
  | EnsureDir _ :: rest => written rest
  | WriteFile segments :: rest => Path.join segments :: written rest
  end.

(** The directories ensured, relative to the project directory, in order. *)
Fixpoint ensured (actions : list Action) : list string :=
  match actions with
  | [] => []
  | EnsureDir dir :: rest => Path.join [dir] :: ensured rest
  | WriteFile _ :: rest => ensured rest
  end.

(** What the dry run announces: the entries [showDryRun] lists. *)
Definition announced (options : ResolvedOptions) : list string :=
  let structure :=
    ["src/"; "src/api/"; "src/config/"; "src/utils/"; "bin/"; "public/";
     "package.json"; "README.md"] in
  let structure := push_if (isTypescript options) ["tsconfig.json"] structure in
  let structure :=
    push_if (on options "docker") ["Dockerfile"; "docker-compose.yml"] structure in
  let structure := push_if (on options "test") ["tests/"; "jest.config.js"] structure in
  structure.

(** An announced entry is there: a directory (written with a final slash)
    is ensured, a file is written. *)
Definition delivered (actions : list Action) (entry : string) : bool :=
  Deps.mem entry (written actions)
  || existsb (fun dir => String.eqb entry (dir +:+ "/")) (ensured actions).

(** [path] ends with [extension]. *)
Definition has_extension (extension path : string) : bool :=
  String.prefix (Str.rev_string extension "") (Str.rev_string path "").

(** No TypeScript source among the paths. *)
Definition no_typescript (paths : list string) : bool :=
  forallb (fun path => negb (has_extension ".ts" path)) paths.

(** No JavaScript source among the paths but the Jest configuration. *)
Definition no_javascript_but_jest (paths : list string) : bool :=
  forallb
    (fun path => negb (has_extension ".js" path) || String.eqb path "jest.config.js")
    paths.

(** A resolved record with the given flags set and nothing else. *)
Definition sample (flags : list string) (typescript : bool) : ResolvedOptions :=
  {| opts := obj (map (fun k => (k, VBool true)) flags);
     projectName := "demo";
     projectPath := "/work/demo";
     packageManager := Npm;
     isTypescript := typescript;
     features := [] |}.

(** A resolved record with Pug views, Less style sheets and tests. *)
Definition styled : ResolvedOptions :=
  {| opts := obj [("view", VStr "pug"); ("css", VStr "less"); ("test", T)];
     projectName := "demo";
     projectPath := "/work/demo";
     packageManager := Npm;
     isTypescript := false;
     features := [] |}.

(** A resolved record whose CSS engine is no engine but a way out of the
    project directory; the options check rejects such a value. *)
Definition astray : ResolvedOptions :=
  {| opts := obj [("css", VStr "css/../../../../notes")];
     projectName := "demo";
     projectPath := "/work/demo";
     packageManager := Npm;
     isTypescript := false;
     features := [] |}.

End Project.

(** ** Properties of the option resolver *)

Section EffFacts.

Context {A B : Type}.

Lemma bind_inr (t : Trace) (x : A) (f : A -> Eff B) :
  ((t, inr x) : Eff A) ≫= f = (t ++ fst (f x), snd (f x)).
Proof. cbn. destruct (f x); reflexivity. Qed.

End EffFacts.

Section ResolverFacts.

Context (w : World).

(** [loadConfig] catches whatever the search throws. *)
Lemma loadConfig_total (searchFrom : option string) :
  exists t c, loadConfig w searchFrom = (t, inr c).
Proof.
  unfold loadConfig, call.
  destruct (explorer_search w searchFrom) as [e | [[filepath config] |]]; cbn; eauto.
Qed.

Lemma mergeWithConfig_total (options : gmap string jsval) (p : option string) :
  exists t m, mergeWithConfig w options p = (t, inr m).
Proof.
  unfold mergeWithConfig.
  destruct (loadConfig_total p) as (t & c & ->).
  rewrite bind_inr.
  destruct c as [[[d |] pm] |]; cbn; eauto.
Qed.

Lemma detectPackageManager_total (p : string) :
  exists t pm, detectPackageManager w p = (t, inr pm).
Proof.
  unfold detectPackageManager.
  destruct (existsSync _ _); [cbn; eauto |].
  destruct (existsSync _ _); [cbn; eauto |].
  destruct (loadConfig_total (Some p)) as (t & c & ->).
  rewrite bind_inr.
  destruct (c ≫= cfg_packageManager); [cbn; eauto |].
  destruct (probe w _); [cbn; eauto |].
  destruct (probe w _); cbn; eauto.
Qed.

(** Resolution never throws: it yields the record built from the merged
    options, whatever package manager is detected. *)
Lemma resolveOptions_total (name path : string) (raw : gmap string jsval) :
  exists t pm,
    resolveOptions w name path raw =
    (t, inr {| opts := Options.applyPresets (spread ∅ raw);
               projectName := name;
               projectPath := path;
               packageManager := pm;
               isTypescript := Options.resolveTypeScript (Options.applyPresets (spread ∅ raw));
               features := Options.determineFeatures (Options.applyPresets (spread ∅ raw)) |}).
Proof.
  unfold resolveOptions.
  destruct (detectPackageManager_total path) as (t & pm & ->).
  rewrite bind_inr. cbn. rewrite app_nil_r. eauto.
Qed.

End ResolverFacts.

Lemma spread_empty (o : gmap string jsval) : spread ∅ o = o.
Proof. unfold spread. apply (right_id_L ∅ (∪)). Qed.

Lemma get_spread (a b : gmap string jsval) (k : string) :
  (spread a b).[k] = match b !! k with Some v => v | None => a.[k] end.
Proof.
  unfold get, spread. rewrite lookup_union.
  destruct (b !! k), (a !! k); reflexivity.
Qed.

Lemma get_applyPreset_if (options bundle resolved : gmap string jsval) (p k : string) :
  (Options.applyPreset_if options p bundle resolved).[k] =
  match (if truthy options.[p] then bundle !! k else None) with
  | Some v => v
  | None => resolved.[k]
  end.
Proof.
  unfold Options.applyPreset_if. destruct (truthy _); [apply get_spread | reflexivity].
Qed.

(** The explicit flags are re-merged last: the resolved record agrees with
    the raw record on every property the raw record has. *)
Lemma applyPresets_keeps_explicit (raw : gmap string jsval) :
  raw ⊆ Options.applyPresets raw.
Proof. unfold Options.applyPresets, spread. apply map_union_subseteq_l. Qed.

(** Replaces every lookup in a preset bundle by its value. *)
Ltac eval_bundles :=
  repeat match goal with
  | |- context [@lookup _ _ _ _ ?k ?b] =>
      lazymatch b with
      | Options.getPresetOptions _ => idtac
      | Options.getAllPresetOptions => idtac
      end;
      let v := eval vm_compute in (b !! k) in
      replace (b !! k) with v by (vm_compute; reflexivity)
  end.

(** Reads property [k] of [applyPresets raw] layer by layer. *)
Ltac read_presets :=
  unfold Options.applyPresets;
  rewrite get_spread, ?get_applyPreset_if, spread_empty;
  eval_bundles; cbv beta iota.

(** No bundle sets [javascript], and a bundle sets a preset flag only when the raw
    record has it already: these properties are read unchanged. *)
Lemma applyPresets_javascript (raw : gmap string jsval) :
  (Options.applyPresets raw).["javascript"] = raw.["javascript"].
Proof.
  read_presets. unfold get. destruct (raw !! "javascript"); [reflexivity |].
  destruct (truthy _), (truthy _), (truthy _), (truthy _), (truthy _), (truthy _),
    (truthy _), (truthy _); reflexivity.
Qed.

Ltac preset_flag raw k :=
  let H := fresh "H" in
  read_presets; destruct (raw !! k) eqn:H;
  [ unfold get; rewrite H; reflexivity | ];
  replace (raw.[k]) with VUndef by (unfold get; rewrite H; reflexivity);
  cbn;
  destruct (truthy raw.["all"]), (truthy raw.["prod"]), (truthy raw.["min"]),
    (truthy raw.["startup"]), (truthy raw.["microservice"]), (truthy raw.["api"]),
    (truthy raw.["light"]), (truthy raw.["fullstack"]); reflexivity.

Lemma applyPresets_flags (raw : gmap string jsval) :
  (Options.applyPresets raw).["light"] = raw.["light"]
  /\ (Options.applyPresets raw).["api"] = raw.["api"]
  /\ (Options.applyPresets raw).["microservice"] = raw.["microservice"]
  /\ (Options.applyPresets raw).["startup"] = raw.["startup"]
  /\ (Options.applyPresets raw).["min"] = raw.["min"]
  /\ (Options.applyPresets raw).["prod"] = raw.["prod"].
Proof.
  repeat split.
  - preset_flag raw "light".
  - preset_flag raw "api".
  - preset_flag raw "microservice".
  - preset_flag raw "startup".
  - preset_flag raw "min".
  - preset_flag raw "prod".
Qed.

Lemma applyPresets_typescript (raw : gmap string jsval) :
  truthy (Options.applyPresets raw).["typescript"] = LanguageRule.merged_typescript raw.
Proof.
  unfold LanguageRule.merged_typescript, LanguageRule.typescript_preset.
  read_presets. destruct (raw !! "typescript") eqn:Hts; [reflexivity |].
  replace (raw.["typescript"]) with VUndef by (unfold get; rewrite Hts; reflexivity).
  destruct (truthy raw.["all"]), (truthy raw.["prod"]), (truthy raw.["min"]),
    (truthy raw.["startup"]), (truthy raw.["microservice"]), (truthy raw.["api"]),
    (truthy raw.["light"]), (truthy raw.["fullstack"]); reflexivity.
Qed.

(** The language rule of [resolveTypeScript], read on the raw flags. *)
Lemma resolveTypeScript_applyPresets (raw : gmap string jsval) :
  Options.resolveTypeScript (Options.applyPresets raw) = LanguageRule.rule_after_presets raw.
Proof.
  unfold Options.resolveTypeScript, LanguageRule.rule_after_presets,
    LanguageRule.typescript_preset.
  destruct (applyPresets_flags raw) as (-> & -> & -> & -> & -> & ->).
  rewrite applyPresets_javascript, applyPresets_typescript.
  destruct (truthy raw.["javascript"]), (LanguageRule.merged_typescript raw); cbn;
    try reflexivity;
    destruct (truthy raw.["api"]), (truthy raw.["microservice"]), (truthy raw.["startup"]),
      (truthy raw.["prod"]), (truthy raw.["min"]), (truthy raw.["light"]); reflexivity.
Qed.

Lemma rule_after_presets_explicit (raw : gmap string jsval) :
  is_Some (raw !! "typescript") ->
  LanguageRule.rule_after_presets raw = LanguageRule.rule raw.
Proof.
  intros [v Hv].
  unfold LanguageRule.rule_after_presets, LanguageRule.rule, LanguageRule.merged_typescript.
  rewrite Hv.
  replace (raw.["typescript"]) with v by (unfold get; rewrite Hv; reflexivity).
  reflexivity.
Qed.

(** C1, as stated, fails: with the raw options [{prod: true, typescript: false}]
    the resolver returns [isTypescript === true], not [false]. *)
Lemma prod_without_typescript_resolves_to_typescript :
  isTypescript <$>
    result_of (resolveOptions (Samples.world true true) "demo" "/work/demo"
                 Samples.prod_without_typescript)
  = Some true.
Proof. vm_compute. reflexivity. Qed.

(** C1 (amended): explicit flags take final precedence over preset-derived
    values in the properties of the resolved record: every property of the
    raw options is found unchanged in the result.  For the raw options
    [{prod: true, typescript: false}] the resolved [typescript] property is
    [false] although the bundle of "prod" sets it to [true]; the derived
    [isTypescript] is [true] all the same, because the language rule also
    reads the active [prod] flag. *)
Theorem explicit_flags_override_presets (w : World) (name path : string) :
  (forall raw : gmap string jsval,
     exists r, result_of (resolveOptions w name path raw) = Some r /\ raw ⊆ opts r)
  /\ exists r,
       result_of (resolveOptions w name path Samples.prod_without_typescript) = Some r
       /\ Options.getPresetOptions "prod" !! "typescript" = Some (VBool true)
       /\ opts r !! "typescript" = Some (VBool false)
       /\ isTypescript r = true.
Proof.
  split.
  - intros raw. destruct (resolveOptions_total w name path raw) as (t & pm & ->).
    eexists. split; [reflexivity |]. cbn. rewrite spread_empty.
    apply applyPresets_keeps_explicit.
  - destruct (resolveOptions_total w name path Samples.prod_without_typescript)
      as (t & pm & ->).
    eexists. split; [reflexivity |]. repeat split; vm_compute; reflexivity.
Qed.

(** C2, as stated, fails: with the raw options [{all: true}] no language
    flag is set and none of the six presets of the rule is active, so the
    rule gives JavaScript; the resolver returns [isTypescript === true],
    because the bundle of "all" sets [typescript]. *)
Lemma all_preset_resolves_to_typescript :
  LanguageRule.rule (obj [("all", T)]) = false
  /\ isTypescript <$>
       result_of (resolveOptions (Samples.world true true) "demo" "/work/demo"
                    (obj [("all", T)]))
     = Some true.
Proof. split; vm_compute; reflexivity. Qed.

(** What the amended rule leaves out: raw options that set "use JavaScript",
    have no [typescript] property and activate a preset whose bundle sets
    [typescript].  With [{javascript: true, prod: true}] the resolver returns
    [isTypescript === true], although [resolveTypeScript] is to use JavaScript
    "if explicitly set to JavaScript": the bundle of "prod" has set
    [typescript] before the test.  The same flags with an explicit
    [typescript: false] resolve to JavaScript. *)
Lemma javascript_flag_lost_to_preset :
  truthy Samples.javascript_with_prod.["javascript"] = true
  /\ Samples.javascript_with_prod !! "typescript" = None
  /\ isTypescript <$>
       result_of (resolveOptions (Samples.world true true) "demo" "/work/demo"
                    Samples.javascript_with_prod)
     = Some true
  /\ isTypescript <$>
       result_of (resolveOptions (Samples.world true true) "demo" "/work/demo"
                    (obj [("javascript", T); ("typescript", VBool false); ("prod", T)]))
     = Some false.
Proof. repeat split; vm_compute; reflexivity. Qed.

(** C2 (amended): the resolver always returns a record.  For raw options
    with a [typescript] property of their own the rule holds as stated:
    JavaScript when "use JavaScript" is set and "use TypeScript" is not,
    otherwise TypeScript exactly when it is set or one of the presets api,
    microservice, startup, prod, min, light is active.  For raw options
    without a [typescript] property: when "use JavaScript" is not set, the
    result is TypeScript exactly when one of those six presets or "all" is
    active; when none of the seven is active, the result is JavaScript.  In
    particular [{fullstack: true}] with no language flag resolves to
    JavaScript with view engine "ejs". *)
Theorem language_resolution_rule (w : World) (name path : string)
    (raw : gmap string jsval) :
  (exists r,
     result_of (resolveOptions w name path raw) = Some r
     /\ (is_Some (raw !! "typescript") -> isTypescript r = LanguageRule.rule raw)
     /\ (raw !! "typescript" = None -> truthy raw.["javascript"] = false ->
         isTypescript r = LanguageRule.typescript_preset raw || truthy raw.["all"])
     /\ (raw !! "typescript" = None ->
         LanguageRule.typescript_preset raw || truthy raw.["all"] = false ->
         isTypescript r = false))
  /\ exists r,
       result_of (resolveOptions w name path Samples.fullstack_only) = Some r
       /\ isTypescript r = false
       /\ (opts r).["view"] = VStr "ejs"
       /\ Options.getFinalViewEngine (opts r) = VStr "ejs".
Proof.
  split.
  - destruct (resolveOptions_total w name path raw) as (t & pm & ->).
    eexists. split; [reflexivity |]. cbn [isTypescript]. rewrite spread_empty.
    rewrite resolveTypeScript_applyPresets.
    split; [apply rule_after_presets_explicit |].
    unfold LanguageRule.rule_after_presets, LanguageRule.merged_typescript.
    split.
    + intros -> ->. cbn [andb].
      destruct (LanguageRule.typescript_preset raw), (truthy raw.["all"]); reflexivity.
    + intros -> Hnone. rewrite Hnone.
      apply orb_false_iff in Hnone as [-> _].
      destruct (truthy raw.["javascript"]); reflexivity.
  - destruct (resolveOptions_total w name path Samples.fullstack_only) as (t & pm & ->).
    eexists. split; [reflexivity |]. repeat split; vm_compute; reflexivity.
Qed.

Lemma language_resolution_rule_witness :
  exists r,
    result_of (resolveOptions (Samples.world true true) "demo" "/work/demo"
                 (obj [("javascript", T); ("typescript", VBool false); ("prod", T)]))
    = Some r
    /\ isTypescript r = false.
Proof.
  destruct (language_resolution_rule (Samples.world true true) "demo" "/work/demo"
              (obj [("javascript", T); ("typescript", VBool false); ("prod", T)]))
    as [(r & Hr & Hrule & _) _].
  exists r. split; [exact Hr |].
  rewrite Hrule; [reflexivity | eexists; reflexivity].
Defined.

(** C6: with the raw options [{api: true}] the resolver returns
    [isTypescript === true] and a feature list that holds "TypeScript",
    "CORS", "Helmet", "Joi Validation" and "Jest Testing" and no view-engine
    entry: the api preset sets [noView], so there is no view engine. *)
Theorem api_preset_scenario (w : World) (name path : string) :
  exists r,
    result_of (resolveOptions w name path Samples.api_only) = Some r
    /\ isTypescript r = true
    /\ features r =
       ["TypeScript"; "CORS"; "Helmet"; "Joi Validation"; "Jest Testing"; "Git"]
    /\ In "TypeScript" (features r) /\ In "CORS" (features r)
    /\ In "Helmet" (features r) /\ In "Joi Validation" (features r)
    /\ In "Jest Testing" (features r)
    /\ Forall (fun f => String.prefix "View: " f = false) (features r)
    /\ (opts r).["noView"] = VBool true
    /\ Options.getFinalViewEngine (opts r) = VUndef.
Proof.
  destruct (resolveOptions_total w name path Samples.api_only) as (t & pm & ->).
  eexists. split; [reflexivity |].
  assert (Hf : Options.determineFeatures (Options.applyPresets (spread ∅ Samples.api_only))
               = ["TypeScript"; "CORS"; "Helmet"; "Joi Validation"; "Jest Testing"; "Git"])
    by (vm_compute; reflexivity).
  cbn [isTypescript features opts]. rewrite Hf.
  repeat split; try (vm_compute; reflexivity); cbn; auto 10.
Qed.

(** ** Properties of the dependency lists *)

Section ListFacts.

Lemma mem_In (x : string) (l : list string) : Deps.mem x l = true <-> In x l.
Proof.
  unfold Deps.mem. rewrite existsb_exists. split.
  - intros (y & Hy & Heq). apply String.eqb_eq in Heq. subst. exact Hy.
  - intros H. exists x. split; [exact H | apply String.eqb_refl].
Qed.

Lemma subset_In (l1 l2 : list string) :
  Deps.subset l1 l2 = true -> forall x, In x l1 -> In x l2.
Proof.
  unfold Deps.subset. rewrite forallb_forall. intros H x Hx.
  apply mem_In, H, Hx.
Qed.

Lemma disjoint_In (l1 l2 : list string) :
  Deps.disjoint l1 l2 = true -> forall x, In x l1 -> In x l2 -> False.
Proof.
  unfold Deps.disjoint. rewrite forallb_forall. intros H x H1 H2.
  specialize (H x H1). apply mem_In in H2. rewrite H2 in H. discriminate.
Qed.

Lemma in_push_if_skip (c : bool) (xs arr : list string) (x : string) :
  In x arr -> In x (push_if c xs arr).
Proof. unfold push_if. destruct c; [intros; apply in_or_app; auto | auto]. Qed.

Lemma in_push_if_here (c : bool) (xs arr : list string) (x : string) :
  c = true -> In x xs -> In x (push_if c xs arr).
Proof. intros ->. unfold push_if. intros. apply in_or_app. auto. Qed.

End ListFacts.

(** A set view engine that is supported is one of the six names. *)
Lemma final_view_engine_supported (o : gmap string jsval) :
  Deps.engines_supported o = true ->
  truthy (Options.getFinalViewEngine o) = true ->
  In (to_string (Options.getFinalViewEngine o)) SUPPORTED_VIEW_ENGINES.
Proof.
  unfold Deps.engines_supported, Options.getFinalViewEngine.
  intros Hs Ht. apply andb_true_iff in Hs as [Hv _].
  destruct (truthy o.["noView"]); [discriminate |].
  destruct (truthy o.["view"]) eqn:Hview.
  - change (includes SUPPORTED_VIEW_ENGINES o.["view"] = true) in Hv.
    unfold includes in Hv. apply existsb_exists in Hv as (s & Hs & Heq).
    destruct (o.["view"]); try discriminate. cbn in Heq.
    apply String.eqb_eq in Heq. subst. exact Hs.
  - destruct (truthy o.["fullstack"]); [cbn; auto | discriminate].
Qed.

Lemma incl_push_if (c : bool) (xs arr U : list string) :
  (c = true -> incl xs U) -> incl arr U -> incl (push_if c xs arr) U.
Proof.
  unfold push_if. destruct c; [| auto]. intros Hxs Harr. apply incl_app; auto.
Qed.

Lemma incl_if (c : bool) (a b U : list string) :
  incl a U -> incl b U -> incl (if c then a else b) U.
Proof. destruct c; auto. Qed.

Lemma incl_closed (xs U : list string) : Deps.subset xs U = true -> incl xs U.
Proof. intros H x. apply subset_In, H. Qed.

(** Walks a dependency list push by push; what is left are the pushed lists. *)
Ltac walk_pushes :=
  repeat first [ apply incl_push_if; [intros ? |] | apply incl_if | apply incl_app ].

Ltac closed_incl := apply incl_closed; vm_compute; reflexivity.

Lemma runtime_packages_bound (r : ResolvedOptions) :
  Deps.engines_supported (opts r) = true ->
  incl (Options.getRequiredDependencies r)
       (Deps.runtime_packages ++ SUPPORTED_VIEW_ENGINES).
Proof.
  intros Hs. unfold Options.getRequiredDependencies. cbv zeta.
  walk_pushes;
    lazymatch goal with
    | |- incl [to_string _] _ =>
        intros x [<- | []]; apply in_or_app; right;
        apply final_view_engine_supported; assumption
    | |- _ => closed_incl
    end.
Qed.

Lemma development_packages_bound (r : ResolvedOptions) :
  incl (Options.getRequiredDevDependencies r) Deps.development_packages.
Proof.
  unfold Options.getRequiredDevDependencies. cbv zeta.
  walk_pushes; closed_incl.
Qed.

Lemma runtime_development_disjoint :
  Deps.disjoint (Deps.runtime_packages ++ SUPPORTED_VIEW_ENGINES)
    Deps.development_packages = true.
Proof. vm_compute. reflexivity. Qed.

(** Finds the push that adds a package, given the flags that are set. *)
Ltac find_push :=
  repeat first
    [ apply in_push_if_here; [ assumption | solve [ simpl; auto 10 ] ]
    | apply in_push_if_skip
    | solve [ simpl; auto 10 ]
    | apply in_or_app; left
    | match goal with |- In _ (if ?c then _ else _) => destruct c end ].

(** C7: the two dependency lists are functions of the resolved options
    alone -- of the option properties and [isTypescript] -- and are defined for
    every resolved options record.  When the view and CSS engines, if set,
    are supported ones, no package is in both lists.  With [mongodb] and
    [auth] set and [isTypescript] true, the runtime list holds "mongoose",
    "jsonwebtoken" and "bcryptjs" and the development list holds
    "typescript", "ts-node" and the type declarations of the three runtime
    packages.  Equal inputs give equal lists. *)
Theorem dependency_lists (r : ResolvedOptions) :
  Deps.engines_supported (opts r) = true ->
  (forall x, In x (Options.getRequiredDependencies r) ->
             In x (Options.getRequiredDevDependencies r) -> False)
  /\ (forall r', opts r' = opts r -> isTypescript r' = isTypescript r ->
        Options.getRequiredDependencies r' = Options.getRequiredDependencies r
        /\ Options.getRequiredDevDependencies r' = Options.getRequiredDevDependencies r)
  /\ (truthy (opts r).["mongodb"] = true -> truthy (opts r).["auth"] = true ->
      isTypescript r = true ->
      In "mongoose" (Options.getRequiredDependencies r)
      /\ In "jsonwebtoken" (Options.getRequiredDependencies r)
      /\ In "bcryptjs" (Options.getRequiredDependencies r)
      /\ In "typescript" (Options.getRequiredDevDependencies r)
      /\ In "ts-node" (Options.getRequiredDevDependencies r)
      /\ In "@types/mongoose" (Options.getRequiredDevDependencies r)
      /\ In "@types/jsonwebtoken" (Options.getRequiredDevDependencies r)
      /\ In "@types/bcryptjs" (Options.getRequiredDevDependencies r)).
Proof.
  intros Hs. split; [| split].
  - intros x Hrun Hdev.
    apply (disjoint_In _ _ runtime_development_disjoint x).
    + apply (runtime_packages_bound r Hs x Hrun).
    + apply (development_packages_bound r x Hdev).
  - intros r' Ho Hts.
    unfold Options.getRequiredDependencies, Options.getRequiredDevDependencies,
      Options.shouldIncludeFeature.
    rewrite Ho, Hts. split; reflexivity.
  - intros Hm Ha Hts.
    change (Options.shouldIncludeFeature "mongodb" r = true) in Hm.
    change (Options.shouldIncludeFeature "auth" r = true) in Ha.
    assert (Htsf : Options.shouldIncludeFeature "typescript" r = true) by exact Hts.
    unfold Options.getRequiredDependencies, Options.getRequiredDevDependencies.
    cbv zeta. rewrite Htsf, Hts.
    repeat split; find_push.
Qed.

(** [dependency_lists] at [ResolvedOptions{mongodb: true, auth: true,
    isTypescript: true}]. *)
Lemma dependency_lists_witness :
  (forall x, In x (Options.getRequiredDependencies Samples.mongo_auth_ts) ->
             In x (Options.getRequiredDevDependencies Samples.mongo_auth_ts) -> False)
  /\ In "mongoose" (Options.getRequiredDependencies Samples.mongo_auth_ts)
  /\ In "@types/mongoose" (Options.getRequiredDevDependencies Samples.mongo_auth_ts).
Proof.
  destruct (dependency_lists Samples.mongo_auth_ts) as (Hdisj & _ & Hin).
  - vm_compute. reflexivity.
  - destruct Hin as (H1 & _ & _ & _ & _ & H2 & _); try (vm_compute; reflexivity).
    auto.
Defined.

(** ** Properties of the validator *)

Section ValidationFacts.

Lemma consistent_iff (r : ValidationResult) :
  consistent r -> (valid r = true <-> errors r = []).
Proof.
  unfold consistent. destruct (valid r); intros H; split; intros H'; congruence.
Qed.

Lemma consistent_new : consistent Validation.new_result.
Proof. reflexivity. Qed.

(** Marking a result invalid and pushing at least one error. *)
Lemma consistent_fail (e : string) (es : list string) (r : ValidationResult) :
  consistent (Validation.push_errors (e :: es) (Validation.set_invalid r)).
Proof.
  unfold consistent. cbn. intros H. apply app_eq_nil in H as [_ H]. discriminate.
Qed.

(** Pushing further errors onto an invalid result. *)
Lemma consistent_more_errors (es : list string) (r : ValidationResult) :
  consistent r -> valid r = false -> consistent (Validation.push_errors es r).
Proof.
  unfold consistent. cbn. intros H Hv. rewrite Hv in *.
  intros H'. apply app_eq_nil in H' as [H' _]. contradiction.
Qed.

Lemma consistent_warn (ws : list string) (r : ValidationResult) :
  consistent r -> consistent (Validation.push_warnings ws r).
Proof. unfold consistent. cbn. auto. Qed.

Lemma validateProjectName_consistent (npm : string -> NpmValidation) (name : string) :
  consistent (Validation.validateProjectName npm name).
Proof.
  unfold Validation.validateProjectName. cbv zeta.
  destruct (String.eqb name ""); [apply consistent_fail |].
  repeat match goal with
         | |- consistent (if ?c then _ else _) => destruct c
         | |- consistent (match ?o with Some _ => _ | None => _ end) => destruct o
         | |- consistent (Validation.push_warnings _ _) => apply consistent_warn
         | |- consistent (Validation.push_errors (_ :: _) (Validation.set_invalid _)) =>
             apply consistent_fail
         | |- consistent (Validation.push_errors _ _) =>
             apply consistent_more_errors; [| reflexivity]
         | |- consistent Validation.new_result => apply consistent_new
         end.
Qed.

Lemma validateProjectPath_consistent (fs : FileSystem) (p : string) :
  consistent (Validation.validateProjectPath fs p).
Proof.
  unfold Validation.validateProjectPath. cbv zeta.
  repeat match goal with
         | |- consistent (if ?c then _ else _) => destruct c
         | |- consistent (match ?o with inl _ => _ | inr _ => _ end) => destruct o
         | |- consistent (Validation.push_warnings _ _) => apply consistent_warn
         | |- consistent (Validation.push_errors (_ :: _) (Validation.set_invalid _)) =>
             apply consistent_fail
         | |- consistent Validation.new_result => apply consistent_new
         end.
Qed.

(** The options check, rule by rule. *)
Lemma validateOptions_result (o : gmap string jsval) :
  Validation.validateOptions o =
  {| valid := negb (OptionsCheck.unsupported_view o || OptionsCheck.unsupported_css o
                    || OptionsCheck.view_conflict o);
     errors :=
       (if OptionsCheck.unsupported_view o then [OptionsCheck.view_error o] else [])
       ++ (if OptionsCheck.unsupported_css o then [OptionsCheck.css_error o] else [])
       ++ (if OptionsCheck.view_conflict o then [OptionsCheck.conflict_error] else []);
     warnings :=
       (if OptionsCheck.both_languages o then [OptionsCheck.languages_warning] else [])
       ++ (if OptionsCheck.both_databases o then [OptionsCheck.databases_warning] else [])
       ++ (if (1 <? OptionsCheck.active_presets o)%nat
           then [OptionsCheck.presets_warning] else []) |}.
Proof.
  unfold Validation.validateOptions. cbv zeta.
  fold (OptionsCheck.unsupported_view o). fold (OptionsCheck.unsupported_css o).
  fold (OptionsCheck.view_conflict o). fold (OptionsCheck.both_languages o).
  fold (OptionsCheck.both_databases o). fold (OptionsCheck.active_presets o).
  destruct (OptionsCheck.unsupported_view o), (OptionsCheck.unsupported_css o),
    (OptionsCheck.view_conflict o), (OptionsCheck.both_languages o),
    (OptionsCheck.both_databases o), (1 <? OptionsCheck.active_presets o)%nat;
    reflexivity.
Qed.

Lemma validateOptions_consistent (o : gmap string jsval) :
  consistent (Validation.validateOptions o).
Proof.
  rewrite validateOptions_result. unfold consistent. cbn.
  destruct (OptionsCheck.unsupported_view o), (OptionsCheck.unsupported_css o),
    (OptionsCheck.view_conflict o); cbn; congruence.
Qed.

End ValidationFacts.

(** C8: the rules of the options check.  The result is invalid exactly when
    a set view engine or CSS engine is outside its list of supported names
    or [noView] comes together with a view engine; each of these puts its
    error in the result.  Both language flags, both databases and more than
    one active preset each add a warning and leave [valid] alone.
    [validateOptions({noView: true, view: "ejs"})] is invalid. *)
Theorem validateOptions_rules :
  (forall o : gmap string jsval,
     let r := Validation.validateOptions o in
     valid r = negb (OptionsCheck.unsupported_view o || OptionsCheck.unsupported_css o
                     || OptionsCheck.view_conflict o)
     /\ errors r =
        (if OptionsCheck.unsupported_view o then [OptionsCheck.view_error o] else [])
        ++ (if OptionsCheck.unsupported_css o then [OptionsCheck.css_error o] else [])
        ++ (if OptionsCheck.view_conflict o then [OptionsCheck.conflict_error] else [])
     /\ warnings r =
        (if OptionsCheck.both_languages o then [OptionsCheck.languages_warning] else [])
        ++ (if OptionsCheck.both_databases o then [OptionsCheck.databases_warning] else [])
        ++ (if (1 <? OptionsCheck.active_presets o)%nat
            then [OptionsCheck.presets_warning] else []))
  /\ Validation.validateOptions Samples.noView_with_view =
     {| valid := false; errors := [OptionsCheck.conflict_error]; warnings := [] |}
  /\ Validation.validateOptions (obj [("view", VStr "jade")]) =
     {| valid := false;
        errors := [OptionsCheck.view_error (obj [("view", VStr "jade")])];
        warnings := [] |}
  /\ Validation.validateOptions (obj [("typescript", T); ("javascript", T)]) =
     {| valid := true; errors := []; warnings := [OptionsCheck.languages_warning] |}
  /\ Validation.validateOptions (obj [("mongodb", T); ("postgres", T)]) =
     {| valid := true; errors := []; warnings := [OptionsCheck.databases_warning] |}
  /\ Validation.validateOptions (obj [("api", T); ("prod", T)]) =
     {| valid := true; errors := []; warnings := [OptionsCheck.presets_warning] |}.
Proof.
  split.
  - intros o r. subst r. rewrite validateOptions_result. auto.
  - repeat split; vm_compute; reflexivity.
Qed.

(** C9: the cases of the path check.  An existing empty directory under a
    writable parent is valid with no warning; an existing directory that
    holds files, under a writable parent, is valid with the warning that
    files may be overwritten; an existing plain file is invalid; a parent
    directory that is not writable makes every path invalid. *)
Theorem validateProjectPath_cases (fs : FileSystem) (p : string) :
  (existsSync fs p = true -> statSync_isDirectory fs p = inr true ->
   readdirSync fs p = inr [] -> accessSync_W_OK fs (dirname fs p) = inr tt ->
   Validation.validateProjectPath fs p =
   {| valid := true; errors := []; warnings := [] |})
  /\ (forall file files,
        existsSync fs p = true -> statSync_isDirectory fs p = inr true ->
        readdirSync fs p = inr (file :: files) ->
        accessSync_W_OK fs (dirname fs p) = inr tt ->
        Validation.validateProjectPath fs p =
        {| valid := true; errors := [];
           warnings := ["Directory is not empty. Files may be overwritten"] |})
  /\ (existsSync fs p = true -> statSync_isDirectory fs p = inr false ->
      Validation.validateProjectPath fs p =
      {| valid := false; errors := ["A file with this name already exists"];
         warnings := [] |})
  /\ (forall e, accessSync_W_OK fs (dirname fs p) = inl e ->
      valid (Validation.validateProjectPath fs p) = false).
Proof.
  unfold Validation.validateProjectPath. cbv zeta. repeat split.
  - intros -> -> -> ->. reflexivity.
  - intros file files -> -> -> ->. reflexivity.
  - intros -> ->. reflexivity.
  - intros e ->.
    destruct (existsSync fs p); [| reflexivity].
    destruct (statSync_isDirectory fs p) as [e' | []]; try reflexivity.
    destruct (readdirSync fs p) as [e' | files]; [reflexivity |].
    destruct (0 <? length files)%nat; reflexivity.
Qed.

(** The four cases of [validateProjectPath_cases] on sample file systems. *)
Lemma validateProjectPath_cases_witness :
  Validation.validateProjectPath (Samples.fs_dir [] true) "/work/demo" =
  {| valid := true; errors := []; warnings := [] |}
  /\ Validation.validateProjectPath (Samples.fs_dir ["package.json"] true) "/work/demo" =
     {| valid := true; errors := [];
        warnings := ["Directory is not empty. Files may be overwritten"] |}
  /\ Validation.validateProjectPath Samples.fs_file "/work/demo" =
     {| valid := false; errors := ["A file with this name already exists"];
        warnings := [] |}
  /\ valid (Validation.validateProjectPath (Samples.fs_dir [] false) "/work/demo") = false.
Proof.
  split; [| split; [| split]].
  - apply (validateProjectPath_cases (Samples.fs_dir [] true) "/work/demo");
      reflexivity.
  - apply (proj1 (proj2 (validateProjectPath_cases
                           (Samples.fs_dir ["package.json"] true) "/work/demo"))
             "package.json" []); reflexivity.
  - apply (validateProjectPath_cases Samples.fs_file "/work/demo"); reflexivity.
  - apply (proj2 (proj2 (proj2 (validateProjectPath_cases
                                  (Samples.fs_dir [] false) "/work/demo")))
             (Error "EACCES: permission denied")); reflexivity.
Defined.

(** C10: each of the three checks returns a result that is valid exactly
    when its list of errors is empty, whatever the name validator of npm and
    the file system answer; pushing warnings leaves [valid] and the errors
    as they are. *)
Theorem validation_results_consistent :
  (forall (npm : string -> NpmValidation) (name : string),
     valid (Validation.validateProjectName npm name) = true
     <-> errors (Validation.validateProjectName npm name) = [])
  /\ (forall (fs : FileSystem) (p : string),
        valid (Validation.validateProjectPath fs p) = true
        <-> errors (Validation.validateProjectPath fs p) = [])
  /\ (forall o : gmap string jsval,
        valid (Validation.validateOptions o) = true
        <-> errors (Validation.validateOptions o) = [])
  /\ (forall (ws : list string) (r : ValidationResult),
        valid (Validation.push_warnings ws r) = valid r
        /\ errors (Validation.push_warnings ws r) = errors r).
Proof.
  split; [| split; [| split]].
  - intros npm name. apply consistent_iff, validateProjectName_consistent.
  - intros fs p. apply consistent_iff, validateProjectPath_consistent.
  - intros o. apply consistent_iff, validateOptions_consistent.
  - intros ws r. split; reflexivity.
Qed.

(** ** The name check on the three names of the specification *)

Lemma validateProjectName_my_app :
  Validation.validateProjectName (NpmName.validate Samples.builtins) "my-app" =
  {| valid := true; errors := []; warnings := [] |}.
Proof. vm_compute. reflexivity. Qed.

(** The capital-letters warning of the npm validator is raised for every
    list of builtin modules. *)
Lemma npm_capital_letters (builtins : list string) (name : string) :
  Str.toLowerCase name <> name ->
  validForNewPackages (NpmName.validate builtins name) = false.
Proof.
  intros Hcase. unfold NpmName.validate. cbv zeta.
  assert (Hne : String.eqb (Str.toLowerCase name) name = false)
    by (apply String.eqb_neq; exact Hcase).
  rewrite Hne. cbn [negb].
  set (ws0 := push_if (214 <? String.length name)%nat _ _).
  set (ws := push_if (NpmName.has_special _) _ _).
  assert (Hws : (length ws =? 0)%nat = false).
  { subst ws. unfold push_if at 1 2.
    destruct (NpmName.has_special _); rewrite ?length_app; cbn;
      apply Nat.eqb_neq; lia. }
  assert (Hdone : forall es, validForNewPackages (NpmName.done ws es) = false).
  { intros es. unfold NpmName.done. cbn. rewrite Hws. apply andb_false_r. }
  destruct (negb (NpmName.uri_friendly name)); [| apply Hdone].
  destruct (NpmName.scoped_match name) as [[[user |] pkg] |]; try apply Hdone.
  destruct (NpmName.uri_friendly user && NpmName.uri_friendly pkg); apply Hdone.
Qed.

(** The npm validator builds every result with [done]. *)
Lemma npm_validate_done (builtins : list string) (name : string) :
  exists ws es, NpmName.validate builtins name = NpmName.done ws es.
Proof.
  unfold NpmName.validate. cbv zeta.
  destruct (negb (NpmName.uri_friendly name)); [| eauto].
  destruct (NpmName.scoped_match name) as [[[user |] pkg] |]; eauto.
  destruct (NpmName.uri_friendly user && NpmName.uri_friendly pkg); eauto.
Qed.

(** A result of the npm validator that carries warnings is not valid for
    new packages. *)
Lemma npm_warnings_not_new (builtins : list string) (name : string) :
  npm_warnings (NpmName.validate builtins name) = None
  \/ validForNewPackages (NpmName.validate builtins name) = false.
Proof.
  destruct (npm_validate_done builtins name) as (ws & es & ->).
  unfold NpmName.done. cbn.
  destruct (length ws =? 0)%nat; [left; reflexivity | right; apply andb_false_r].
Qed.

Lemma validateProjectName_capitals (builtins : list string) (name : string) :
  name <> "" -> Str.toLowerCase name <> name ->
  valid (Validation.validateProjectName (NpmName.validate builtins) name) = false
  /\ In "Project name must be a valid npm package name"
        (errors (Validation.validateProjectName (NpmName.validate builtins) name))
  /\ In "Project name should be lowercase"
        (warnings (Validation.validateProjectName (NpmName.validate builtins) name)).
Proof.
  intros Hname Hcase. unfold Validation.validateProjectName.
  apply String.eqb_neq in Hname. rewrite Hname. cbv zeta.
  rewrite (npm_capital_letters builtins name Hcase). cbn [negb].
  assert (Hne : String.eqb name (Str.toLowerCase name) = false)
    by (apply String.eqb_neq; congruence).
  rewrite Hne. cbn [negb].
  destruct (npm_errors _), (npm_warnings _), (214 <? String.length name)%nat;
    cbn [valid errors warnings Validation.push_errors Validation.push_warnings
         Validation.set_invalid Validation.new_result];
    rewrite ?in_app_iff; cbn [In]; auto 10.
Qed.

(** With the npm validator, no name is valid with a warning. *)
Lemma validateProjectName_no_valid_warning (builtins : list string) (name : string) :
  valid (Validation.validateProjectName (NpmName.validate builtins) name) = false
  \/ warnings (Validation.validateProjectName (NpmName.validate builtins) name) = [].
Proof.
  destruct (string_dec name "") as [-> | Hname]; [left; reflexivity |].
  destruct (string_dec (Str.toLowerCase name) name) as [Heq | Hcase];
    [| left; apply validateProjectName_capitals; assumption].
  unfold Validation.validateProjectName.
  apply String.eqb_neq in Hname. rewrite Hname. cbv zeta.
  assert (He : String.eqb name (Str.toLowerCase name) = true)
    by (apply String.eqb_eq; congruence).
  rewrite He. cbn [negb].
  destruct (npm_warnings_not_new builtins name) as [-> | ->]; cbn [negb].
  - destruct (validForNewPackages _), (npm_errors _),
      (214 <? String.length name)%nat; cbn; auto.
  - left. destruct (npm_errors _), (npm_warnings _),
      (214 <? String.length name)%nat; reflexivity.
Qed.

(** C4 on the code: "My App" is invalid with errors, and "My-App" is
    invalid too.  A name with a capital letter gets the lowercase warning,
    but the npm validator does not accept it for new packages, so the check
    also marks it invalid with the error "Project name must be a valid npm
    package name"; no name at all is valid with a warning. *)
Theorem validateProjectName_cases (builtins : list string) :
  (valid (Validation.validateProjectName (NpmName.validate builtins) "My App") = false
   /\ In "Project name must be a valid npm package name"
         (errors (Validation.validateProjectName (NpmName.validate builtins) "My App")))
  /\ (valid (Validation.validateProjectName (NpmName.validate builtins) "My-App") = false
      /\ In "Project name must be a valid npm package name"
            (errors (Validation.validateProjectName (NpmName.validate builtins) "My-App"))
      /\ In "Project name should be lowercase"
            (warnings (Validation.validateProjectName (NpmName.validate builtins) "My-App")))
  /\ (forall name : string,
        valid (Validation.validateProjectName (NpmName.validate builtins) name) = false
        \/ warnings (Validation.validateProjectName (NpmName.validate builtins) name) = []).
Proof.
  split; [| split].
  - destruct (validateProjectName_capitals builtins "My App") as (H1 & H2 & _);
      [discriminate | discriminate | auto].
  - apply validateProjectName_capitals; discriminate.
  - apply validateProjectName_no_valid_warning.
Qed.

(** The name check on "My-App" with the builtin modules of the sample machine. *)
Lemma validateProjectName_My_App :
  Validation.validateProjectName (NpmName.validate Samples.builtins) "My-App" =
  {| valid := false;
     errors := ["Project name must be a valid npm package name"];
     warnings := ["name can no longer contain capital letters";
                  "Project name should be lowercase"] |}.
Proof. vm_compute. reflexivity. Qed.

(** ** Properties of the project-creation pipeline *)

Section PipelineFacts.

Context (w : World).

Lemma forEach_warn (ws : list string) :
  forEach (emit LWarn) ws = (map (fun msg => (LWarn, msg)) ws, inr tt).
Proof.
  induction ws as [| msg ws IH]; [reflexivity |].
  cbn [forEach map]. rewrite IH. reflexivity.
Qed.

(** The validation phase, check by check. *)
Lemma validateAndResolve_steps (name : string) (options : gmap string jsval) :
  name <> "" ->
  validateAndResolve w (Some name) options =
  let nv := Checks.nameValidation w name in
  let pv := Checks.pathValidation w name in
  let ov := Checks.optionsValidation w options in
  let step1 := [(LInfo, "[1/6] Validating project configuration...")] in
  let step2 := [(LInfo, "[2/6] Resolving project options...")] in
  let warn := map (fun msg => (LWarn, msg)) in
  let config := fst (mergeWithConfig w options (Some (cwd w))) in
  let resolve :=
    resolveOptions w (Validation.sanitizeProjectName name) (Checks.target_path w name)
      (Checks.merged_options w options) in
  if negb (valid nv) then (step1, inl (Checks.report "Invalid project name:" nv))
  else if negb (valid pv) then
    (step1 ++ warn (warnings nv), inl (Checks.report "Invalid project path:" pv))
  else if negb (valid ov) then
    (step1 ++ warn (warnings nv) ++ warn (warnings pv) ++ step2 ++ config,
     inl (Checks.report "Invalid options:" ov))
  else
    (step1 ++ warn (warnings nv) ++ warn (warnings pv) ++ step2 ++ config
     ++ warn (warnings ov) ++ fst resolve,
     snd resolve).
Proof.
  intros Hname. destruct name as [| a s]; [contradiction |].
  unfold validateAndResolve, Checks.nameValidation, Checks.pathValidation,
    Checks.optionsValidation, Checks.merged_options, Checks.target_path, Checks.report.
  cbv zeta.
  generalize (Validation.validateProjectName (validateNpmPackageName w) (String a s)).
  intros nv.
  generalize (Validation.validateProjectPath (fs w)
                (path_resolve w (cwd w) (Validation.sanitizeProjectName (String a s)))).
  intros pv.
  destruct (mergeWithConfig_total w options (Some (cwd w))) as (tc & merged & Hm).
  rewrite !forEach_warn.
  destruct nv as [[] nes nws], pv as [[] pes pws];
    cbn -[Validation.validateOptions resolveOptions mergeWithConfig];
    rewrite ?app_nil_r; try reflexivity.
  rewrite Hm. unfold result_of.
  cbn -[Validation.validateOptions resolveOptions mergeWithConfig].
  generalize (Validation.validateOptions merged). intros ov.
  rewrite !forEach_warn.
  destruct (resolveOptions w _ _ merged) as [tr rr].
  destruct ov as [[] oes ows]; cbn; rewrite ?app_nil_r, <- ?app_assoc; reflexivity.
Qed.

End PipelineFacts.

Section EffSuccess.

Context {A B : Type}.

Lemma succeeds_ret (x : A) : succeeds (mret x : Eff A).
Proof. exists [], x. reflexivity. Qed.

Lemma succeeds_emit (c : Channel) (msg : string) : succeeds (emit c msg).
Proof. exists [(c, msg)], tt. reflexivity. Qed.

Lemma succeeds_bind (m : Eff A) (f : A -> Eff B) :
  succeeds m -> (forall x, succeeds (f x)) -> succeeds (m ≫= f).
Proof.
  intros (t & x & ->) Hf. destruct (Hf x) as (t' & y & Hy).
  exists (t ++ t'), y. rewrite bind_inr, Hy. reflexivity.
Qed.

Lemma succeeds_try_catch (m : Eff A) (h : JsError -> Eff A) :
  (forall e, succeeds (h e)) -> succeeds (try_catch m h).
Proof.
  intros Hh. destruct m as [t [e | x]]; cbn.
  - destruct (Hh e) as (t' & y & ->). exists (t ++ t'), y. reflexivity.
  - exists t, x. reflexivity.
Qed.

Lemma succeeds_if (c : bool) (m1 m2 : Eff A) :
  succeeds m1 -> succeeds m2 -> succeeds (if c then m1 else m2).
Proof. destruct c; auto. Qed.

Lemma snd_bind_throws (m : Eff A) (f : A -> Eff B) (e : JsError) :
  snd m = inl e -> snd (m ≫= f) = inl e.
Proof. destruct m as [t [e' | x]]; cbn; intros H; [congruence | discriminate H]. Qed.

Lemma in_bind_l (m : Eff A) (f : A -> Eff B) (l : Channel * string) :
  In l (fst m) -> In l (fst (m ≫= f)).
Proof.
  destruct m as [t [e | x]]; cbn; [auto |].
  destruct (f x). cbn. intros H. apply in_or_app. auto.
Qed.

End EffSuccess.

Lemma succeeds_forEach {A : Type} (f : A -> Eff unit) (l : list A) :
  (forall x, succeeds (f x)) -> succeeds (forEach f l).
Proof.
  intros Hf. induction l as [| x l IH]; [apply succeeds_ret |].
  cbn [forEach]. apply succeeds_bind; auto.
Qed.

Ltac eff_succeeds :=
  repeat first
    [ apply succeeds_emit | apply succeeds_ret
    | apply succeeds_bind; [| intros ?]
    | apply succeeds_try_catch; intros ?
    | apply succeeds_forEach; intros ?
    | apply succeeds_if
    | progress (unfold logStep, logSuccess, logTable, logHeader, logError)
    | progress cbv beta
    | match goal with |- succeeds (match ?x with (_, _) => _ end) => destruct x end ].

Section StageFacts.

Context (w : World).

(** The Git initializer catches every failure: it never throws. *)
Lemma initializeGit_never_throws (p : string) : succeeds (initializeGit w p).
Proof. unfold initializeGit. eff_succeeds. Qed.

Lemma displayProjectSummary_succeeds (r : ResolvedOptions) :
  succeeds (displayProjectSummary r).
Proof.
  unfold displayProjectSummary. cbv zeta. eff_succeeds.
Qed.

Lemma showCompletionMessage_succeeds (r : ResolvedOptions) :
  succeeds (showCompletionMessage w r)
  /\ In Checks.success_line (fst (showCompletionMessage w r)).
Proof.
  unfold showCompletionMessage. cbv zeta. split.
  - eff_succeeds.
  - apply in_bind_l. cbn. auto.
Qed.

End StageFacts.

Section Sequencing.

Context {A B : Type}.

(** After a stage that succeeds, the run ends as the rest of the run does,
    and prints what the rest prints. *)
Lemma seq_after (m : Eff A) (k : Eff B) (l : Channel * string) :
  succeeds m ->
  snd (m ;; k) = snd k /\ (In l (fst k) -> In l (fst (m ;; k))).
Proof.
  intros (t & x & ->). rewrite bind_inr. cbn. split; [reflexivity |].
  intros H. apply in_or_app. auto.
Qed.

End Sequencing.

Section CreateProjectFacts.

Context (w : World).

Lemma installDependencies_failure (r : ResolvedOptions) (e : JsError) :
  snd (installDependencies w r) = inl e ->
  In (LError, "Failed to install dependencies: Error: " +:+ message e)
     (fst (installDependencies w r)).
Proof.
  unfold installDependencies.
  match goal with |- context [try_catch ?m _] => destruct m as [t [e0 | x]] end;
    cbn; [| discriminate].
  intros [= ->]. apply in_or_app. right. cbn. auto.
Qed.

(** Materialization: both calls returned. *)
Lemma materialization_succeeds (r : ResolvedOptions) :
  ensureDir w (projectPath r) = inr tt -> generateFiles w r = inr tt ->
  succeeds
    (try_catch
       (call (ensureDir w (projectPath r)) ;;
        generateProject w r ;;
        emit LSpinner "Project structure created")
       (fun error => emit LSpinner "Failed to create project structure" ;; throw error)).
Proof. intros Hdir Hgen. unfold generateProject. rewrite Hdir, Hgen. eexists _, _. reflexivity. Qed.

(** What the Git initializer prints when Git is missing. *)
Lemma initializeGit_unavailable_logged (p : string) :
  isGitAvailable w = false ->
  In (LWarn, "Please install Git to enable version control features")
     (fst (initializeGit w p)).
Proof.
  intros Hgit. unfold initializeGit, initializeGit_steps. rewrite Hgit. cbn. auto.
Qed.

(** What the Git initializer prints when one of its steps throws. *)
Lemma initializeGit_failure_logged (p : string) (e : JsError) :
  snd (initializeGit_steps w p) = inl e ->
  In (LSpinner, "Failed to initialize Git repository") (fst (initializeGit w p))
  /\ In (if Str.includes "not found" (message e) || bool_decide (code e = Some "ENOENT")
         then (LWarn, "Git is not installed or not in PATH")
         else (LError, "Git initialization error: " +:+ message e))
        (fst (initializeGit w p))
  /\ In (LInfo, "Continuing without Git initialization...") (fst (initializeGit w p)).
Proof.
  intros Hfail. unfold initializeGit.
  destruct (initializeGit_steps w p) as [t [e0 | []]]; [| discriminate Hfail].
  cbn [snd] in Hfail. injection Hfail as ->.
  cbn -[Str.includes bool_decide].
  destruct (Str.includes "not found" (message e) || bool_decide (code e = Some "ENOENT"));
    cbn; (split; [| split]); right; apply in_or_app; right; cbn; auto.
Qed.

Lemma git_stage_succeeds (options : gmap string jsval) (r : ResolvedOptions) :
  succeeds
    (if negb (truthy options.["skipGit"])
        && negb (bool_decide (options.["git"] = VBool false))
     then logStep 5 6 "Initializing Git repository..." ;; initializeGit w (projectPath r)
     else emit LInfo "Skipping Git initialization").
Proof.
  apply succeeds_if; [| apply succeeds_emit].
  apply succeeds_bind; [apply succeeds_emit | intros _; apply initializeGit_never_throws].
Qed.

(** After a successful materialization the run returns and reports success
    when the installer is skipped or succeeds, whatever Git does. *)
Lemma materializeAndFinish_success (options : gmap string jsval) (r : ResolvedOptions) :
  truthy options.["dryRun"] = false ->
  ensureDir w (projectPath r) = inr tt -> generateFiles w r = inr tt ->
  truthy options.["skipInstall"] = true \/ snd (installDependencies w r) = inr tt ->
  snd (materializeAndFinish w options r) = inr tt
  /\ In Checks.success_line (fst (materializeAndFinish w options r)).
Proof.
  intros Hdry Hdir Hgen Hinst. unfold materializeAndFinish. rewrite Hdry.
  assert (Hstage : succeeds
            (if negb (truthy options.["skipInstall"])
             then logStep 4 6 "Installing dependencies..." ;; installDependencies w r
             else emit LInfo "Skipping dependency installation")).
  { destruct (truthy options.["skipInstall"]); [apply succeeds_emit |].
    destruct Hinst as [Hskip | Hok]; [discriminate |]. cbn [negb].
    apply succeeds_bind; [apply succeeds_emit | intros _].
    destruct (installDependencies w r) as [t [e | []]]; [discriminate |].
    eexists _, _. reflexivity. }
  repeat match goal with
         | |- snd (?m ;; ?k) = _ /\ In ?l (fst (?m ;; ?k)) =>
             let Hs := fresh in let Hi := fresh in
             assert (Hs : succeeds m);
             [ first [ apply displayProjectSummary_succeeds | apply succeeds_emit
                     | apply materialization_succeeds; assumption
                     | exact Hstage | apply git_stage_succeeds ]
             | destruct (seq_after m k l Hs) as [-> Hi];
               cut (snd k = inr tt /\ In l (fst k)); [intros [? ?]; split; auto |] ]
         end.
  destruct (showCompletionMessage_succeeds w r) as ((t & [] & Hs) & Hin).
  split; [rewrite Hs; reflexivity | exact Hin].
Qed.

(** What the Git stage prints is printed by the run, once materialization
    has succeeded and the installer is skipped or succeeds. *)
Lemma materializeAndFinish_git_lines (options : gmap string jsval) (r : ResolvedOptions)
    (l : Channel * string) :
  truthy options.["dryRun"] = false ->
  ensureDir w (projectPath r) = inr tt -> generateFiles w r = inr tt ->
  truthy options.["skipInstall"] = true \/ snd (installDependencies w r) = inr tt ->
  negb (truthy options.["skipGit"]) && negb (bool_decide (options.["git"] = VBool false))
  = true ->
  In l (fst (initializeGit w (projectPath r))) ->
  In l (fst (materializeAndFinish w options r)).
Proof.
  intros Hdry Hdir Hgen Hinst Hgit Hl. unfold materializeAndFinish. rewrite Hdry, Hgit.
  assert (Hstage : succeeds
            (if negb (truthy options.["skipInstall"])
             then logStep 4 6 "Installing dependencies..." ;; installDependencies w r
             else emit LInfo "Skipping dependency installation")).
  { destruct (truthy options.["skipInstall"]); [apply succeeds_emit |].
    destruct Hinst as [Hskip | Hok]; [discriminate |]. cbn [negb].
    apply succeeds_bind; [apply succeeds_emit | intros _].
    destruct (installDependencies w r) as [t [e | []]]; [discriminate |].
    eexists _, _. reflexivity. }
  apply (seq_after _ _ l (displayProjectSummary_succeeds r)).
  apply (seq_after _ _ l (succeeds_emit _ _)).
  apply (seq_after _ _ l (succeeds_emit _ _)).
  apply (seq_after _ _ l (materialization_succeeds r Hdir Hgen)).
  apply (seq_after _ _ l Hstage).
  apply in_bind_l.
  apply (seq_after _ _ l (succeeds_emit _ _)). exact Hl.
Qed.

(** An installer failure is logged and thrown on: the run ends with it. *)
Lemma materializeAndFinish_install_failure (options : gmap string jsval)
    (r : ResolvedOptions) (e : JsError) :
  truthy options.["dryRun"] = false ->
  ensureDir w (projectPath r) = inr tt -> generateFiles w r = inr tt ->
  truthy options.["skipInstall"] = false ->
  snd (installDependencies w r) = inl e ->
  snd (materializeAndFinish w options r) = inl e
  /\ In (LError, "Failed to install dependencies: Error: " +:+ message e)
        (fst (materializeAndFinish w options r)).
Proof.
  intros Hdry Hdir Hgen Hskip Hinst. unfold materializeAndFinish.
  rewrite Hdry, Hskip. cbn [negb].
  repeat match goal with
         | |- snd (?m ;; ?k) = _ /\ In ?l (fst (?m ;; ?k)) =>
             let Hs := fresh in let Hi := fresh in
             assert (Hs : succeeds m);
             [ first [ apply displayProjectSummary_succeeds | apply succeeds_emit
                     | apply materialization_succeeds; assumption ]
             | destruct (seq_after m k l Hs) as [-> Hi];
               cut (snd k = inl e /\ In l (fst k)); [intros [? ?]; split; auto |] ]
         end.
  split.
  - apply snd_bind_throws.
    destruct (seq_after (logStep 4 6 "Installing dependencies...")
                (installDependencies w r) (LError, "")) as [-> _];
      [apply succeeds_emit | exact Hinst].
  - apply in_bind_l.
    apply (seq_after (logStep 4 6 "Installing dependencies...")
             (installDependencies w r)); [apply succeeds_emit |].
    apply installDependencies_failure, Hinst.
Qed.

(** The exit of [createProject] once validation and resolution are through. *)
Lemma createProject_after_validation (name : option string)
    (options : gmap string jsval) (t0 : Trace) (r : ResolvedOptions) :
  validateAndResolve w name options = (t0, inr r) ->
  snd (createProject w name options) =
    match snd (materializeAndFinish w options r) with
    | inr _ => Returned
    | inl _ => ProcessExit 1
    end
  /\ forall l, In l (fst (materializeAndFinish w options r)) ->
               In l (fst (createProject w name options)).
Proof.
  intros Hv. unfold createProject. cbv zeta. unfold logHeader, emit.
  rewrite bind_inr. cbv beta. rewrite Hv, bind_inr. cbv beta.
  destruct (materializeAndFinish w options r) as [t1 [e | []]]; cbn.
  - split; [reflexivity |]. intros l Hl. right.
    apply in_or_app. left. apply in_or_app. auto.
  - split; [reflexivity |]. intros l Hl. right.
    rewrite !app_nil_r. apply in_or_app. auto.
Qed.

End CreateProjectFacts.

Section CallerFacts.

Context (w : World).

Lemma createProject_validation_failure (name : option string)
    (options : gmap string jsval) (t0 : Trace) (e : JsError) :
  validateAndResolve w name options = (t0, inl e) ->
  createProject w name options =
  ((LConsole, "EXGEN - Express Application Generator") :: t0
   ++ [(LConsole, "Error: " +:+ message e)],
   ProcessExit 1).
Proof.
  intros Hv. unfold createProject. cbv zeta. unfold logHeader, emit.
  rewrite bind_inr. cbv beta. rewrite Hv. reflexivity.
Qed.

End CallerFacts.

(** C3, as stated, fails: for the name "My App" and the options
    [{noView: true, view: "ejs"}] both the name check and the options check
    have a fatal error, and the run ends after the name check: nothing it
    prints mentions the error of the options check. *)
Lemma only_first_failing_check_reported :
  valid (Checks.nameValidation (Samples.world true true) "My App") = false
  /\ In OptionsCheck.conflict_error
        (errors (Checks.optionsValidation (Samples.world true true)
                   Samples.noView_with_view))
  /\ snd (createProject (Samples.world true true) (Some "My App")
            Samples.noView_with_view) = ProcessExit 1
  /\ Checks.unmentioned OptionsCheck.conflict_error
       (fst (createProject (Samples.world true true) (Some "My App")
               Samples.noView_with_view)) = true.
Proof.
  split; [vm_compute; reflexivity |].
  split; [vm_compute; auto |].
  split; vm_compute; reflexivity.
Qed.

(** C3 (amended): the caller runs the three checks in the order name, path,
    options and stops at the first one whose result is invalid: the run
    prints the warnings of the checks that passed, then reports every error
    of the failing check, one per line under its header, and exits with
    code 1; the later checks add nothing.  When all three pass, the warnings
    of all three are printed before the options are resolved. *)
Theorem validation_stops_at_first_failure (w : World) (name : string)
    (options : gmap string jsval) :
  name <> "" ->
  let nv := Checks.nameValidation w name in
  let pv := Checks.pathValidation w name in
  let ov := Checks.optionsValidation w options in
  let header := (LConsole, "EXGEN - Express Application Generator") in
  let step1 := (LInfo, "[1/6] Validating project configuration...") in
  let step2 := (LInfo, "[2/6] Resolving project options...") in
  let warn := map (fun msg => (LWarn, msg)) in
  let config := fst (mergeWithConfig w options (Some (cwd w))) in
  let failed e := (LConsole, "Error: " +:+ message e) in
  (valid nv = false ->
   createProject w (Some name) options =
   (header :: step1 :: [failed (Checks.report "Invalid project name:" nv)],
    ProcessExit 1))
  /\ (valid nv = true -> valid pv = false ->
      createProject w (Some name) options =
      (header :: step1 :: warn (warnings nv)
       ++ [failed (Checks.report "Invalid project path:" pv)],
       ProcessExit 1))
  /\ (valid nv = true -> valid pv = true -> valid ov = false ->
      createProject w (Some name) options =
      (header :: step1 :: warn (warnings nv) ++ warn (warnings pv) ++ step2 :: config
       ++ [failed (Checks.report "Invalid options:" ov)],
       ProcessExit 1))
  /\ (valid nv = true -> valid pv = true -> valid ov = true ->
      exists t r,
        validateAndResolve w (Some name) options =
        (step1 :: warn (warnings nv) ++ warn (warnings pv) ++ step2 :: config
         ++ warn (warnings ov) ++ t,
         inr r)).
Proof.
  intros Hname. cbv zeta.
  pose proof (validateAndResolve_steps w name options Hname) as Hsteps.
  cbv zeta in Hsteps.
  split; [| split; [| split]].
  - intros Hn. rewrite Hn in Hsteps.
    rewrite (createProject_validation_failure w _ _ _ _ Hsteps). reflexivity.
  - intros Hn Hp. rewrite Hn, Hp in Hsteps.
    rewrite (createProject_validation_failure w _ _ _ _ Hsteps). reflexivity.
  - intros Hn Hp Ho. rewrite Hn, Hp, Ho in Hsteps.
    rewrite (createProject_validation_failure w _ _ _ _ Hsteps).
    cbn [app]. rewrite <- !app_assoc. reflexivity.
  - intros Hn Hp Ho. rewrite Hn, Hp, Ho in Hsteps. cbn [negb] in Hsteps.
    destruct (resolveOptions_total w (Validation.sanitizeProjectName name)
                (Checks.target_path w name) (Checks.merged_options w options))
      as (t & pm & Hr).
    rewrite Hr in Hsteps. cbn [fst snd] in Hsteps.
    eexists _, _. exact Hsteps.
Qed.

(** [validation_stops_at_first_failure] at the name "My App" with the
    options [{noView: true, view: "ejs"}]: only the name is reported. *)
Lemma validation_stops_at_first_failure_witness :
  createProject (Samples.world true true) (Some "My App") Samples.noView_with_view =
  ([(LConsole, "EXGEN - Express Application Generator");
    (LInfo, "[1/6] Validating project configuration...");
    (LConsole,
     "Error: Invalid project name:" +:+ Str.nl
     +:+ "Project name must be a valid npm package name" +:+ Str.nl
     +:+ "name can only contain URL-friendly characters")],
   ProcessExit 1).
Proof.
  rewrite (proj1 (validation_stops_at_first_failure (Samples.world true true) "My App"
                    Samples.noView_with_view ltac:(discriminate)));
    vm_compute; reflexivity.
Defined.

(** C5, as stated, fails: on a machine where the project is written and
    the package manager then fails, the run logs the failure and exits with
    code 1, without reporting success. *)
Lemma installer_failure_is_fatal :
  In (LSpinner, "Project structure created")
     (fst (createProject (Samples.world false true) (Some "my-app") Samples.api_only))
  /\ In (LError, "Failed to install dependencies: Error: npm ERR! network")
        (fst (createProject (Samples.world false true) (Some "my-app") Samples.api_only))
  /\ snd (createProject (Samples.world false true) (Some "my-app") Samples.api_only)
     = ProcessExit 1
  /\ Checks.unmentioned "Project created successfully!"
       (fst (createProject (Samples.world false true) (Some "my-app") Samples.api_only))
     = true.
Proof.
  split; [vm_compute; auto 30 |].
  split; [vm_compute; auto 40 |].
  split; vm_compute; reflexivity.
Qed.

(** C5 (amended): the Git initializer is best-effort.  Once materialization
    has succeeded and the installer is skipped or succeeds, the run returns
    and reports success whatever happens to Git, and a failure of the Git
    initializer is logged: a missing Git as a warning, an error thrown by
    one of its steps on the spinner and as an error line (or as the "not
    installed" warning), followed by the notice that the run continues.  A
    failure of the installer is logged and thrown on: the run exits with
    code 1. *)
Theorem supplementary_stages (w : World) (name : option string)
    (options : gmap string jsval) (t0 : Trace) (r : ResolvedOptions) :
  validateAndResolve w name options = (t0, inr r) ->
  truthy options.["dryRun"] = false ->
  ensureDir w (projectPath r) = inr tt ->
  generateFiles w r = inr tt ->
  let run := createProject w name options in
  let git_stage :=
    negb (truthy options.["skipGit"])
    && negb (bool_decide (options.["git"] = VBool false)) in
  succeeds (initializeGit w (projectPath r))
  /\ (truthy options.["skipInstall"] = true \/ snd (installDependencies w r) = inr tt ->
      snd run = Returned
      /\ In Checks.success_line (fst run)
      /\ (git_stage = true -> isGitAvailable w = false ->
          In (LWarn, "Please install Git to enable version control features") (fst run))
      /\ (forall e,
            git_stage = true ->
            snd (initializeGit_steps w (projectPath r)) = inl e ->
            In (LSpinner, "Failed to initialize Git repository") (fst run)
            /\ In (if Str.includes "not found" (message e)
                      || bool_decide (code e = Some "ENOENT")
                   then (LWarn, "Git is not installed or not in PATH")
                   else (LError, "Git initialization error: " +:+ message e))
                  (fst run)
            /\ In (LInfo, "Continuing without Git initialization...") (fst run)))
  /\ (forall e, truthy options.["skipInstall"] = false ->
      snd (installDependencies w r) = inl e ->
      snd run = ProcessExit 1
      /\ In (LError, "Failed to install dependencies: Error: " +:+ message e) (fst run)).
Proof.
  intros Hv Hdry Hdir Hgen run git_stage. subst run git_stage.
  destruct (createProject_after_validation w name options t0 r Hv) as [Hexit Htrace].
  split; [apply initializeGit_never_throws |]. split.
  - intros Hinst.
    destruct (materializeAndFinish_success w options r Hdry Hdir Hgen Hinst)
      as [Hsnd Hin].
    split; [rewrite Hexit, Hsnd; reflexivity |]. split; [auto |]. split.
    + intros Hstage Hgit. apply Htrace.
      apply (materializeAndFinish_git_lines w options r _ Hdry Hdir Hgen Hinst Hstage).
      apply initializeGit_unavailable_logged, Hgit.
    + intros e Hstage Hfail.
      destruct (initializeGit_failure_logged w (projectPath r) e Hfail)
        as (Hspin & Hline & Hcont).
      split; [| split]; apply Htrace;
        apply (materializeAndFinish_git_lines w options r _ Hdry Hdir Hgen Hinst Hstage);
        assumption.
  - intros e Hskip Hinst.
    destruct (materializeAndFinish_install_failure w options r e Hdry Hdir Hgen Hskip Hinst)
      as [Hsnd Hin].
    rewrite Hexit, Hsnd. auto.
Qed.

(** [supplementary_stages] on a machine where Git is missing and the
    package manager works: the run returns, reports success and prints the
    warning about Git. *)
Lemma supplementary_stages_witness :
  snd (createProject (Samples.world true false) (Some "my-app") Samples.api_only)
  = Returned
  /\ In Checks.success_line
        (fst (createProject (Samples.world true false) (Some "my-app") Samples.api_only))
  /\ In (LWarn, "Please install Git to enable version control features")
        (fst (createProject (Samples.world true false) (Some "my-app") Samples.api_only)).
Proof.
  edestruct (supplementary_stages (Samples.world true false) (Some "my-app")
               Samples.api_only) as (_ & H & _);
    [vm_compute; reflexivity | reflexivity | reflexivity | reflexivity |].
  destruct H as (H1 & H2 & H3 & _); [right; vm_compute; reflexivity |].
  split; [exact H1 |]. split; [exact H2 |].
  apply H3; vm_compute; reflexivity.
Defined.

(** ** Further properties of preset application *)

Section PresetLayers.

Context (raw : gmap string jsval).

Lemma lookup_applyPreset_if (p : string) (bundle acc : gmap string jsval) (k : string) :
  Options.applyPreset_if raw p bundle acc !! k =
  match (if truthy raw.[p] then bundle !! k else None) with
  | Some v => Some v
  | None => acc !! k
  end.
Proof.
  unfold Options.applyPreset_if, spread. destruct (truthy raw.[p]); [| reflexivity].
  rewrite lookup_union. destruct (bundle !! k), (acc !! k); reflexivity.
Qed.

Lemma lookup_layers (l : list (string * gmap string jsval)) (acc : gmap string jsval)
    (k : string) :
  fold_left (fun acc '(p, bundle) => Options.applyPreset_if raw p bundle acc) l acc !! k
  = Presets.setting raw k l (acc !! k).
Proof.
  revert acc. induction l as [| [p bundle] l IH]; intros acc; [reflexivity |].
  cbn [fold_left]. rewrite IH. unfold Presets.setting. cbn [fold_left].
  rewrite lookup_applyPreset_if. reflexivity.
Qed.

(** [applyPresets] property by property: the raw record's own value, else
    the value set by the active presets. *)
Lemma lookup_applyPresets (k : string) :
  Options.applyPresets raw !! k =
  match raw !! k with
  | Some v => Some v
  | None => Presets.setting raw k Presets.builtin None
  end.
Proof.
  change (Options.applyPresets raw) with
    (spread
       (fold_left (fun acc '(p, bundle) => Options.applyPreset_if raw p bundle acc)
          Presets.builtin (spread ∅ raw))
       raw).
  unfold spread at 1. rewrite lookup_union, lookup_layers, spread_empty.
  destruct (raw !! k); [| destruct (Presets.setting _ _ _ _)]; try reflexivity.
  destruct (Presets.setting _ _ _ _); reflexivity.
Qed.

End PresetLayers.

Lemma builtin_agree :
  forallb (fun '(_, b) => forallb (fun '(_, c) => Presets.agree b c) Presets.builtin)
    Presets.builtin = true.
Proof. vm_compute. reflexivity. Qed.

Lemma agree_spec (b c : gmap string jsval) (k : string) (v v' : jsval) :
  Presets.agree b c = true -> b !! k = Some v -> c !! k = Some v' -> v = v'.
Proof.
  unfold Presets.agree. rewrite forallb_forall. intros H Hb Hc.
  assert (Hin : In (k, v) (map_to_list b))
    by (apply list_elem_of_In, elem_of_map_to_list, Hb).
  specialize (H (k, v) Hin). cbv beta iota in H. rewrite Hc in H.
  apply bool_decide_eq_true in H. exact H.
Qed.

(** Any two built-in bundles give the same value to a property both set. *)
Lemma builtin_bundles_agree (p q : string) (b c : gmap string jsval) (k : string)
    (v v' : jsval) :
  In (p, b) Presets.builtin -> In (q, c) Presets.builtin ->
  b !! k = Some v -> c !! k = Some v' -> v = v'.
Proof.
  intros Hp Hq. apply agree_spec.
  pose proof builtin_agree as H. rewrite forallb_forall in H.
  specialize (H _ Hp). cbv beta iota in H. rewrite forallb_forall in H.
  apply (H _ Hq).
Qed.

Section SettingFacts.

Context (raw : gmap string jsval) (k : string).

Lemma setting_cons (p : string) (b : gmap string jsval)
    (l : list (string * gmap string jsval)) (init : option jsval) :
  Presets.setting raw k ((p, b) :: l) init =
  Presets.setting raw k l
    (match (if truthy raw.[p] then b !! k else None) with
     | Some v => Some v
     | None => init
     end).
Proof. reflexivity. Qed.

(** A set value comes from the start value or from an active bundle. *)
Lemma setting_origin (l : list (string * gmap string jsval)) (init : option jsval)
    (v : jsval) :
  Presets.setting raw k l init = Some v ->
  init = Some v
  \/ exists p b, In (p, b) l /\ truthy raw.[p] = true /\ b !! k = Some v.
Proof.
  revert init. induction l as [| [p b] l IH]; intros init; [auto |].
  rewrite setting_cons. intros H. apply IH in H as [H | (q & c & Hin & Hact & Hc)].
  - destruct (truthy raw.[p]) eqn:Hact; [| auto].
    destruct (b !! k) eqn:Hb; [| auto].
    right. exists p, b. cbn. inversion H. subst. auto.
  - right. exists q, c. cbn. auto.
Qed.

(** A value that every bundle of [l] agrees with stays. *)
Lemma setting_keeps (l : list (string * gmap string jsval)) (v : jsval) :
  (forall q c v', In (q, c) l -> c !! k = Some v' -> v' = v) ->
  Presets.setting raw k l (Some v) = Some v.
Proof.
  induction l as [| [p b] l IH]; intros Hagree; [reflexivity |].
  rewrite setting_cons.
  assert (Hstep : match (if truthy raw.[p] then b !! k else None) with
                  | Some v0 => Some v0
                  | None => Some v
                  end = Some v).
  { destruct (truthy raw.[p]); [| reflexivity].
    destruct (b !! k) eqn:Hb; [| reflexivity].
    f_equal. apply (Hagree p b); cbn; auto. }
  rewrite Hstep. apply IH. intros q c v' Hin. apply (Hagree q c). cbn. auto.
Qed.

(** The value of an active bundle is the setting when the bundles agree. *)
Lemma setting_active (l : list (string * gmap string jsval)) (init : option jsval)
    (p : string) (b : gmap string jsval) (v : jsval) :
  (forall q c v', In (q, c) l -> c !! k = Some v' -> v' = v) ->
  In (p, b) l -> truthy raw.[p] = true -> b !! k = Some v ->
  Presets.setting raw k l init = Some v.
Proof.
  revert init. induction l as [| [q c] l IH]; intros init Hagree Hin Hact Hb;
    [destruct Hin |].
  rewrite setting_cons. destruct Hin as [Heq | Hin].
  - inversion Heq. subst. rewrite Hact, Hb. apply setting_keeps.
    intros q' c' v' Hin'. apply (Hagree q' c'). cbn. auto.
  - apply IH; auto. intros q' c' v' Hin'. apply (Hagree q' c'). cbn. auto.
Qed.

End SettingFacts.

Lemma lookup_active_setting (raw : gmap string jsval) (p : string)
    (b : gmap string jsval) (k : string) (v : jsval) :
  In (p, b) Presets.builtin -> truthy raw.[p] = true -> b !! k = Some v ->
  Options.applyPresets raw !! k =
  match raw !! k with Some own => Some own | None => Some v end.
Proof.
  intros Hin Hact Hb. rewrite lookup_applyPresets.
  destruct (raw !! k); [reflexivity |].
  apply (setting_active raw k Presets.builtin None p b v); auto.
  intros q c v' Hq Hc. symmetry. apply (builtin_bundles_agree p q b c k v v'); auto.
Qed.

(** X1: every setting of an active preset is in the result unless the raw
    record has the property itself: no preset undoes what another one set. *)
Theorem active_preset_settings_survive (raw : gmap string jsval) (p : string)
    (b : gmap string jsval) (k : string) (v : jsval) :
  In (p, b) Presets.builtin -> truthy raw.[p] = true -> b !! k = Some v ->
  Options.applyPresets raw !! k =
  match raw !! k with Some own => Some own | None => Some v end.
Proof. apply lookup_active_setting. Qed.

(** With the presets "api" and "fullstack" both active and no explicit
    flag, the result has [noView] of the first and the view engine of the
    second. *)
Lemma active_preset_settings_survive_witness :
  Options.applyPresets (obj [("api", VBool true); ("fullstack", VBool true)])
    !! "noView" = Some (VBool true)
  /\ Options.applyPresets (obj [("api", VBool true); ("fullstack", VBool true)])
       !! "view" = Some (VStr "ejs").
Proof.
  split.
  - rewrite (active_preset_settings_survive _ "api" (Options.getPresetOptions "api")
               "noView" (VBool true)); [reflexivity | | reflexivity | reflexivity].
    cbn. auto.
  - rewrite (active_preset_settings_survive _ "fullstack"
               (Options.getPresetOptions "fullstack") "view" (VStr "ejs"));
      [reflexivity | | reflexivity | reflexivity].
    cbn. auto.
Defined.

Lemma applyPresets_more_flags (raw : gmap string jsval) :
  (Options.applyPresets raw).["fullstack"] = raw.["fullstack"]
  /\ (Options.applyPresets raw).["all"] = raw.["all"].
Proof.
  split.
  - preset_flag raw "fullstack".
  - preset_flag raw "all".
Qed.

(** Preset application leaves the preset flags as they are. *)
Lemma applyPresets_activity (raw : gmap string jsval) (p : string)
    (b : gmap string jsval) :
  In (p, b) Presets.builtin ->
  truthy (Options.applyPresets raw).[p] = truthy raw.[p].
Proof.
  destruct (applyPresets_flags raw) as (H1 & H2 & H3 & H4 & H5 & H6).
  destruct (applyPresets_more_flags raw) as (H7 & H8).
  unfold Presets.builtin. cbn [In].
  intros [H | [H | [H | [H | [H | [H | [H | [H | []]]]]]]]];
    inversion H; subst; congruence.
Qed.

Lemma setting_ext (raw raw' : gmap string jsval) (k : string)
    (l : list (string * gmap string jsval)) (init : option jsval) :
  (forall p b, In (p, b) l -> truthy raw'.[p] = truthy raw.[p]) ->
  Presets.setting raw' k l init = Presets.setting raw k l init.
Proof.
  revert init. induction l as [| [p b] l IH]; intros init Hact; [reflexivity |].
  rewrite !setting_cons, (Hact p b) by (cbn; auto).
  apply IH. intros q c Hin. apply (Hact q c). cbn. auto.
Qed.

(** X2: resolving an already resolved record changes nothing. *)
Theorem applyPresets_idempotent (raw : gmap string jsval) :
  Options.applyPresets (Options.applyPresets raw) = Options.applyPresets raw.
Proof.
  apply map_eq. intros k. rewrite (lookup_applyPresets (Options.applyPresets raw)).
  destruct (Options.applyPresets raw !! k) eqn:Hm; [reflexivity |].
  rewrite (setting_ext raw) by (intros p b; apply applyPresets_activity).
  rewrite lookup_applyPresets in Hm. destruct (raw !! k); [discriminate | exact Hm].
Qed.

(** X3: presets only fill in what the raw record lacks. *)
Theorem presets_fill_missing_properties_only (raw : gmap string jsval) :
  (forall p b k, In (p, b) Presets.builtin -> truthy raw.[p] = true ->
                 is_Some (b !! k) -> is_Some (raw !! k)) ->
  Options.applyPresets raw = raw.
Proof.
  intros Hdom. apply map_eq. intros k. rewrite lookup_applyPresets.
  destruct (raw !! k) eqn:Hraw; [reflexivity |].
  destruct (Presets.setting raw k Presets.builtin None) eqn:Hs; [| reflexivity].
  apply setting_origin in Hs as [Hs | (p & b & Hin & Hact & Hb)]; [discriminate |].
  destruct (Hdom p b k Hin Hact) as [v Hv]; [eauto |]. congruence.
Qed.

(** ** Properties of the feature list *)

Lemma existsb_push_if (f : string -> bool) (c : bool) (xs arr : list string) :
  existsb f (push_if c xs arr) = existsb f arr || (c && existsb f xs).
Proof.
  unfold push_if. destruct c; [apply existsb_app |].
  rewrite andb_false_l, orb_false_r. reflexivity.
Qed.

(** Evaluates a test for a label on the pushes of [determineFeatures]. *)
Ltac eval_label_test :=
  unfold Options.determineFeatures; cbv zeta;
  unfold Deps.mem, Labels.has_view, Labels.has_css;
  rewrite !existsb_push_if;
  repeat match goal with
         | |- context [existsb ?f [?x]] =>
             let b := eval cbn in (existsb f [x]) in
             change (existsb f [x]) with b
         end;
  rewrite ?andb_false_r, ?orb_false_r, ?andb_true_r.

Lemma label_of_flag (o : gmap string jsval) :
  Deps.mem "MongoDB" (Options.determineFeatures o) = truthy o.["mongodb"]
  /\ Deps.mem "PostgreSQL" (Options.determineFeatures o) = truthy o.["postgres"]
  /\ Deps.mem "Redis" (Options.determineFeatures o) = truthy o.["redis"]
  /\ Deps.mem "JWT Auth" (Options.determineFeatures o) = truthy o.["auth"]
  /\ Deps.mem "CORS" (Options.determineFeatures o) = truthy o.["cors"]
  /\ Deps.mem "Helmet" (Options.determineFeatures o) = truthy o.["helmet"]
  /\ Deps.mem "Rate Limiting" (Options.determineFeatures o) = truthy o.["rateLimit"]
  /\ Deps.mem "Joi Validation" (Options.determineFeatures o) = truthy o.["validation"]
  /\ Deps.mem "Swagger/OpenAPI" (Options.determineFeatures o) = truthy o.["swagger"]
  /\ Deps.mem "Jest Testing" (Options.determineFeatures o) = truthy o.["test"]
  /\ Deps.mem "Docker" (Options.determineFeatures o) = truthy o.["docker"]
  /\ Deps.mem "ELK Logging" (Options.determineFeatures o) = truthy o.["elk"].
Proof.
  repeat apply conj; eval_label_test;
    destruct (Options.resolveTypeScript o), (truthy o.["noView"]), (truthy o.["view"]),
      (truthy o.["fullstack"]); cbn; rewrite ?orb_false_r; reflexivity.
Qed.

Lemma label_of_language (o : gmap string jsval) :
  Deps.mem "TypeScript" (Options.determineFeatures o) = Options.resolveTypeScript o
  /\ Deps.mem "JavaScript" (Options.determineFeatures o)
     = negb (Options.resolveTypeScript o).
Proof.
  split; eval_label_test;
    destruct (Options.resolveTypeScript o), (truthy o.["noView"]), (truthy o.["view"]),
      (truthy o.["fullstack"]); cbn; rewrite ?orb_false_r; reflexivity.
Qed.

Lemma prefix_append (s t : string) : String.prefix s (s +:+ t) = true.
Proof.
  induction s as [| c s IH]; [destruct t; reflexivity |].
  change (String.prefix (String c s) (String c s +:+ t))
    with (if ascii_dec c c then String.prefix s (s +:+ t) else false).
  destruct (ascii_dec c c); [exact IH | contradiction].
Qed.

Lemma label_of_engines (o : gmap string jsval) :
  Labels.has_view (Options.determineFeatures o) = truthy (Options.getFinalViewEngine o)
  /\ Labels.has_css (Options.determineFeatures o) = truthy o.["css"]
  /\ Deps.mem "Git" (Options.determineFeatures o)
     = negb (bool_decide (o.["git"] = VBool false)).
Proof.
  unfold Options.getFinalViewEngine.
  repeat apply conj; eval_label_test;
    destruct (Options.resolveTypeScript o), (truthy o.["noView"]),
      (truthy o.["view"]) eqn:Hview, (truthy o.["fullstack"]);
    cbn; rewrite ?prefix_append; cbn;
    rewrite ?orb_false_r, ?andb_true_r, ?Hview; reflexivity.
Qed.

Lemma push_if_cons (c : bool) (xs arr : list string) (a : string) :
  push_if c xs (a :: arr) = a :: push_if c xs arr.
Proof. destruct c; reflexivity. Qed.

(** The first entry is the language. *)
Lemma features_head (o : gmap string jsval) :
  exists rest,
    Options.determineFeatures o =
    (if Options.resolveTypeScript o then "TypeScript" else "JavaScript") :: rest.
Proof.
  unfold Options.determineFeatures. cbv zeta.
  destruct (Options.resolveTypeScript o), (truthy o.["noView"]), (truthy o.["view"]),
    (truthy o.["fullstack"]); cbn [app negb]; rewrite !push_if_cons; eauto.
Qed.

(** X4: the feature labels shown to the user and the inclusion tests used
    for the dependency lists agree. *)
Theorem features_match_inclusion (w : World) (name path : string)
    (raw : gmap string jsval) :
  exists r,
    result_of (resolveOptions w name path raw) = Some r
    /\ Forall (fun '(label, feature) =>
                 Deps.mem label (features r) = Options.shouldIncludeFeature feature r)
         Labels.of_feature
    /\ Labels.has_view (features r) = Options.shouldIncludeFeature "view" r
    /\ Options.shouldIncludeFeature "css" r
       = Labels.has_css (features r) || truthy (opts r).["fullstack"]
    /\ Deps.mem "Git" (features r) = negb (bool_decide ((opts r).["git"] = VBool false))
    /\ exists rest,
         features r = (if isTypescript r then "TypeScript" else "JavaScript") :: rest.
Proof.
  destruct (resolveOptions_total w name path raw) as (t & pm & ->).
  eexists. split; [reflexivity |].
  cbn [features opts isTypescript]. rewrite spread_empty.
  set (o := Options.applyPresets raw).
  destruct (label_of_flag o) as (H1 & H2 & H3 & H4 & H5 & H6 & H7 & H8 & H9 & H10 & H11 & H12).
  destruct (label_of_language o) as (Hts & _).
  destruct (label_of_engines o) as (Hview & Hcss & Hgit).
  split; [| split; [| split; [| split]]].
  - unfold Labels.of_feature. repeat constructor; assumption.
  - rewrite Hview. unfold Options.shouldIncludeFeature, Options.getFinalViewEngine.
    cbn [opts String.eqb Ascii.eqb Bool.eqb].
    destruct (truthy o.["noView"]); reflexivity.
  - rewrite Hcss. unfold Options.shouldIncludeFeature, Options.getFinalCSSEngine.
    cbn [opts String.eqb Ascii.eqb Bool.eqb].
    destruct (truthy o.["css"]) eqn:Hc; [rewrite Hc; reflexivity |].
    destruct (truthy o.["fullstack"]); reflexivity.
  - exact Hgit.
  - apply features_head.
Qed.

(** ** Further properties of the dependency lists *)

Lemma distinct_NoDup (l : list string) : Packages.distinct l = true -> NoDup l.
Proof.
  induction l as [| x l IH]; [intros _; apply NoDup_nil_2 |].
  cbn. intros H. apply andb_true_iff in H as [Hx Hl].
  apply NoDup_cons_2; [| auto].
  intros Hin. apply list_elem_of_In, mem_In in Hin. rewrite Hin in Hx. discriminate.
Qed.

Lemma within_closed (l : list string) :
  Packages.distinct l = true -> Packages.within l l.
Proof. intros H. split; [apply distinct_NoDup, H | apply incl_refl]. Qed.

Lemma within_app (U X arr xs : list string) :
  Packages.within U arr -> NoDup xs -> incl xs X -> Deps.disjoint U X = true ->
  Packages.within (U ++ X) (arr ++ xs).
Proof.
  intros [Hnd Hin] Hxs Hincl Hdisj. split.
  - apply NoDup_app. split; [exact Hnd |]. split; [| exact Hxs].
    intros x Hx Hx'. apply list_elem_of_In in Hx, Hx'.
    apply (disjoint_In _ _ Hdisj x); [apply Hin, Hx | apply Hincl, Hx'].
  - apply incl_app; [apply incl_appl, Hin | apply incl_appr, Hincl].
Qed.

Lemma within_push_if (U X arr xs : list string) (c : bool) :
  Packages.within U arr -> (c = true -> NoDup xs /\ incl xs X) ->
  Deps.disjoint U X = true ->
  Packages.within (U ++ X) (push_if c xs arr).
Proof.
  intros Harr Hxs Hdisj. unfold push_if. destruct c.
  - destruct Hxs as [Hnd Hincl]; [reflexivity |]. apply within_app; auto.
  - destruct Harr as [Hnd Hin]. split; [exact Hnd | apply incl_appl, Hin].
Qed.

Lemma within_if (Ua Ub a b : list string) (c : bool) :
  Packages.within Ua a -> Packages.within Ub b ->
  Packages.within (Ua ++ Ub) (if c then a else b).
Proof.
  intros [Ha Ha'] [Hb Hb']. destruct c; split; auto using incl_appl, incl_appr.
Qed.

(** Walks a dependency list push by push, collecting the packages met. *)
Ltac walk_within view_side :=
  lazymatch goal with
  | |- Packages.within _ (push_if _ [to_string _] _) =>
      eapply (within_push_if _ SUPPORTED_VIEW_ENGINES);
      [ walk_within view_side | intros ?; view_side | vm_compute; reflexivity ]
  | |- Packages.within _ (push_if _ ?xs _) =>
      eapply (within_push_if _ xs);
      [ walk_within view_side
      | intros _; split; [apply distinct_NoDup; vm_compute; reflexivity | apply incl_refl]
      | vm_compute; reflexivity ]
  | |- Packages.within _ (if _ then _ else _) =>
      eapply within_if; walk_within view_side
  | |- Packages.within _ (_ ++ ?xs) =>
      eapply (within_app _ xs);
      [ walk_within view_side | apply distinct_NoDup; vm_compute; reflexivity
      | apply incl_refl | vm_compute; reflexivity ]
  | |- Packages.within _ _ => apply within_closed; vm_compute; reflexivity
  end.

Lemma runtime_packages_within (r : ResolvedOptions) :
  Deps.engines_supported (opts r) = true ->
  exists U, Packages.within U (Options.getRequiredDependencies r).
Proof.
  intros Hs. unfold Options.getRequiredDependencies. cbv zeta. eexists.
  walk_within ltac:(split;
    [ apply NoDup_singleton
    | intros x [<- | []]; apply final_view_engine_supported; assumption ]).
Qed.

Lemma development_packages_within (r : ResolvedOptions) :
  exists U, Packages.within U (Options.getRequiredDevDependencies r).
Proof.
  unfold Options.getRequiredDevDependencies. cbv zeta. eexists.
  walk_within idtac.
Qed.

(** X5: no package is named twice in either list, and the base packages are
    always there. *)
Theorem dependency_lists_without_repetition (r : ResolvedOptions) :
  Deps.engines_supported (opts r) = true ->
  NoDup (Options.getRequiredDependencies r)
  /\ NoDup (Options.getRequiredDevDependencies r)
  /\ In "express" (Options.getRequiredDependencies r)
  /\ In "dotenv" (Options.getRequiredDependencies r)
  /\ In "nodemon" (Options.getRequiredDevDependencies r).
Proof.
  intros Hs.
  destruct (runtime_packages_within r Hs) as (U & Hrun & _).
  destruct (development_packages_within r) as (U' & Hdev & _).
  split; [exact Hrun |]. split; [exact Hdev |].
  unfold Options.getRequiredDependencies, Options.getRequiredDevDependencies. cbv zeta.
  repeat split; find_push.
Qed.

Lemma dependency_lists_without_repetition_witness :
  NoDup (Options.getRequiredDependencies Samples.mongo_auth_ts)
  /\ NoDup (Options.getRequiredDevDependencies Samples.mongo_auth_ts).
Proof.
  destruct (dependency_lists_without_repetition Samples.mongo_auth_ts) as (H1 & H2 & _);
    [vm_compute; reflexivity | auto].
Defined.

(** X6: a JavaScript project gets no TypeScript tooling: its development
    packages are "nodemon" and, with tests, "jest". *)
Theorem javascript_development_packages (r : ResolvedOptions) :
  isTypescript r = false ->
  Options.getRequiredDevDependencies r =
  if truthy (opts r).["test"] then ["nodemon"; "jest"] else ["nodemon"].
Proof.
  intros Hjs. unfold Options.getRequiredDevDependencies. cbv zeta.
  change (Options.shouldIncludeFeature "typescript" r) with (isTypescript r).
  change (Options.shouldIncludeFeature "test" r) with (truthy (opts r).["test"]).
  rewrite Hjs. destruct (truthy (opts r).["test"]); reflexivity.
Qed.

Lemma javascript_development_packages_witness :
  Options.getRequiredDevDependencies
    {| opts := obj [("test", VBool true); ("mongodb", VBool true)];
       projectName := "demo"; projectPath := "/work/demo"; packageManager := Npm;
       isTypescript := false; features := [] |}
  = ["nodemon"; "jest"].
Proof.
  rewrite javascript_development_packages; [vm_compute; reflexivity | reflexivity].
Defined.

(** Drops the pushes whose condition is known to be false. *)
Ltac absent_from U :=
  walk_pushes;
  first [ closed_incl | congruence | discriminate ].

Lemma type_declaration_needs_flag (r : ResolvedOptions) (f t : string) :
  In (f, t) [("cors", "@types/cors"); ("mongodb", "@types/mongoose");
             ("postgres", "@types/pg"); ("swagger", "@types/swagger-jsdoc");
             ("swagger", "@types/swagger-ui-express"); ("auth", "@types/jsonwebtoken");
             ("auth", "@types/bcryptjs"); ("helmet", "@types/helmet");
             ("validation", "@types/joi"); ("redis", "@types/redis")] ->
  In t (Options.getRequiredDevDependencies r) ->
  Options.shouldIncludeFeature f r = true.
Proof.
  intros Hpair Hin.
  destruct (Options.shouldIncludeFeature f r) eqn:Hflag; [reflexivity | exfalso].
  revert Hin. unfold Options.getRequiredDevDependencies. cbv zeta.
  cbn [In] in Hpair.
  repeat (destruct Hpair as [Hpair | Hpair];
          [ inversion Hpair; subst; clear Hpair;
            match goal with
            | |- In ?t ?l -> False =>
                let U := eval vm_compute in
                  (List.filter (fun x => negb (String.eqb x t))
                     Deps.development_packages) in
                intros Hin; assert (Hb : incl l U) by (absent_from U);
                apply Hb in Hin; revert Hin; vm_compute; intuition discriminate
            end
          | ]).
  destruct Hpair.
Qed.

Lemma ejs_declaration_needs_engine (r : ResolvedOptions) :
  In "@types/ejs" (Options.getRequiredDevDependencies r) ->
  Options.shouldIncludeFeature "view" r = true
  /\ Options.getFinalViewEngine (opts r) = VStr "ejs".
Proof.
  intros Hin.
  assert (Hboth : Options.shouldIncludeFeature "view" r
                  && is_str (Options.getFinalViewEngine (opts r)) "ejs" = true).
  { destruct (Options.shouldIncludeFeature "view" r
              && is_str (Options.getFinalViewEngine (opts r)) "ejs") eqn:Hboth;
      [reflexivity | exfalso].
    revert Hin. unfold Options.getRequiredDevDependencies. cbv zeta.
    let U := eval vm_compute in
      (List.filter (fun x => negb (String.eqb x "@types/ejs"))
         Deps.development_packages) in
    match goal with
    | |- In _ ?l -> False =>
        intros Hin; assert (Hb : incl l U);
        [ destruct (Options.shouldIncludeFeature "view" r);
          [ cbn [andb] in Hboth; absent_from U | absent_from U ]
        | apply Hb in Hin; revert Hin; vm_compute; intuition discriminate ]
    end. }
  apply andb_true_iff in Hboth as [Hview Hejs]. split; [exact Hview |].
  destruct (Options.getFinalViewEngine (opts r)); try discriminate.
  cbn in Hejs. apply String.eqb_eq in Hejs. congruence.
Qed.

(** X7: a type-declaration package is installed only together with the
    package it describes. *)
Theorem type_declarations_follow_packages (r : ResolvedOptions) :
  Forall (fun '(declaration, package) =>
            In declaration (Options.getRequiredDevDependencies r) ->
            In package (Options.getRequiredDependencies r))
    Packages.declared_for.
Proof.
  pose proof (type_declaration_needs_flag r) as Hflag.
  assert (by_flag : forall f declaration package,
            In (f, declaration)
              [("cors", "@types/cors"); ("mongodb", "@types/mongoose");
               ("postgres", "@types/pg"); ("swagger", "@types/swagger-jsdoc");
               ("swagger", "@types/swagger-ui-express");
               ("auth", "@types/jsonwebtoken"); ("auth", "@types/bcryptjs");
               ("helmet", "@types/helmet"); ("validation", "@types/joi");
               ("redis", "@types/redis")] ->
            (Options.shouldIncludeFeature f r = true ->
             In package (Options.getRequiredDependencies r)) ->
            In declaration (Options.getRequiredDevDependencies r) ->
            In package (Options.getRequiredDependencies r)).
  { intros f declaration package Hpair Hrun Hin. apply Hrun, (Hflag f declaration); auto. }
  unfold Packages.declared_for.
  repeat apply Forall_cons_2; try apply Forall_nil_2.
  - intros _. unfold Options.getRequiredDependencies. cbv zeta. find_push.
  - apply (by_flag "cors"); [cbn; auto 20 |]. intros Hf.
    unfold Options.getRequiredDependencies. cbv zeta. find_push.
  - intros Hin. apply ejs_declaration_needs_engine in Hin as [Hview Hve].
    unfold Options.getRequiredDependencies. cbv zeta. rewrite Hview, Hve. cbv iota.
    repeat first
      [ apply in_push_if_here; [ reflexivity | solve [ simpl; auto 10 ] ]
      | apply in_push_if_skip
      | match goal with |- In _ (if ?c then _ else _) => destruct c end
      | apply in_or_app; left ].
  - apply (by_flag "mongodb"); [cbn; auto 20 |]. intros Hf.
    unfold Options.getRequiredDependencies. cbv zeta. find_push.
  - apply (by_flag "postgres"); [cbn; auto 20 |]. intros Hf.
    unfold Options.getRequiredDependencies. cbv zeta. find_push.
  - apply (by_flag "swagger"); [cbn; auto 20 |]. intros Hf.
    unfold Options.getRequiredDependencies. cbv zeta. find_push.
  - apply (by_flag "swagger"); [cbn; auto 20 |]. intros Hf.
    unfold Options.getRequiredDependencies. cbv zeta. find_push.
  - apply (by_flag "auth"); [cbn; auto 20 |]. intros Hf.
    unfold Options.getRequiredDependencies. cbv zeta. find_push.
  - apply (by_flag "auth"); [cbn; auto 20 |]. intros Hf.
    unfold Options.getRequiredDependencies. cbv zeta. find_push.
  - apply (by_flag "helmet"); [cbn; auto 20 |]. intros Hf.
    unfold Options.getRequiredDependencies. cbv zeta. find_push.
  - apply (by_flag "validation"); [cbn; auto 20 |]. intros Hf.
    unfold Options.getRequiredDependencies. cbv zeta. find_push.
Qed.

(** X8: with Redis in a TypeScript project the declarations of "redis" are
    installed, while the runtime package is "ioredis" and never "redis". *)
Theorem redis_declarations_without_redis (r : ResolvedOptions) :
  Deps.engines_supported (opts r) = true ->
  isTypescript r = true -> truthy (opts r).["redis"] = true ->
  In "@types/redis" (Options.getRequiredDevDependencies r)
  /\ In "ioredis" (Options.getRequiredDependencies r)
  /\ ~ In "redis" (Options.getRequiredDependencies r).
Proof.
  intros Hs Hts Hredis.
  change (Options.shouldIncludeFeature "redis" r = true) in Hredis.
  assert (Htsf : Options.shouldIncludeFeature "typescript" r = true) by exact Hts.
  split; [| split].
  - unfold Options.getRequiredDevDependencies. cbv zeta. rewrite Htsf. find_push.
  - unfold Options.getRequiredDependencies. cbv zeta. find_push.
  - intros Hin. apply (runtime_packages_bound r Hs) in Hin.
    revert Hin. vm_compute. intuition discriminate.
Qed.

Lemma redis_declarations_without_redis_witness :
  In "@types/redis"
    (Options.getRequiredDevDependencies
       {| opts := obj [("redis", VBool true)];
          projectName := "demo"; projectPath := "/work/demo"; packageManager := Npm;
          isTypescript := true; features := [] |})
  /\ In "ioredis"
       (Options.getRequiredDependencies
          {| opts := obj [("redis", VBool true)];
             projectName := "demo"; projectPath := "/work/demo"; packageManager := Npm;
             isTypescript := true; features := [] |}).
Proof.
  destruct (redis_declarations_without_redis
              {| opts := obj [("redis", VBool true)];
                 projectName := "demo"; projectPath := "/work/demo";
                 packageManager := Npm; isTypescript := true; features := [] |})
    as (H1 & H2 & _); [vm_compute; reflexivity | reflexivity | reflexivity | auto].
Defined.

(** ** Properties of configuration loading and package-manager detection *)

(** X9: the package manager is found without ever throwing; a lock file
    decides before the configuration is searched, pnpm's before yarn's, and
    a configured preference decides before any probe. *)
Theorem detectPackageManager_precedence (w : World) (p : string) :
  exists t pm,
    detectPackageManager w p = (t, inr pm)
    /\ (existsSync (fs w) (path_join w p "pnpm-lock.yaml") = true ->
        pm = Pnpm /\ t = [])
    /\ (existsSync (fs w) (path_join w p "pnpm-lock.yaml") = false ->
        existsSync (fs w) (path_join w p "yarn.lock") = true ->
        pm = Yarn /\ t = [])
    /\ (existsSync (fs w) (path_join w p "pnpm-lock.yaml") = false ->
        existsSync (fs w) (path_join w p "yarn.lock") = false ->
        forall file config preferred,
          explorer_search w (Some p) = inr (Some (file, config)) ->
          cfg_packageManager config = Some preferred ->
          pm = preferred)
    /\ (existsSync (fs w) (path_join w p "pnpm-lock.yaml") = false ->
        existsSync (fs w) (path_join w p "yarn.lock") = false ->
        (forall config, result_of (loadConfig w (Some p)) = Some (Some config) ->
                        cfg_packageManager config = None) ->
        pm = if probe w "yarn --version" then Yarn
             else if probe w "pnpm --version" then Pnpm else Npm).
Proof.
  unfold detectPackageManager.
  destruct (existsSync (fs w) (path_join w p "pnpm-lock.yaml")).
  { exists [], Pnpm. repeat split; intros; try discriminate; reflexivity. }
  destruct (existsSync (fs w) (path_join w p "yarn.lock")).
  { exists [], Yarn. repeat split; intros; try discriminate; reflexivity. }
  destruct (loadConfig_total w (Some p)) as (t & c & Hload).
  assert (Hfound : forall file config,
            explorer_search w (Some p) = inr (Some (file, config)) -> c = Some config).
  { intros file config Hsearch. revert Hload. unfold loadConfig, call.
    rewrite Hsearch. cbn. congruence. }
  rewrite Hload, bind_inr. unfold result_of. cbn [snd].
  destruct (c ≫= cfg_packageManager) as [pm |] eqn:Hpref.
  - exists (t ++ []), pm. split; [reflexivity |].
    repeat split; intros; try discriminate.
    + rewrite (Hfound _ _ H1) in Hpref. cbn in Hpref. congruence.
    + destruct c as [config |]; [| discriminate]. cbn in Hpref.
      rewrite (H1 config eq_refl) in Hpref. discriminate.
  - exists (t ++ []),
      (if probe w "yarn --version" then Yarn
       else if probe w "pnpm --version" then Pnpm else Npm).
    split; [destruct (probe w "yarn --version"), (probe w "pnpm --version");
            reflexivity |].
    repeat split; intros; try discriminate.
    rewrite (Hfound _ _ H1) in Hpref. cbn in Hpref. congruence.
Qed.

(** On a machine with [yarn.lock] and a configuration that prefers npm the
    lock file decides. *)
Lemma detectPackageManager_precedence_witness :
  detectPackageManager MoreSamples.world_with_config "/work/demo" = ([], inr Yarn).
Proof.
  destruct (detectPackageManager_precedence MoreSamples.world_with_config "/work/demo")
    as (t & pm & -> & _ & H & _).
  destruct H as [-> ->]; reflexivity.
Defined.

(** X10: merging the configuration never throws; explicit options win over
    the defaults of the configuration file, property by property, and a
    configuration that cannot be loaded leaves the options as they are and
    is reported as a warning. *)
Theorem mergeWithConfig_precedence (w : World) (options : gmap string jsval)
    (p : option string) :
  exists t merged,
    mergeWithConfig w options p = (t, inr merged)
    /\ options ⊆ merged
    /\ (forall file config d,
          explorer_search w p = inr (Some (file, config)) -> defaults config = Some d ->
          forall k, merged !! k =
                    match options !! k with Some v => Some v | None => d !! k end)
    /\ (forall file config,
          explorer_search w p = inr (Some (file, config)) -> defaults config = None ->
          merged = options)
    /\ (explorer_search w p = inr None -> merged = options)
    /\ (forall e, explorer_search w p = inl e ->
          merged = options
          /\ t = [(LWarn, "Error loading config file: " +:+ message e)]).
Proof.
  unfold mergeWithConfig, loadConfig, call.
  destruct (explorer_search w p) as [e | [[file [[d |] pm]] |]]; cbn.
  - exists [(LWarn, "Error loading config file: " +:+ message e)], options.
    repeat split; intros; try discriminate; try reflexivity.
    congruence.
  - exists [(LDebug, "Found config file: " +:+ file)], (spread d options).
    split; [reflexivity |]. split; [apply map_union_subseteq_l |].
    repeat split; intros; try discriminate.
    + inversion H. subst. cbn in H0. inversion H0. subst.
      unfold spread. rewrite lookup_union.
      destruct (options !! k), (d0 !! k); reflexivity.
    + inversion H. subst. discriminate.
  - exists [(LDebug, "Found config file: " +:+ file)], options.
    repeat split; intros; try discriminate; try reflexivity.
    inversion H. subst. discriminate.
  - exists [(LDebug, "No config file found")], options.
    repeat split; intros; try discriminate; reflexivity.
Qed.

Lemma mergeWithConfig_precedence_witness :
  exists t merged,
    mergeWithConfig MoreSamples.world_with_config
      (obj [("typescript", VBool false)]) (Some "/work") = (t, inr merged)
    /\ merged !! "typescript" = Some (VBool false)
    /\ merged !! "cors" = Some (VBool true).
Proof.
  destruct (mergeWithConfig_precedence MoreSamples.world_with_config
              (obj [("typescript", VBool false)]) (Some "/work"))
    as (t & merged & Hrun & _ & Hd & _).
  exists t, merged. split; [exact Hrun |].
  split; rewrite (Hd "/work/.exgenrc.json" MoreSamples.config _ eq_refl eq_refl);
    reflexivity.
Defined.

(** X11: resolution never throws, whatever the options and the machine: it
    returns the given name and path, the options after preset application,
    and the package manager that detection finds. *)
Theorem resolveOptions_never_throws (w : World) (name path : string)
    (raw : gmap string jsval) :
  exists r,
    resolveOptions w name path raw = (fst (detectPackageManager w path), inr r)
    /\ projectName r = name
    /\ projectPath r = path
    /\ opts r = Options.applyPresets raw
    /\ result_of (detectPackageManager w path) = Some (packageManager r)
    /\ isTypescript r = Options.resolveTypeScript (opts r)
    /\ features r = Options.determineFeatures (opts r).
Proof.
  unfold resolveOptions.
  destruct (detectPackageManager_total w path) as (t & pm & ->).
  rewrite bind_inr. cbn. rewrite app_nil_r, spread_empty.
  eexists. split; [reflexivity |]. repeat split.
Qed.

Lemma domain_check (b raw : gmap string jsval) :
  forallb (fun '(k, _) => bool_decide (is_Some (raw !! k))) (map_to_list b) = true ->
  forall k, is_Some (b !! k) -> is_Some (raw !! k).
Proof.
  rewrite forallb_forall. intros H k [v Hv].
  assert (Hin : In (k, v) (map_to_list b))
    by (apply list_elem_of_In, elem_of_map_to_list, Hv).
  specialize (H _ Hin). cbv beta iota in H. apply bool_decide_eq_true in H. exact H.
Qed.

(** A record with every boolean flag set gets nothing from the "prod"
    preset: its features are the language and Git. *)
Lemma presets_fill_missing_properties_only_witness :
  Options.applyPresets MoreSamples.every_flag_prod = MoreSamples.every_flag_prod
  /\ Options.determineFeatures (Options.applyPresets MoreSamples.every_flag_prod)
     = ["TypeScript"; "Git"].
Proof.
  assert (H : Options.applyPresets MoreSamples.every_flag_prod
              = MoreSamples.every_flag_prod).
  { apply presets_fill_missing_properties_only.
    intros p b k Hin Hact. revert k.
    unfold Presets.builtin in Hin. cbn [In] in Hin.
    repeat (destruct Hin as [Hin | Hin];
            [ inversion Hin; subst; clear Hin;
              first [ discriminate Hact
                    | apply domain_check; vm_compute; reflexivity ]
            | ]).
    destruct Hin. }
  split; [exact H |]. rewrite H. vm_compute. reflexivity.
Defined.

(** ** Further properties of the validator *)

(** X12: the name check for any name validator: an empty name is refused
    before the validator is asked; any other name is valid exactly when the
    validator accepts it for new packages and it has at most 214
    characters, and it carries every warning of the validator. *)
Theorem validateProjectName_valid_iff (npm : string -> NpmValidation) :
  Validation.validateProjectName npm "" =
  {| valid := false; errors := ["Project name is required"]; warnings := [] |}
  /\ forall name,
       valid (Validation.validateProjectName npm name)
       = negb (String.eqb name "") && validForNewPackages (npm name)
         && negb (214 <? String.length name)%nat
       /\ (String.eqb name "" = false ->
           forall ws, npm_warnings (npm name) = Some ws ->
                      incl ws (warnings (Validation.validateProjectName npm name))).
Proof.
  split; [reflexivity |]. intros name. unfold Validation.validateProjectName.
  destruct (String.eqb name ""); [split; [reflexivity | discriminate] |]. cbv zeta.
  split.
  - destruct (validForNewPackages (npm name)), (npm_errors (npm name)),
      (npm_warnings (npm name)), (214 <? String.length name)%nat,
      (negb (String.eqb name (Str.toLowerCase name))); reflexivity.
  - intros _ ws ->.
    destruct (validForNewPackages (npm name)), (npm_errors (npm name)),
      (214 <? String.length name)%nat,
      (negb (String.eqb name (Str.toLowerCase name))); cbn;
      intros x Hx; rewrite ?in_app_iff; auto.
Qed.

Lemma validateProjectName_valid_iff_witness :
  incl ["name can no longer contain capital letters"]
    (warnings (Validation.validateProjectName (NpmName.validate Samples.builtins)
                 "My-App")).
Proof.
  apply (proj2 (proj2 (validateProjectName_valid_iff
                         (NpmName.validate Samples.builtins)) "My-App"));
    reflexivity.
Defined.

Lemma require_command_consistent (w : World) (l : list string) (r : ValidationResult) :
  consistent r -> warnings (fold_left (Environment.require_command w) l r) = warnings r
  /\ consistent (fold_left (Environment.require_command w) l r)
  /\ valid (fold_left (Environment.require_command w) l r)
     = valid r && forallb (fun cmd => probe w (cmd +:+ " --version")) l.
Proof.
  revert r. induction l as [| cmd l IH]; intros r Hr.
  - cbn. rewrite andb_true_r. auto.
  - cbn [fold_left forallb]. unfold Environment.require_command at 2 4 6, probe.
    destruct (execSync w (cmd +:+ " --version") None) as [e | out].
    + destruct (IH (Validation.push_errors [cmd +:+ " is not installed or not in PATH"]
                      (Validation.set_invalid r))) as (Hw & Hc & Hv);
        [apply consistent_fail |].
      rewrite Hw, Hv. cbn. rewrite andb_false_r. auto.
    + destruct (IH r Hr) as (Hw & Hc & Hv). rewrite Hw, Hv. auto.
Qed.

Lemma suggest_command_keeps (w : World) (l : list string) (r : ValidationResult) :
  valid (fold_left (Environment.suggest_command w) l r) = valid r
  /\ errors (fold_left (Environment.suggest_command w) l r) = errors r
  /\ warnings (fold_left (Environment.suggest_command w) l r)
     = warnings r
       ++ map (fun cmd => cmd +:+ " is not available (optional)")
            (List.filter (fun cmd => negb (probe w (cmd +:+ " --version"))) l).
Proof.
  revert r. induction l as [| cmd l IH]; intros r.
  - cbn. rewrite app_nil_r. auto.
  - cbn [fold_left List.filter]. unfold Environment.suggest_command at 2 4 6, probe.
    destruct (execSync w (cmd +:+ " --version") None) as [e | out]; cbn [negb].
    + destruct (IH (Validation.push_warnings [cmd +:+ " is not available (optional)"] r))
        as (Hv & He & Hw).
      rewrite Hv, He, Hw. cbn. rewrite <- app_assoc. auto.
    + apply IH.
Qed.

(** X13: the environment is valid exactly when [node] and [npm] run; each
    optional tool that is missing adds one warning and never an error. *)
Theorem validateEnvironment_rules (w : World) :
  valid (Environment.validateEnvironment w)
  = probe w "node --version" && probe w "npm --version"
  /\ (valid (Environment.validateEnvironment w) = true
      <-> errors (Environment.validateEnvironment w) = [])
  /\ warnings (Environment.validateEnvironment w)
     = map (fun cmd => cmd +:+ " is not available (optional)")
         (List.filter (fun cmd => negb (probe w (cmd +:+ " --version")))
            ["git"; "docker"; "yarn"; "pnpm"]).
Proof.
  unfold Environment.validateEnvironment. cbv zeta.
  destruct (require_command_consistent w ["node"; "npm"] Validation.new_result
              consistent_new) as (Hw & Hc & Hv).
  destruct (suggest_command_keeps w ["git"; "docker"; "yarn"; "pnpm"]
              (fold_left (Environment.require_command w) ["node"; "npm"]
                 Validation.new_result)) as (Hv' & He' & Hw').
  split; [| split].
  - rewrite Hv', Hv. cbn. rewrite andb_true_r. reflexivity.
  - rewrite Hv', He'. apply consistent_iff, Hc.
  - rewrite Hw', Hw. reflexivity.
Qed.

(** ** Validation and preset application together *)

(** X14: the options check runs before preset application.  With "api" or
    "microservice" active, an explicit view engine and no explicit
    [noView], the check sees no conflict; the preset then sets [noView], so
    the resolved record has both and the view engine is not used. *)
Theorem preset_noView_overrides_explicit_view (raw : gmap string jsval) :
  truthy raw.["api"] = true \/ truthy raw.["microservice"] = true ->
  raw !! "noView" = None ->
  truthy raw.["view"] = true ->
  OptionsCheck.view_conflict raw = false
  /\ OptionsCheck.view_conflict (Options.applyPresets raw) = true
  /\ (Options.applyPresets raw).["view"] = raw.["view"]
  /\ Options.getFinalViewEngine (Options.applyPresets raw) = VUndef.
Proof.
  intros Hact HnoView Hview.
  assert (Hn : (Options.applyPresets raw).["noView"] = VBool true).
  { unfold get.
    destruct Hact as [Hact | Hact].
    - rewrite (lookup_active_setting raw "api" (Options.getPresetOptions "api")
                 "noView" (VBool true)).
      + rewrite HnoView. reflexivity.
      + cbn. auto.
      + exact Hact.
      + reflexivity.
    - rewrite (lookup_active_setting raw "microservice"
                 (Options.getPresetOptions "microservice") "noView" (VBool true)).
      + rewrite HnoView. reflexivity.
      + cbn. auto 10.
      + exact Hact.
      + reflexivity. }
  assert (Hv : (Options.applyPresets raw).["view"] = raw.["view"]).
  { unfold get in *. rewrite lookup_applyPresets.
    destruct (raw !! "view"); [reflexivity | discriminate]. }
  assert (Hr : raw.["noView"] = VUndef) by (unfold get; rewrite HnoView; reflexivity).
  unfold OptionsCheck.view_conflict, Options.getFinalViewEngine.
  rewrite Hv, Hview, Hn, Hr. cbn. auto.
Qed.

Lemma preset_noView_overrides_explicit_view_witness :
  valid (Validation.validateOptions (obj [("api", VBool true); ("view", VStr "pug")]))
  = true
  /\ Options.getFinalViewEngine
       (Options.applyPresets (obj [("api", VBool true); ("view", VStr "pug")]))
     = VUndef.
Proof.
  split; [vm_compute; reflexivity |].
  apply (preset_noView_overrides_explicit_view
           (obj [("api", VBool true); ("view", VStr "pug")]));
    [left; reflexivity | reflexivity | reflexivity].
Defined.

(** The only view engine and CSS engine a bundle sets are "ejs" and "sass". *)
Lemma builtin_engines :
  forallb
    (fun '(_, b) =>
       bool_decide (b !! "view" = None \/ b !! "view" = Some (VStr "ejs"))
       && bool_decide (b !! "css" = None \/ b !! "css" = Some (VStr "sass")))
    Presets.builtin = true.
Proof. vm_compute. reflexivity. Qed.

Lemma setting_engine (raw : gmap string jsval) (v : jsval) :
  (Presets.setting raw "view" Presets.builtin None = Some v -> v = VStr "ejs")
  /\ (Presets.setting raw "css" Presets.builtin None = Some v -> v = VStr "sass").
Proof.
  pose proof builtin_engines as H. rewrite forallb_forall in H.
  split; intros Hs; apply setting_origin in Hs as [Hs | (p & b & Hin & _ & Hb)];
    try discriminate;
    specialize (H _ Hin); cbv beta iota in H; apply andb_true_iff in H as [H1 H2];
    apply bool_decide_eq_true in H1, H2;
    [destruct H1 as [H1 | H1] | destruct H2 as [H2 | H2]]; congruence.
Qed.

(** Options that pass the check still have supported engines after preset
    application. *)
Lemma resolved_engines_supported (o : gmap string jsval) :
  valid (Validation.validateOptions o) = true ->
  Deps.engines_supported (Options.applyPresets o) = true.
Proof.
  rewrite validateOptions_result. cbn [valid]. intros Hvalid.
  apply negb_true_iff, orb_false_iff in Hvalid as [Hvalid _].
  apply orb_false_iff in Hvalid as [Hview Hcss].
  unfold OptionsCheck.unsupported_view in Hview.
  unfold OptionsCheck.unsupported_css in Hcss.
  unfold Deps.engines_supported. apply andb_true_iff. split.
  - unfold get in *. rewrite lookup_applyPresets.
    destruct (o !! "view") as [v |].
    + destruct (truthy v); [| reflexivity].
      rewrite andb_true_l in Hview. apply negb_false_iff in Hview.
      rewrite Hview. reflexivity.
    + destruct (Presets.setting o "view" Presets.builtin None) as [v |] eqn:Hs;
        [| reflexivity].
      apply setting_engine in Hs. subst. reflexivity.
  - unfold get in *. rewrite lookup_applyPresets.
    destruct (o !! "css") as [v |].
    + destruct (truthy v); [| reflexivity].
      rewrite andb_true_l in Hcss. apply negb_false_iff in Hcss.
      rewrite Hcss. reflexivity.
    + destruct (Presets.setting o "css" Presets.builtin None) as [v |] eqn:Hs;
        [| reflexivity].
      apply setting_engine in Hs. subst. reflexivity.
Qed.

(** X15: [createProject] resolves the options only when a name is given and
    all three checks pass; the resolved record then has the sanitized name,
    the target path, supported engines and disjoint dependency lists. *)
Theorem resolved_after_validation (w : World) (given : option string)
    (options : gmap string jsval) (t : Trace) (r : ResolvedOptions) :
  validateAndResolve w given options = (t, inr r) ->
  exists name,
    given = Some name /\ name <> ""
    /\ valid (Checks.nameValidation w name) = true
    /\ valid (Checks.pathValidation w name) = true
    /\ valid (Checks.optionsValidation w options) = true
    /\ projectName r = Validation.sanitizeProjectName name
    /\ projectPath r = Checks.target_path w name
    /\ opts r = Options.applyPresets (Checks.merged_options w options)
    /\ Deps.engines_supported (opts r) = true
    /\ (forall x, In x (Options.getRequiredDependencies r) ->
                  In x (Options.getRequiredDevDependencies r) -> False).
Proof.
  intros Hrun.
  destruct given as [name |]; [| vm_compute in Hrun; discriminate].
  destruct (string_dec name "") as [-> | Hname]; [vm_compute in Hrun; discriminate |].
  exists name. split; [reflexivity |]. split; [exact Hname |].
  rewrite (validateAndResolve_steps w name options Hname) in Hrun. cbv zeta in Hrun.
  destruct (valid (Checks.nameValidation w name)); [| discriminate].
  destruct (valid (Checks.pathValidation w name)); [| discriminate].
  destruct (valid (Checks.optionsValidation w options)) eqn:Hov; [| discriminate].
  cbn [negb] in Hrun.
  destruct (resolveOptions_total w (Validation.sanitizeProjectName name)
              (Checks.target_path w name) (Checks.merged_options w options))
    as (tr & pm & Hr).
  rewrite Hr, spread_empty in Hrun. cbn [fst snd] in Hrun.
  injection Hrun as _ Hrec.
  assert (Ho : opts r = Options.applyPresets (Checks.merged_options w options))
    by (rewrite <- Hrec; reflexivity).
  assert (Hs : Deps.engines_supported (opts r) = true)
    by (rewrite Ho; apply resolved_engines_supported, Hov).
  split; [reflexivity |]. split; [reflexivity |]. split; [reflexivity |].
  split; [rewrite <- Hrec; reflexivity |].
  split; [rewrite <- Hrec; reflexivity |].
  split; [exact Ho |]. split; [exact Hs |].
  intros x Hrun' Hdev.
  apply (disjoint_In _ _ runtime_development_disjoint x).
  - apply (runtime_packages_bound r Hs x Hrun').
  - apply (development_packages_bound r x Hdev).
Qed.

Lemma resolved_after_validation_witness :
  exists t r,
    validateAndResolve (Samples.world true true) (Some "my-app") Samples.api_only
    = (t, inr r)
    /\ projectName r = "my-app"
    /\ Deps.engines_supported (opts r) = true.
Proof.
  destruct (validateAndResolve (Samples.world true true) (Some "my-app")
              Samples.api_only) as [t [e | r]] eqn:Hrun;
    [vm_compute in Hrun; discriminate |].
  exists t, r. split; [reflexivity |].
  destruct (resolved_after_validation _ _ _ _ _ Hrun)
    as (name & Hname & _ & _ & _ & _ & Hn & _ & _ & Hs & _).
  inversion Hname. subst. split; [rewrite Hn; reflexivity | exact Hs].
Defined.

(** ** The installer *)

Lemma base_packages_present (r : ResolvedOptions) :
  (0 <? length (Options.getRequiredDependencies r))%nat = true
  /\ (0 <? length (Options.getRequiredDevDependencies r))%nat = true.
Proof.
  assert (H : forall (l : list string) x, In x l -> (0 <? length l)%nat = true)
    by (intros [| y l] x Hx; [destruct Hx | reflexivity]).
  split.
  - apply (H _ "express").
    unfold Options.getRequiredDependencies. cbv zeta. find_push.
  - apply (H _ "nodemon").
    unfold Options.getRequiredDevDependencies. cbv zeta. find_push.
Qed.

(** One call of [installPackages], by the installer's answer. *)
Lemma installPackages_run (w : World) (r : ResolvedOptions) (isDev : bool) :
  installPackages w (Install.packages r isDev) isDev r =
  let n := length (Install.packages r isDev) in
  let result := Install.answer w r isDev in
  if success result then
    (Install.started isDev n
     :: (LSpinner, (if isDev then "Development" else "Production")
                   +:+ " dependencies installed (" +:+ pretty n +:+ " packages)")
     :: (if env_VERBOSE w
         then [(LInfo, "Installed packages: " +:+ join ", " (Install.packages r isDev))]
         else []),
     inr result)
  else
    ([Install.started isDev n; Install.failed isDev; Install.failed isDev],
     inl (Install.failure result)).
Proof.
  unfold installPackages, Install.answer, Install.started, Install.failed,
    Install.failure. cbv zeta.
  generalize (Install.packages r isDev). intros packages.
  destruct (executeCommand w _ _ _) as [[] err out]; cbn [success ir_error].
  - destruct (env_VERBOSE w); reflexivity.
  - reflexivity.
Qed.

(** X16: the production list is installed first and the development list
    only after it succeeded; the first failing answer is logged and rethrown,
    with the installer's message or "Installation failed". *)
Theorem installDependencies_outcome (w : World) (r : ResolvedOptions) :
  let production := Install.answer w r false in
  let development := Install.answer w r true in
  let run := installDependencies w r in
  snd run =
    (if success production then
       if success development then inr tt else inl (Install.failure development)
     else inl (Install.failure production))
  /\ (success production = false ->
      fst run =
      [Install.started false (length (Options.getRequiredDependencies r));
       Install.failed false; Install.failed false;
       Install.reported (Install.failure production)])
  /\ (success production = true -> success development = false ->
      exists t,
        fst run =
        t ++ [Install.started true (length (Options.getRequiredDevDependencies r));
              Install.failed true; Install.failed true;
              Install.reported (Install.failure development)])
  /\ (success production = true -> success development = true ->
      exists t,
        fst run = t ++ [(LInfo, "All dependencies installed successfully")]).
Proof.
  cbv zeta. unfold installDependencies. cbv zeta.
  destruct (base_packages_present r) as [-> ->].
  pose proof (installPackages_run w r false) as Hp.
  pose proof (installPackages_run w r true) as Hd.
  unfold Install.packages in Hp at 1. unfold Install.packages in Hd at 1.
  cbv zeta in Hp, Hd. rewrite Hp, Hd. clear Hp Hd.
  unfold Install.packages.
  destruct (success (Install.answer w r false)).
  - destruct (success (Install.answer w r true)).
    + split; [reflexivity |]. split; [discriminate |]. split; [discriminate |].
      intros _ _. destruct (env_VERBOSE w); eexists; cbn;
        rewrite ?app_nil_r, ?app_comm_cons; try reflexivity.
      all: match goal with
           | |- ?a :: ?b :: ?c :: ?d :: ?e :: ?f :: [?x] = _ =>
               change (a :: b :: c :: d :: e :: f :: [x])
                 with ([a; b; c; d; e; f] ++ [x]); reflexivity
           | |- ?a :: ?b :: ?c :: ?d :: [?x] = _ =>
               change (a :: b :: c :: d :: [x]) with ([a; b; c; d] ++ [x]); reflexivity
           end.
    + split; [reflexivity |]. split; [discriminate |].
      split; [| discriminate].
      intros _ _. destruct (env_VERBOSE w); cbn.
      * eexists [_; _; _]. reflexivity.
      * eexists [_; _]. reflexivity.
  - split; [reflexivity |]. split; [intros _; reflexivity |].
    split; discriminate.
Qed.

Lemma installDependencies_outcome_witness :
  snd (installDependencies (Samples.world false true) Samples.mongo_auth_ts)
  = inl (Error "npm ERR! network")
  /\ length (fst (installDependencies (Samples.world false true) Samples.mongo_auth_ts))
     = 4%nat.
Proof.
  destruct (installDependencies_outcome (Samples.world false true) Samples.mongo_auth_ts)
    as (Hsnd & Hfst & _).
  split; [rewrite Hsnd; reflexivity |].
  rewrite Hfst; reflexivity.
Defined.

(** ** Dry runs and failed generation *)

Lemma validateAndResolve_actions (w : World)
    (ensure write : string -> JsError + unit)
    (generate : ResolvedOptions -> JsError + unit)
    (execute : string -> list string -> string -> InstallResult)
    (name : option string) (options : gmap string jsval) :
  validateAndResolve (with_actions w ensure write generate execute) name options
  = validateAndResolve w name options.
Proof. reflexivity. Qed.

(** X17: a dry run creates no directory, writes no file, generates nothing
    and installs nothing: its outcome is the same whatever these calls would
    answer. *)
Theorem dry_run_performs_no_action (w : World)
    (ensure write : string -> JsError + unit)
    (generate : ResolvedOptions -> JsError + unit)
    (execute : string -> list string -> string -> InstallResult)
    (name : option string) (options : gmap string jsval) :
  truthy options.["dryRun"] = true ->
  createProject (with_actions w ensure write generate execute) name options
  = createProject w name options.
Proof.
  intros Hdry. unfold createProject. cbv zeta.
  rewrite validateAndResolve_actions.
  unfold materializeAndFinish. rewrite Hdry. reflexivity.
Qed.

Lemma dry_run_performs_no_action_witness :
  createProject
    (with_actions (Samples.world true true)
       (fun _ => inl (Error "EACCES")) (fun _ => inl (Error "EACCES"))
       (fun _ => inl (Error "EACCES"))
       (fun _ _ _ => {| success := false; ir_error := None; ir_output := None |}))
    (Some "demo") (obj [("dryRun", VBool true)])
  = createProject (Samples.world true true) (Some "demo") (obj [("dryRun", VBool true)])
  /\ snd (createProject (Samples.world true true) (Some "demo")
            (obj [("dryRun", VBool true)])) = Returned.
Proof.
  split; [| vm_compute; reflexivity].
  apply dry_run_performs_no_action. reflexivity.
Defined.

(** X18: when the directory cannot be created or the generator throws, the
    run stops there: a generator failure is first logged by the generator
    itself, the failure is then shown on the spinner and as the error, the
    process exits with code 1, and neither the installer nor Git runs. *)
Theorem generation_failure_is_fatal (w : World) (name : option string)
    (options : gmap string jsval) (t0 : Trace) (r : ResolvedOptions) (e : JsError) :
  validateAndResolve w name options = (t0, inr r) ->
  truthy options.["dryRun"] = false ->
  let started :=
    (LConsole, "EXGEN - Express Application Generator") :: t0
    ++ fst (displayProjectSummary r)
    ++ [(LInfo, "[3/6] Creating project structure...");
        (LSpinner, "Setting up project directories...")] in
  let stopped :=
    [(LSpinner, "Failed to create project structure");
     (LConsole, "Error: " +:+ message e)] in
  (ensureDir w (projectPath r) = inl e ->
   createProject w name options = (started ++ stopped, ProcessExit 1))
  /\ (ensureDir w (projectPath r) = inr tt -> generateFiles w r = inl e ->
      createProject w name options =
      (started
       ++ (LError, "Failed to generate project files: Error: " +:+ message e) :: stopped,
       ProcessExit 1)).
Proof.
  intros Hv Hdry. cbv zeta.
  assert (Hrun : forall t1,
             snd (materializeAndFinish w options r) = inl e ->
             fst (materializeAndFinish w options r) = t1 ->
             createProject w name options
             = ((LConsole, "EXGEN - Express Application Generator") :: t0 ++ t1
                ++ [(LConsole, "Error: " +:+ message e)], ProcessExit 1)).
  { intros t1 Hsnd Hfst. unfold createProject. cbv zeta. unfold logHeader, emit.
    rewrite bind_inr. cbv beta. rewrite Hv, bind_inr. cbv beta.
    destruct (materializeAndFinish w options r) as [t [e' | []]]; [| discriminate Hsnd].
    cbn in Hsnd, Hfst. injection Hsnd as ->. subst t1. cbn.
    rewrite <- !app_assoc. reflexivity. }
  destruct (displayProjectSummary_succeeds r) as (ts & [] & Hs).
  split.
  - intros Hdir. rewrite (Hrun (ts ++ [(LInfo, "[3/6] Creating project structure...");
                                      (LSpinner, "Setting up project directories...");
                                      (LSpinner, "Failed to create project structure")])).
    + rewrite Hs. cbn [fst]. rewrite <- app_comm_cons, <- !app_assoc. reflexivity.
    + unfold materializeAndFinish. rewrite Hdry, Hs, Hdir. reflexivity.
    + unfold materializeAndFinish. rewrite Hdry, Hs, Hdir. cbn. reflexivity.
  - intros Hdir Hgen.
    rewrite (Hrun (ts ++ [(LInfo, "[3/6] Creating project structure...");
                          (LSpinner, "Setting up project directories...");
                          (LError, "Failed to generate project files: Error: "
                                   +:+ message e);
                          (LSpinner, "Failed to create project structure")])).
    + rewrite Hs. cbn [fst]. rewrite <- app_comm_cons, <- !app_assoc. reflexivity.
    + unfold materializeAndFinish, generateProject. rewrite Hdry, Hs, Hdir, Hgen.
      reflexivity.
    + unfold materializeAndFinish, generateProject. rewrite Hdry, Hs, Hdir, Hgen.
      cbn. reflexivity.
Qed.

Lemma generation_failure_is_fatal_witness :
  snd (createProject (world_commit_fails "") (Some "demo") ∅) = ProcessExit 1
  /\ In (LError, "Failed to generate project files: Error: EACCES: permission denied")
        (fst (createProject (world_commit_fails "") (Some "demo") ∅))
  /\ Checks.unmentioned "Installing"
       (fst (createProject (world_commit_fails "") (Some "demo") ∅)) = true.
Proof.
  destruct (validateAndResolve (world_commit_fails "") (Some "demo") ∅)
    as [t0 [e | r]] eqn:Hv; [vm_compute in Hv; discriminate |].
  destruct (generation_failure_is_fatal (world_commit_fails "") (Some "demo") ∅ t0 r
              (Error "EACCES: permission denied") Hv eq_refl) as [_ Hgen].
  rewrite Hgen; [| reflexivity | reflexivity].
  split; [reflexivity |].
  vm_compute in Hv. injection Hv as Ht Hr. subst t0 r.
  split; [vm_compute; auto 30 | vm_compute; reflexivity].
Defined.

(** ** The Git initializer *)

(** X19: without Git, or in a directory that already is a repository, the
    initializer only says so; a failing existence test counts as "not a
    repository"; a failing [git init] is reported and the run continues. *)
Theorem initializeGit_edge_cases (w : World) (p : string) :
  (probe w "git --version" = false ->
   initializeGit w p =
   ([GitLines.started;
     (LSpinner, "Git is not available - skipping repository initialization");
     (LWarn, "Please install Git to enable version control features")],
    inr tt))
  /\ (probe w "git --version" = true ->
      pathExists w (path_join w p ".git") = inr true ->
      initializeGit w p =
      ([GitLines.started; (LSpinner, "Directory is already a Git repository")], inr tt))
  /\ (forall e, pathExists w (path_join w p ".git") = inl e ->
      isGitRepository w p = ([], inr false))
  /\ (forall e,
      probe w "git --version" = true ->
      result_of (isGitRepository w p) = Some false ->
      execSync w "git init" (Some p) = inl e ->
      initializeGit w p =
      (GitLines.started :: (LSpinner, "Failed to initialize Git repository")
       :: (if Str.includes "not found" (message e)
              || bool_decide (code e = Some "ENOENT")
           then [(LWarn, "Git is not installed or not in PATH");
                 (LInfo, "Please install Git: https://git-scm.com/downloads")]
           else [(LError, "Git initialization error: " +:+ message e)])
       ++ [GitLines.continuing],
       inr tt)).
Proof.
  unfold initializeGit, initializeGit_steps, isGitAvailable, isGitRepository.
  split; [| split; [| split]].
  - intros ->. reflexivity.
  - intros -> ->. reflexivity.
  - intros e ->. reflexivity.
  - intros e -> Hrepo Hinit. rewrite Hinit.
    destruct (pathExists w (path_join w p ".git")) as [e' | []];
      [| discriminate Hrepo |];
      cbn; destruct (Str.includes "not found" (message e) || _); reflexivity.
Qed.

Lemma initializeGit_edge_cases_witness :
  length (fst (initializeGit (Samples.world true false) "/work/demo")) = 3%nat.
Proof.
  destruct (initializeGit_edge_cases (Samples.world true false) "/work/demo")
    as (H & _).
  rewrite H; reflexivity.
Defined.

(** X20: in a fresh repository, a commit that fails for lack of a Git
    identity is skipped with a hint and the repository is still reported as
    initialized; any other commit failure is reported as a Git
    initialization failure.  Either way the initializer returns. *)
Theorem commit_failure_handling (w : World) (p : string) (e : JsError) :
  probe w "git --version" = true ->
  result_of (isGitRepository w p) = Some false ->
  (exists out, execSync w "git init" (Some p) = inr out) ->
  writeFile w (path_join w p ".gitignore") = inr tt ->
  (exists out, execSync w "git add ." (Some p) = inr out) ->
  (exists e', execSync w "git diff --cached --exit-code" (Some p) = inl e') ->
  execSync w GitLines.commit_command (Some p) = inl e ->
  initializeGit w p =
  if GitLines.identity_missing e then
    (GitLines.started
     :: (LInfo, "Git user configuration needed - skipping initial commit")
     :: (LInfo, "Configure Git with: git config --global user.name 'Your Name'")
     :: (LInfo,
         "Configure Git with: git config --global user.email 'your.email@example.com'")
     :: (LSpinner, "Git repository initialized")
     :: fst (suggestGitConfig w p),
     inr tt)
  else
    (GitLines.started :: (LSpinner, "Failed to initialize Git repository")
     :: (if Str.includes "not found" (message e)
            || bool_decide (code e = Some "ENOENT")
         then [(LWarn, "Git is not installed or not in PATH");
               (LInfo, "Please install Git: https://git-scm.com/downloads")]
         else [(LError, "Git initialization error: " +:+ message e)])
     ++ [GitLines.continuing],
     inr tt).
Proof.
  intros Hgit Hrepo [o1 Hinit] Hwrite [o2 Hadd] [e' Hdiff] Hcommit.
  assert (Hsug : succeeds (suggestGitConfig w p))
    by (unfold suggestGitConfig; eff_succeeds).
  destruct Hsug as (ts & [] & Hsug).
  unfold initializeGit, initializeGit_steps, isGitAvailable. rewrite Hgit. cbn [negb].
  destruct (isGitRepository w p) as [tr [er | []]] eqn:Hr;
    try discriminate Hrepo.
  assert (tr = []) as ->.
  { unfold isGitRepository in Hr.
    destruct (pathExists w (path_join w p ".git")) as [? | ?]; cbn in Hr; congruence. }
  unfold createGitignore, createInitialCommit.
  fold GitLines.commit_command.
  rewrite Hinit, Hwrite, Hadd, Hdiff, Hcommit, Hsug.
  unfold GitLines.identity_missing.
  cbn -[Str.includes bool_decide].
  destruct (Str.includes "user.email" (message e) || Str.includes "user.name" (message e)).
  - reflexivity.
  - cbn -[Str.includes bool_decide].
    destruct (Str.includes "not found" (message e) || _); reflexivity.
Qed.

Lemma commit_failure_handling_witness :
  In (LSpinner, "Git repository initialized")
     (fst (initializeGit (world_commit_fails "Please tell me who you are: user.email")
             "/work/demo"))
  /\ In (LSpinner, "Failed to initialize Git repository")
        (fst (initializeGit (world_commit_fails "index.lock exists") "/work/demo")).
Proof.
  split.
  - rewrite (commit_failure_handling
               (world_commit_fails "Please tell me who you are: user.email")
               "/work/demo" (Error "Please tell me who you are: user.email"));
      [vm_compute; auto 10 | reflexivity | reflexivity | eexists; reflexivity
      | reflexivity | eexists; reflexivity | eexists; reflexivity | reflexivity].
  - rewrite (commit_failure_handling (world_commit_fails "index.lock exists")
               "/work/demo" (Error "index.lock exists"));
      [vm_compute; auto 10 | reflexivity | reflexivity | eexists; reflexivity
      | reflexivity | eexists; reflexivity | eexists; reflexivity | reflexivity].
Defined.

(** ** The interactive setup *)

Lemma lookup_enable (l : list string) (o : gmap string jsval) (k : string) :
  Init.enable l o !! k = if Deps.mem k l then Some (VBool true) else o !! k.
Proof.
  unfold Init.enable. revert o.
  induction l as [| f l IH]; intros o; [reflexivity |].
  cbn [fold_left]. rewrite IH. unfold Deps.mem. cbn [existsb].
  fold (Deps.mem k l). destruct (Deps.mem k l); [rewrite orb_true_r; reflexivity |].
  rewrite orb_false_r. destruct (String.eqb_spec k f) as [-> | Hne].
  - apply lookup_insert_eq.
  - apply lookup_insert_ne. congruence.
Qed.

Lemma mem_outside (l U : list string) (k : string) :
  Deps.subset l U = true -> Deps.mem k U = false -> Deps.mem k l = false.
Proof.
  intros Hsub Hk. destruct (Deps.mem k l) eqn:Hl; [| reflexivity].
  apply mem_In in Hl. apply (subset_In _ _ Hsub) in Hl. apply mem_In in Hl. congruence.
Qed.

(** The feature list and the additional options do not touch the
    properties of [Init.read]. *)
Lemma chosen_unticked (a : Init.Answers) (k : string) :
  Init.offered a = true -> Deps.mem k Init.read = true ->
  Init.chosenOptions a !! k = Init.chosenOptions (Init.unticked a) !! k.
Proof.
  intros Hoff Hk. unfold Init.offered in Hoff.
  repeat (apply andb_true_iff in Hoff as [Hoff ?]).
  assert (Hf : Deps.mem k (Init.features a) = false).
  { eapply mem_outside; [eassumption |]. apply mem_In in Hk.
    cbn in Hk. repeat destruct Hk as [<- | Hk]; try reflexivity. destruct Hk. }
  assert (Hne : k <> "git" /\ k <> "skipInstall" /\ k <> "skipGit" /\ k <> "verbose").
  { apply mem_In in Hk. cbn in Hk.
    repeat destruct Hk as [<- | Hk]; try (repeat split; discriminate). destruct Hk. }
  destruct Hne as (N1 & N2 & N3 & N4).
  unfold Init.chosenOptions. cbv zeta.
  rewrite !lookup_insert_ne by congruence.
  cbn [Init.projectType Init.unticked].
  destruct (negb (String.eqb (Init.projectType a) "custom")); [reflexivity |].
  unfold Init.customConfiguration. cbv zeta.
  rewrite lookup_enable, Hf. reflexivity.
Qed.

(** Splits the offered answers into the choices of each prompt. *)
Ltac choices H :=
  apply mem_In in H; cbn [In] in H;
  repeat (destruct H as [H | H]; [symmetry in H |]); try contradiction.

Ltac read_unticked a Hoff :=
  unfold get; rewrite ?(chosen_unticked a _ Hoff) by reflexivity.

Ltac by_choices a Hoff :=
  unfold Init.offered in Hoff;
  destruct a as [name lang type view css db fs extra go];
  cbn [Init.language Init.projectType Init.viewEngine Init.cssEngine Init.database
       Init.features Init.additionalOptions] in Hoff;
  let Hextra := fresh "Hextra" in
  let Hfs := fresh "Hfs" in
  let Hdb := fresh "Hdb" in
  let Hcss := fresh "Hcss" in
  let Hview := fresh "Hview" in
  let Htype := fresh "Htype" in
  apply andb_true_iff in Hoff as [Hoff Hextra];
  apply andb_true_iff in Hoff as [Hoff Hfs];
  apply andb_true_iff in Hoff as [Hoff Hdb];
  apply andb_true_iff in Hoff as [Hoff Hcss];
  apply andb_true_iff in Hoff as [Hoff Hview];
  apply andb_true_iff in Hoff as [Hoff Htype];
  clear Hextra Hfs;
  choices Htype; subst type;
  [ choices Hview; subst view; choices Hcss; subst css; choices Hdb; subst db
  | .. ];
  choices Hoff; subst lang; vm_compute; repeat split.

Lemma chosen_checks (a : Init.Answers) :
  Init.offered a = true ->
  let o := Init.chosenOptions a in
  OptionsCheck.unsupported_view o = false
  /\ OptionsCheck.unsupported_css o = false
  /\ OptionsCheck.view_conflict o = false
  /\ OptionsCheck.both_languages o = false
  /\ OptionsCheck.both_databases o = false
  /\ OptionsCheck.active_presets o = 0%nat.
Proof.
  intros Hoff o. subst o.
  unfold OptionsCheck.unsupported_view, OptionsCheck.unsupported_css,
    OptionsCheck.view_conflict, OptionsCheck.both_languages,
    OptionsCheck.both_databases, OptionsCheck.active_presets.
  read_unticked a Hoff.
  by_choices a Hoff.
Qed.

(** The interactive presets are already expanded: no preset flag is set, so
    preset application changes nothing. *)
Lemma chosen_presets_expanded (a : Init.Answers) :
  Init.offered a = true ->
  Options.applyPresets (Init.chosenOptions a) = Init.chosenOptions a.
Proof.
  intros Hoff.
  assert (Hflags :
            forallb (fun '(p, _) => negb (truthy (Init.chosenOptions a).[p]))
              Presets.builtin = true).
  { cbn [forallb Presets.builtin]. read_unticked a Hoff. by_choices a Hoff. }
  rewrite forallb_forall in Hflags.
  apply map_eq. intros k. rewrite lookup_applyPresets.
  destruct (Init.chosenOptions a !! k) as [v |] eqn:Hk; [reflexivity |].
  destruct (Presets.setting (Init.chosenOptions a) k Presets.builtin None)
    as [v |] eqn:Hs; [| reflexivity].
  apply setting_origin in Hs as [Hs | (p & b & Hin & Hact & _)]; [discriminate |].
  specialize (Hflags _ Hin). cbv beta iota in Hflags.
  rewrite Hact in Hflags. discriminate.
Qed.

(** X21: whatever is chosen among the offered answers, the options of the
    interactive setup pass the options check without error or warning, and
    preset application leaves them as they are. *)
Theorem interactive_options_pass_validation (a : Init.Answers) :
  Init.offered a = true ->
  Validation.validateOptions (Init.chosenOptions a)
  = {| valid := true; errors := []; warnings := [] |}
  /\ Options.applyPresets (Init.chosenOptions a) = Init.chosenOptions a.
Proof.
  intros Hoff. split; [| apply chosen_presets_expanded, Hoff].
  rewrite validateOptions_result.
  destruct (chosen_checks a Hoff) as (-> & -> & -> & -> & -> & ->). reflexivity.
Qed.

Lemma interactive_options_pass_validation_witness :
  Validation.validateOptions (Init.chosenOptions Init.sample)
  = {| valid := true; errors := []; warnings := [] |}
  /\ Options.applyPresets (Init.chosenOptions Init.sample)
     = Init.chosenOptions Init.sample.
Proof.
  apply (interactive_options_pass_validation Init.sample). reflexivity.
Defined.

(** The configuration adds nothing when it has no defaults. *)
Lemma merged_options_without_defaults (w : World) (options : gmap string jsval) :
  (forall file config,
     explorer_search w (Some (cwd w)) = inr (Some (file, config)) ->
     defaults config = None) ->
  Checks.merged_options w options = options.
Proof.
  intros Hnone. unfold Checks.merged_options, mergeWithConfig, loadConfig, call, result_of.
  destruct (explorer_search w (Some (cwd w))) as [e | [[file [[d |] pm]] |]];
    try reflexivity.
  discriminate (Hnone _ _ eq_refl).
Qed.

(** The language of the record that the validation phase resolves. *)
Lemma validateAndResolve_language (w : World) (given : option string)
    (options : gmap string jsval) (t : Trace) (r : ResolvedOptions) :
  validateAndResolve w given options = (t, inr r) ->
  opts r = Options.applyPresets (Checks.merged_options w options)
  /\ isTypescript r
     = Options.resolveTypeScript (Options.applyPresets (Checks.merged_options w options)).
Proof.
  intros Hrun.
  destruct given as [name |]; [| vm_compute in Hrun; discriminate].
  destruct (string_dec name "") as [-> | Hname]; [vm_compute in Hrun; discriminate |].
  rewrite (validateAndResolve_steps w name options Hname) in Hrun. cbv zeta in Hrun.
  destruct (valid (Checks.nameValidation w name)); [| discriminate].
  destruct (valid (Checks.pathValidation w name)); [| discriminate].
  destruct (valid (Checks.optionsValidation w options)); [| discriminate].
  cbn [negb] in Hrun.
  destruct (resolveOptions_total w (Validation.sanitizeProjectName name)
              (Checks.target_path w name) (Checks.merged_options w options))
    as (tr & pm & Hr).
  rewrite Hr, spread_empty in Hrun. cbn [fst snd] in Hrun.
  injection Hrun as _ Hrec. rewrite <- Hrec. split; reflexivity.
Qed.

(** X22: what [createProject] makes of the interactive choices when the
    configuration file contributes no defaults (no file is found, or the
    file has no [defaults]): the options it resolves are the chosen ones; the
    project is in TypeScript when TypeScript was chosen or the type is one of
    "api", "microservice", "startup" and "prod", whatever language was
    chosen; the Git stage runs exactly when "git" is ticked, the installer is
    skipped exactly when "skipInstall" is, and the run is never a dry run. *)
Theorem interactive_choices_resolved (w : World) (a : Init.Answers) (t : Trace)
    (r : ResolvedOptions) :
  Init.offered a = true ->
  (forall file config,
     explorer_search w (Some (cwd w)) = inr (Some (file, config)) ->
     defaults config = None) ->
  validateAndResolve w (Some (Init.projectName a)) (Init.chosenOptions a) = (t, inr r) ->
  let options := Init.chosenOptions a in
  opts r = options
  /\ isTypescript r
     = String.eqb (Init.language a) "typescript"
       || Deps.mem (Init.projectType a) ["api"; "microservice"; "startup"; "prod"]
  /\ negb (truthy options.["skipGit"]) && negb (bool_decide (options.["git"] = VBool false))
     = Init.checked a "git"
  /\ truthy options.["skipInstall"] = Init.checked a "skipInstall"
  /\ truthy options.["dryRun"] = false.
Proof.
  intros Hoff Hnone Hrun options. subst options.
  destruct (validateAndResolve_language w _ _ t r Hrun) as [Hopts Hlang].
  rewrite (merged_options_without_defaults w _ Hnone) in Hopts, Hlang.
  rewrite (chosen_presets_expanded a Hoff) in Hopts, Hlang.
  split; [exact Hopts |]. rewrite Hlang. clear Hrun Hopts Hlang Hnone t r.
  split; [| split; [| split]].
  - unfold Options.resolveTypeScript. read_unticked a Hoff. by_choices a Hoff.
  - unfold Init.chosenOptions, get. cbv zeta.
    rewrite (lookup_insert_ne _ "verbose" "skipGit") by discriminate.
    rewrite lookup_insert_eq.
    rewrite (lookup_insert_ne _ "verbose" "git") by discriminate.
    rewrite (lookup_insert_ne _ "skipGit" "git") by discriminate.
    rewrite (lookup_insert_ne _ "skipInstall" "git") by discriminate.
    rewrite lookup_insert_eq.
    destruct (Init.checked a "git"); reflexivity.
  - unfold Init.chosenOptions, get. cbv zeta.
    rewrite (lookup_insert_ne _ "verbose" "skipInstall") by discriminate.
    rewrite (lookup_insert_ne _ "skipGit" "skipInstall") by discriminate.
    rewrite lookup_insert_eq. reflexivity.
  - read_unticked a Hoff. by_choices a Hoff.
Qed.

Lemma interactive_choices_resolved_witness :
  Init.summary_language Init.javascript_api = "JavaScript"
  /\ exists t r,
       validateAndResolve (Samples.world true true) (Some "shop")
         (Init.chosenOptions Init.javascript_api) = (t, inr r)
       /\ isTypescript r = true.
Proof.
  split; [reflexivity |].
  destruct (validateAndResolve (Samples.world true true)
              (Some (Init.projectName Init.javascript_api))
              (Init.chosenOptions Init.javascript_api)) as [t [e | r]] eqn:Hrun;
    [vm_compute in Hrun; discriminate |].
  exists t, r. split; [exact Hrun |].
  destruct (interactive_choices_resolved (Samples.world true true) Init.javascript_api
              t r) as (_ & H & _);
    [reflexivity | intros file config Hfound; vm_compute in Hfound; discriminate
    | exact Hrun | rewrite H; reflexivity].
Defined.

(** ** Sanitized project names *)

Lemma name_char_plain (c : ascii) :
  Validation.is_name_char c = true -> Str.lower_ascii c = c /\ Str.is_space c = false.
Proof.
  destruct c as [[] [] [] [] [] [] [] []]; vm_compute; intros H;
    first [discriminate H | split; reflexivity].
Qed.

Lemma string_app_assoc (a b c : string) : (a +:+ b) +:+ c = a +:+ (b +:+ c).
Proof.
  induction a as [| x a IH]; [reflexivity |].
  change (String x ((a +:+ b) +:+ c) = String x (a +:+ (b +:+ c))).
  f_equal. exact IH.
Qed.

Lemma string_app_empty_r (a : string) : a +:+ "" = a.
Proof.
  induction a as [| x a IH]; [reflexivity |].
  change (String x (a +:+ "") = String x a). f_equal. exact IH.
Qed.

Lemma rev_string_acc (s acc : string) :
  Str.rev_string s acc = Str.rev_string s "" +:+ acc.
Proof.
  revert acc. induction s as [| c s IH]; intros acc; [reflexivity |].
  change (Str.rev_string s (String c acc) = Str.rev_string s (String c "") +:+ acc).
  rewrite (IH (String c acc)), (IH (String c "")).
  rewrite string_app_assoc. reflexivity.
Qed.

Lemma rev_string_app (s t : string) :
  Str.rev_string (s +:+ t) "" = Str.rev_string t "" +:+ Str.rev_string s "".
Proof.
  induction s as [| c s IH].
  - change (Str.rev_string t "" = Str.rev_string t "" +:+ "").
    rewrite string_app_empty_r. reflexivity.
  - change (Str.rev_string (s +:+ t) (String c "")
            = Str.rev_string t "" +:+ Str.rev_string s (String c "")).
    rewrite (rev_string_acc (s +:+ t)), IH, (rev_string_acc s (String c "")).
    rewrite string_app_assoc. reflexivity.
Qed.

Lemma rev_string_involutive (s : string) :
  Str.rev_string (Str.rev_string s "") "" = s.
Proof.
  induction s as [| c s IH]; [reflexivity |].
  change (Str.rev_string (Str.rev_string s (String c "")) "" = String c s).
  rewrite (rev_string_acc s (String c "")), rev_string_app, IH. reflexivity.
Qed.

(** [replace(/-$/, "")], character by character. *)
Lemma strip_trailing_hyphen_cons (c : ascii) (s : string) :
  Validation.strip_trailing_hyphen (String c s) =
  match s with
  | EmptyString => if Ascii.eqb c "-" then "" else String c ""
  | _ => String c (Validation.strip_trailing_hyphen s)
  end.
Proof.
  unfold Validation.strip_trailing_hyphen.
  destruct s as [| d s].
  - cbn. destruct (Ascii.eqb_spec c "-") as [-> | Hne]; [reflexivity |].
    destruct c as [[] [] [] [] [] [] [] []]; try reflexivity. contradiction.
  - change (Str.rev_string
              (Validation.strip_leading_hyphen
                 (Str.rev_string s (String d (String c "")))) ""
            = String c
                (Str.rev_string
                   (Validation.strip_leading_hyphen (Str.rev_string s (String d ""))) "")).
    rewrite (rev_string_acc s (String d (String c ""))).
    rewrite (rev_string_acc s (String d "")).
    assert (Hsplit : Str.rev_string s "" +:+ String d (String c "")
                     = (Str.rev_string s "" +:+ String d "") +:+ String c "")
      by (rewrite string_app_assoc; reflexivity).
    rewrite Hsplit.
    assert (Hlead : forall x : string, x <> "" ->
              Validation.strip_leading_hyphen (x +:+ String c "")
              = Validation.strip_leading_hyphen x +:+ String c "").
    { intros [| a x] Hx; [contradiction |]. cbn.
      destruct a as [[] [] [] [] [] [] [] []]; reflexivity. }
    rewrite Hlead by (destruct (Str.rev_string s ""); discriminate).
    rewrite rev_string_app. reflexivity.
Qed.

Lemma strip_leading_hyphen_cons (c : ascii) (s : string) :
  Validation.strip_leading_hyphen (String c s) =
  if Ascii.eqb c "-" then s else String c s.
Proof. destruct c as [[] [] [] [] [] [] [] []]; reflexivity. Qed.

Section Passes.

Import Sanitized.

Variable p : ascii -> bool.

Lemma all_chars_keep (s : string) : all_chars p (Validation.keep_chars p s) = true.
Proof.
  induction s as [| c s IH]; [reflexivity |].
  cbn [Validation.keep_chars]. destruct (p c) eqn:Hc; [| exact IH].
  cbn [all_chars]. rewrite Hc, IH. reflexivity.
Qed.

Lemma all_chars_squeeze (s : string) (b : bool) :
  all_chars p s = true -> all_chars p (Validation.squeeze_hyphens s b) = true.
Proof.
  revert b. induction s as [| c s IH]; intros b; [reflexivity |].
  cbn [all_chars Validation.squeeze_hyphens]. intros H.
  apply andb_true_iff in H as [Hc Hs].
  destruct (Ascii.eqb c "-"); [destruct b |];
    cbn [all_chars]; rewrite ?Hc; cbn [andb]; apply IH, Hs.
Qed.

Lemma all_chars_strip_leading (s : string) :
  all_chars p s = true -> all_chars p (Validation.strip_leading_hyphen s) = true.
Proof.
  destruct s as [| c s]; [reflexivity |]. rewrite strip_leading_hyphen_cons.
  intros H. destruct (Ascii.eqb c "-"); [| exact H].
  cbn [all_chars] in H. apply andb_true_iff in H as [_ H]. exact H.
Qed.

Lemma all_chars_strip_trailing (s : string) :
  all_chars p s = true -> all_chars p (Validation.strip_trailing_hyphen s) = true.
Proof.
  induction s as [| c s IH]; [reflexivity |].
  rewrite strip_trailing_hyphen_cons. intros H.
  cbn [all_chars] in H. apply andb_true_iff in H as [Hc Hs].
  destruct s as [| d s].
  - destruct (Ascii.eqb c "-"); [reflexivity |]. cbn [all_chars]. rewrite Hc. reflexivity.
  - cbn [all_chars]. rewrite Hc. apply IH, Hs.
Qed.

Lemma keep_chars_fixed (s : string) :
  all_chars p s = true -> Validation.keep_chars p s = s.
Proof.
  induction s as [| c s IH]; [reflexivity |].
  cbn [all_chars Validation.keep_chars]. intros H.
  apply andb_true_iff in H as [-> Hs]. rewrite (IH Hs). reflexivity.
Qed.

End Passes.

Section Hyphens.

Import Sanitized.

Lemma single_hyphens_squeeze (s : string) (b : bool) :
  single_hyphens (Validation.squeeze_hyphens s b) b = true.
Proof.
  revert b. induction s as [| c s IH]; intros b; [reflexivity |].
  cbn [Validation.squeeze_hyphens].
  destruct (Ascii.eqb c "-") eqn:Hc.
  - destruct b; [apply IH |]. cbn [single_hyphens]. rewrite Hc. apply IH.
  - cbn [single_hyphens]. rewrite Hc. apply IH.
Qed.

(** After a hyphen comes no hyphen. *)
Lemma single_hyphens_after (s : string) :
  single_hyphens s true = true ->
  single_hyphens s false = true /\ starts_with_hyphen s = false.
Proof.
  destruct s as [| c s]; [auto |]. cbn [single_hyphens starts_with_hyphen].
  destruct (Ascii.eqb c "-"); [discriminate | auto].
Qed.

Lemma single_hyphens_weaken (s : string) (b : bool) :
  single_hyphens s b = true -> single_hyphens s false = true.
Proof.
  destruct b; [| auto]. intros H. apply single_hyphens_after in H as [H _]. exact H.
Qed.

Lemma strip_leading_single (s : string) :
  single_hyphens s false = true ->
  single_hyphens (Validation.strip_leading_hyphen s) false = true
  /\ starts_with_hyphen (Validation.strip_leading_hyphen s) = false.
Proof.
  destruct s as [| c s]; [auto |]. rewrite strip_leading_hyphen_cons.
  cbn [single_hyphens]. destruct (Ascii.eqb c "-") eqn:Hc.
  - cbn [negb andb]. apply single_hyphens_after.
  - intros H. cbn [single_hyphens starts_with_hyphen]. rewrite Hc. auto.
Qed.

Lemma single_hyphens_cons (c : ascii) (s : string) (b : bool) :
  single_hyphens (String c s) b =
  if Ascii.eqb c "-" then negb b && single_hyphens s true else single_hyphens s false.
Proof. reflexivity. Qed.

Lemma strip_trailing_single (s : string) (b : bool) :
  single_hyphens s b = true ->
  single_hyphens (Validation.strip_trailing_hyphen s) b = true
  /\ ends_with_hyphen (Validation.strip_trailing_hyphen s) = false.
Proof.
  revert b. induction s as [| c s IH]; intros b; [auto |].
  rewrite strip_trailing_hyphen_cons. destruct s as [| d s].
  - rewrite single_hyphens_cons. destruct (Ascii.eqb c "-") eqn:Hc; [auto |].
    intros _. rewrite single_hyphens_cons. cbn [ends_with_hyphen]. rewrite Hc. auto.
  - set (rest := String d s) in *.
    rewrite (single_hyphens_cons c rest), (single_hyphens_cons c (Validation.strip_trailing_hyphen rest)).
    intros H.
    destruct (Ascii.eqb c "-") eqn:Hc.
    + apply andb_true_iff in H as [Hb Hs]. rewrite Hb. cbn [andb].
      destruct (IH true Hs) as [Hsingle Hend]. split; [exact Hsingle |].
      destruct (Validation.strip_trailing_hyphen rest) as [| e t] eqn:Ht.
      * (* the rest was a lone hyphen, which cannot follow a hyphen *)
        exfalso. subst rest. rewrite strip_trailing_hyphen_cons in Ht.
        destruct s as [| ? ?]; [| discriminate].
        rewrite single_hyphens_cons in Hs.
        destruct (Ascii.eqb d "-"); discriminate.
      * exact Hend.
    + destruct (IH false H) as [Hsingle Hend]. split; [exact Hsingle |].
      destruct (Validation.strip_trailing_hyphen rest) as [| e t] eqn:Ht.
      * cbn [ends_with_hyphen]. exact Hc.
      * exact Hend.
Qed.

Lemma strip_trailing_start (s : string) :
  starts_with_hyphen s = false ->
  starts_with_hyphen (Validation.strip_trailing_hyphen s) = false.
Proof.
  destruct s as [| c s]; [auto |]. rewrite strip_trailing_hyphen_cons.
  cbn [starts_with_hyphen]. intros Hc.
  destruct s; [rewrite Hc |]; cbn [starts_with_hyphen]; exact Hc.
Qed.

Lemma squeeze_hyphens_fixed (s : string) (b : bool) :
  single_hyphens s b = true -> Validation.squeeze_hyphens s b = s.
Proof.
  revert b. induction s as [| c s IH]; intros b; [reflexivity |].
  cbn [single_hyphens Validation.squeeze_hyphens].
  destruct (Ascii.eqb c "-").
  - intros H. apply andb_true_iff in H as [Hb H]. apply negb_true_iff in Hb. subst b.
    rewrite (IH _ H). reflexivity.
  - intros H. rewrite (IH _ H). reflexivity.
Qed.

Lemma strip_leading_fixed (s : string) :
  starts_with_hyphen s = false -> Validation.strip_leading_hyphen s = s.
Proof.
  destruct s as [| c s]; [reflexivity |]. rewrite strip_leading_hyphen_cons.
  cbn [starts_with_hyphen]. intros ->. reflexivity.
Qed.

Lemma strip_trailing_fixed (s : string) :
  ends_with_hyphen s = false -> Validation.strip_trailing_hyphen s = s.
Proof.
  induction s as [| c s IH]; [reflexivity |].
  rewrite strip_trailing_hyphen_cons. destruct s as [| d s].
  - cbn [ends_with_hyphen]. intros ->. reflexivity.
  - intros H. rewrite IH; [reflexivity | exact H].
Qed.

Lemma plain_fixed (s : string) (b : bool) :
  all_chars Validation.is_name_char s = true ->
  Str.toLowerCase s = s /\ Validation.spaces_to_hyphen s b = s.
Proof.
  revert b. induction s as [| c s IH]; intros b; [auto |].
  cbn [all_chars]. intros H. apply andb_true_iff in H as [Hc Hs].
  destruct (name_char_plain c Hc) as [Hlow Hsp].
  cbn [Str.toLowerCase Validation.spaces_to_hyphen]. rewrite Hlow, Hsp.
  destruct (IH false Hs) as [-> ->]. auto.
Qed.

End Hyphens.

(** X23: a sanitized name consists of lower-case letters, digits and single
    hyphens, with no hyphen at either end; such names are left as they are,
    so sanitizing twice is the same as sanitizing once. *)
Theorem sanitizeProjectName_clean (name : string) :
  Sanitized.clean (Validation.sanitizeProjectName name) = true
  /\ (Sanitized.clean name = true -> Validation.sanitizeProjectName name = name)
  /\ Validation.sanitizeProjectName (Validation.sanitizeProjectName name)
     = Validation.sanitizeProjectName name.
Proof.
  assert (Hclean : forall s, Sanitized.clean (Validation.sanitizeProjectName s) = true).
  { intros s. unfold Validation.sanitizeProjectName, Sanitized.clean.
    set (kept := Validation.keep_chars _ _).
    assert (Hchars : Sanitized.all_chars Validation.is_name_char
                       (Validation.squeeze_hyphens kept false) = true)
      by (apply all_chars_squeeze, all_chars_keep).
    pose proof (single_hyphens_squeeze kept false) as Hsingle.
    apply strip_leading_single in Hsingle as [Hsingle Hstart].
    apply all_chars_strip_leading in Hchars.
    destruct (strip_trailing_single _ _ Hsingle) as [Hsingle' Hend].
    rewrite (all_chars_strip_trailing _ _ Hchars), Hsingle', Hend.
    rewrite (strip_trailing_start _ Hstart). reflexivity. }
  assert (Hfixed : forall s, Sanitized.clean s = true ->
                             Validation.sanitizeProjectName s = s).
  { intros s H. unfold Sanitized.clean in H.
    apply andb_true_iff in H as [H Hend]. apply andb_true_iff in H as [H Hstart].
    apply andb_true_iff in H as [Hchars Hsingle].
    apply negb_true_iff in Hend, Hstart.
    unfold Validation.sanitizeProjectName.
    destruct (plain_fixed s false Hchars) as [-> ->].
    rewrite (keep_chars_fixed _ _ Hchars), (squeeze_hyphens_fixed _ _ Hsingle).
    rewrite (strip_leading_fixed _ Hstart). apply strip_trailing_fixed, Hend. }
  split; [apply Hclean |]. split; [apply Hfixed |]. apply Hfixed, Hclean.
Qed.

(** ** The files of a generated project *)

Ltac unfold_generators :=
  unfold Project.generateProject, Project.createDirectoryStructure,
    Project.generatePackageJson, Project.generateServerFile,
    Project.generateEnvironmentFiles, Project.generateEnvExample,
    Project.generateEnvLocal, Project.generateReadme, Project.generateConfig,
    Project.generateMainConfig, Project.generateDatabaseConfig,
    Project.generateLoggerConfig, Project.generateTSConfig,
    Project.generateTsConfigJson, Project.generateTsConfigBuild,
    Project.generateTsConfigTest, Project.generateTypeDefinitions,
    Project.generateRoutes, Project.generateIndexRoute, Project.generateUsersRoute,
    Project.generateMiddleware, Project.generateAuthMiddleware,
    Project.generateValidationMiddleware, Project.generateErrorHandlingMiddleware,
    Project.generateTests, Project.generateJestConfig, Project.generateTestFiles,
    Project.generateDockerFiles, Project.generateDockerfile,
    Project.generateDockerIgnore, Project.generateDockerCompose,
    Project.generateFeatureFiles, Project.generateMongoModels,
    Project.generateSequelizeModels, Project.generateRedisConfig,
    Project.generateSwaggerConfig, Project.generateAuthFiles,
    Project.generateViewTemplates, Project.generateGitignore;
  cbv zeta.

(** The extension of the style sheet when the CSS engine is a supported one. *)
Lemma css_extension_supported (o : gmap string jsval) :
  Deps.engines_supported o = true -> truthy o.["css"] = true ->
  In (if is_str o.["css"] "sass" || is_str o.["css"] "scss" then "scss"
      else if truthy o.["css"] then to_string o.["css"] else "css")
     ["scss"; "less"; "stylus"; "compass"].
Proof.
  unfold Deps.engines_supported. intros Hs Hcss.
  apply andb_true_iff in Hs as [_ Hs]. rewrite Hcss in Hs. cbn [negb orb] in Hs.
  generalize dependent (o.["css"]).
  intros [| b | x] Hs Hcss; try discriminate Hcss; [destruct b; discriminate |].
  unfold includes in Hs. apply existsb_exists in Hs as (y & Hy & Heq).
  cbn [is_str] in Heq. apply String.eqb_eq in Heq. subst y.
  cbn in Hy. repeat destruct Hy as [<- | Hy]; cbn; auto 10.
Qed.

(** With supported engines the style sheet, when there is one, is one of
    four files of "public/stylesheets". *)
Lemma style_sheet_supported (r : ResolvedOptions) :
  Deps.engines_supported (opts r) = true ->
  In (if Project.on r "css" then Project.generateCSSFiles r else [])
     [[];
      [Project.WriteFile ["public"; "stylesheets"; "style.scss"]];
      [Project.WriteFile ["public"; "stylesheets"; "style.less"]];
      [Project.WriteFile ["public"; "stylesheets"; "style.stylus"]];
      [Project.WriteFile ["public"; "stylesheets"; "style.compass"]]].
Proof.
  intros Hs. pose proof (css_extension_supported (opts r) Hs) as Hext.
  unfold Project.generateCSSFiles, Project.on. cbv zeta.
  destruct (truthy (opts r).["css"]); [| left; reflexivity].
  specialize (Hext eq_refl). cbn [In] in Hext.
  destruct Hext as [<- | [<- | [<- | [<- | []]]]]; cbn; auto 10.
Qed.

(** Names the style sheet of [r] and splits on what it can be; [tac] then
    settles what is asked of it. *)
Ltac by_style_sheet H tac :=
  cbn [In] in H;
  repeat (destruct H as [<- | H]; [tac |]); destruct H.

(** [path.join] leaves the directories of the generator as they are. *)
Lemma directory_normalised (d : string) :
  In d ["src"; "src/api"; "src/api/routes"; "src/api/middleware"; "src/config";
        "src/utils"; "src/models"; "src/services"; "bin"; "public";
        "public/stylesheets"; "public/javascripts"; "public/images"; "views";
        "tests"; "tests/unit"; "tests/integration"; "logs"; "types"] ->
  Path.join [d] = d.
Proof.
  intros Hd. cbn [In] in Hd.
  repeat (destruct Hd as [<- | Hd]; [vm_compute; reflexivity |]). destruct Hd.
Qed.

Section Prepared.

Import Project.

Lemma prepared_mono (c c' : list string) (a : list Action) :
  (forall d, Deps.mem d c = true -> Deps.mem d c' = true) ->
  prepared c a = true -> prepared c' a = true.
Proof.
  revert c c'. induction a as [| [dir | segments] a IH]; intros c c' Hsub; [auto | |].
  - cbn [prepared]. apply IH. intros d. unfold Deps.mem. cbn [existsb].
    intros H. apply orb_true_iff in H as [H | H]; [rewrite H; reflexivity |].
    apply Hsub in H. unfold Deps.mem in H. rewrite H. apply orb_true_r.
  - cbn [prepared]. intros H. apply andb_true_iff in H as [Hhere Hrest].
    rewrite (IH c c' Hsub Hrest), andb_true_r.
    apply orb_true_iff in Hhere as [-> | Hin]; [reflexivity |].
    rewrite (Hsub _ Hin). apply orb_true_r.
Qed.

Lemma prepared_app (c : list string) (a b : list Action) :
  prepared c a = true -> prepared c b = true -> prepared c (a ++ b) = true.
Proof.
  revert c. induction a as [| [dir | segments] a IH]; intros c Ha Hb; [exact Hb | |].
  - cbn [app prepared] in *. apply IH; [exact Ha |].
    apply (prepared_mono c); [| exact Hb].
    intros d H. unfold Deps.mem in *. cbn [existsb]. rewrite H. apply orb_true_r.
  - cbn [app prepared] in *. apply andb_true_iff in Ha as [-> Ha]. apply IH; auto.
Qed.

Lemma prepared_ensure (c ds : list string) (b : list Action) :
  prepared c (map EnsureDir ds ++ b)
  = prepared (rev (map (fun d => Path.join [d]) ds) ++ c) b.
Proof.
  revert c. induction ds as [| d ds IH]; intros c; [reflexivity |].
  cbn [map app prepared rev]. rewrite IH, <- app_assoc. reflexivity.
Qed.

Lemma prepared_if (c : list string) (b : bool) (x y : list Action) :
  (b = true -> prepared c x = true) -> (b = false -> prepared c y = true) ->
  prepared c (if b then x else y) = true.
Proof. destruct b; auto. Qed.

End Prepared.

(** Walks the generators call by call.  A test on the options is decided
    with its outcome kept; each write is then checked against the
    directories known to be ensured: the core ones ([Hcore]), "views" unless
    [noView] is set ([Hviews]), the test directories when [test] is set
    ([Htests]). *)
Ltac check_writes Hcore Hviews Htests :=
  repeat match goal with
         | |- context [if ?b then _ else _] => destruct b
         end;
  cbn [app Project.prepared];
  repeat match goal with
         | |- context [Project.parent ?s] =>
             let v := eval vm_compute in (Project.parent s) in
             change (Project.parent s) with v
         end;
  repeat match goal with
         | |- context [Deps.mem ?d ?c] =>
             first [ rewrite (Hcore d) by (vm_compute; reflexivity)
                   | rewrite (Hviews d ltac:(assumption)) by (vm_compute; reflexivity)
                   | rewrite (Htests d ltac:(assumption)) by (vm_compute; reflexivity) ]
         end;
  reflexivity.

Ltac walk_generators Hcore Hviews Htests :=
  lazymatch goal with
  | H : Project.prepared ?c ?x = true |- Project.prepared ?c ?x = true => exact H
  | |- Project.prepared _ ([Project.EnsureDir _] ++ _) = true =>
      (* the type definitions ensure their own directory *)
      cbn [app Project.prepared];
      repeat match goal with
             | |- context [if ?b then _ else _] => destruct b
             end;
      reflexivity
  | |- Project.prepared _ (_ ++ _) = true =>
      apply prepared_app; walk_generators Hcore Hviews Htests
  | |- Project.prepared _ (if _ then _ else _) = true =>
      let H := fresh "Hon" in
      apply prepared_if; intros H;
      try (apply andb_true_iff in H as [H _]; apply negb_true_iff in H);
      walk_generators Hcore Hviews Htests
  | |- _ => check_writes Hcore Hviews Htests
  end.

(** X24: with supported engines, the generator never writes a file into a
    directory it has not ensured before (or the project directory itself,
    which [createProject] ensures): every [fs.writeFile] of [generateProject]
    comes after the [fs.ensureDir] of its directory; in particular no file
    lands outside of the project directory. *)
Theorem files_written_into_ensured_directories (r : ResolvedOptions) :
  Deps.engines_supported (opts r) = true ->
  Project.prepared [] (Project.generateProject r) = true.
Proof.
  intros Hs. pose proof (style_sheet_supported r Hs) as Hcss.
  unfold Project.generateProject, Project.createDirectoryStructure. cbv zeta.
  rewrite prepared_ensure.
  match goal with |- Project.prepared ?c _ = true => set (created := c) end.
  assert (Hcore : forall d,
             Deps.mem d
               ["src"; "src/api"; "src/api/routes"; "src/api/middleware"; "src/config";
                "src/utils"; "src/models"; "src/services"; "bin"; "public";
                "public/stylesheets"; "public/javascripts"; "public/images"] = true ->
             Deps.mem d created = true).
  { intros d Hd. apply mem_In. apply mem_In in Hd. subst created.
    rewrite app_nil_r. apply in_rev. rewrite rev_involutive.
    rewrite <- (directory_normalised d) by (cbn [In] in *; tauto).
    apply (in_map (fun d => Path.join [d])). repeat apply in_push_if_skip. exact Hd. }
  assert (Hviews : forall d, Project.on r "noView" = false ->
             Deps.mem d ["views"] = true -> Deps.mem d created = true).
  { intros d Hno Hd. apply mem_In. apply mem_In in Hd. subst created.
    rewrite app_nil_r. apply in_rev. rewrite rev_involutive.
    rewrite <- (directory_normalised d) by (cbn [In] in *; tauto).
    apply (in_map (fun d => Path.join [d])). do 2 apply in_push_if_skip.
    apply in_push_if_here; [rewrite Hno; reflexivity | exact Hd]. }
  assert (Htests : forall d, Project.on r "test" = true ->
             Deps.mem d ["tests"; "tests/unit"; "tests/integration"] = true ->
             Deps.mem d created = true).
  { intros d Hon Hd. apply mem_In. apply mem_In in Hd. subst created.
    rewrite app_nil_r. apply in_rev. rewrite rev_involutive.
    rewrite <- (directory_normalised d) by (cbn [In] in *; tauto).
    apply (in_map (fun d => Path.join [d])). apply in_push_if_skip.
    apply in_push_if_here; [exact Hon | exact Hd]. }
  clearbody created.
  unfold_generators.
  set (styleSheet := if Project.on r "css" then Project.generateCSSFiles r else []) in *.
  assert (Hsheet : Project.prepared created styleSheet = true).
  { clearbody styleSheet.
    by_style_sheet Hcss ltac:(check_writes Hcore Hviews Htests). }
  clearbody styleSheet.
  walk_generators Hcore Hviews Htests.
Qed.

Lemma files_written_into_ensured_directories_witness :
  Project.prepared [] (Project.generateProject Project.styled) = true
  /\ In "public/stylesheets/style.less"
       (Project.written (Project.generateProject Project.styled)).
Proof.
  split; [| vm_compute; auto 60].
  apply (files_written_into_ensured_directories Project.styled). reflexivity.
Defined.

(** Without the check of the engines a style sheet can land outside of the
    project directory: [path.join] resolves the ".." of the extension. *)
Lemma style_sheet_astray :
  Project.written (Project.generateFeatureFiles Project.astray)
  = ["../notes"; ".gitignore"]
  /\ Project.prepared [] (Project.generateProject Project.astray) = false.
Proof. split; vm_compute; reflexivity. Qed.

(** ** What the dry run announces *)

Lemma forEach_emit {A : Type} (c : Channel) (f : A -> string) (l : list A) :
  forEach (fun x => emit c (f x)) l = (map (fun x => (c, f x)) l, inr tt).
Proof.
  induction l as [| x l IH]; [reflexivity |].
  cbn [forEach map]. rewrite IH. reflexivity.
Qed.

Lemma written_app (a b : list Project.Action) :
  Project.written (a ++ b) = Project.written a ++ Project.written b.
Proof.
  induction a as [| [d | p] a IH]; cbn [app Project.written]; [reflexivity | exact IH |].
  rewrite IH. reflexivity.
Qed.

Lemma ensured_app (a b : list Project.Action) :
  Project.ensured (a ++ b) = Project.ensured a ++ Project.ensured b.
Proof.
  induction a as [| [d | p] a IH]; cbn [app Project.ensured]; [reflexivity | | exact IH].
  rewrite IH. reflexivity.
Qed.

Lemma delivered_app (a b : list Project.Action) (entry : string) :
  Project.delivered (a ++ b) entry
  = Project.delivered a entry || Project.delivered b entry.
Proof.
  unfold Project.delivered, Deps.mem.
  rewrite written_app, ensured_app, !existsb_app.
  repeat match goal with |- context [existsb ?f ?l] => destruct (existsb f l) end;
    reflexivity.
Qed.

Lemma delivered_absent (a b : list Project.Action) (entry : string) :
  Project.delivered a entry = false -> Project.delivered b entry = false ->
  Project.delivered (a ++ b) entry = false.
Proof. intros Ha Hb. rewrite delivered_app, Ha, Hb. reflexivity. Qed.

Lemma delivered_left (a b : list Project.Action) (entry : string) :
  Project.delivered a entry = true -> Project.delivered (a ++ b) entry = true.
Proof. intros Ha. rewrite delivered_app, Ha. reflexivity. Qed.

Lemma delivered_right (a b : list Project.Action) (entry : string) :
  Project.delivered b entry = true -> Project.delivered (a ++ b) entry = true.
Proof. intros Hb. rewrite delivered_app, Hb. apply orb_true_r. Qed.

Lemma delivered_if (c v : bool) (a b : list Project.Action) (entry : string) :
  Project.delivered a entry = v -> Project.delivered b entry = v ->
  Project.delivered (if c then a else b) entry = v.
Proof. destruct c; auto. Qed.

(** Decides the tests of one generator and computes. *)
Ltac decide_tests :=
  unfold push_if;
  repeat match goal with
         | |- context [if ?b then _ else _] => destruct b
         end;
  vm_compute; reflexivity.

(** No generator delivers the entry. *)
Ltac walk_absent :=
  lazymatch goal with
  | H : forall entry, _ -> Project.delivered ?x entry = false
    |- Project.delivered ?x _ = false => apply H; reflexivity
  | |- Project.delivered (_ ++ _) _ = false => apply delivered_absent; walk_absent
  | |- Project.delivered (if _ then _ else _) _ = false =>
      apply delivered_if; walk_absent
  | |- _ => decide_tests
  end.

(** Finds the generator that delivers the entry. *)
Ltac walk_present :=
  lazymatch goal with
  | |- Project.delivered (_ ++ _) _ = true =>
      first [ apply delivered_left; solve [walk_present]
            | apply delivered_right; walk_present ]
  | |- _ => decide_tests
  end.

(** What the generator delivers of the entries of the dry run. *)
Lemma delivered_entries (r : ResolvedOptions) :
  Deps.engines_supported (opts r) = true ->
  let plan := Project.generateProject r in
  forallb (Project.delivered plan)
    ["src/"; "src/api/"; "src/config/"; "src/utils/"; "bin/"; "public/";
     "package.json"; "README.md"] = true
  /\ Project.delivered plan "tsconfig.json" = isTypescript r
  /\ Project.delivered plan "Dockerfile" = Project.on r "docker"
  /\ Project.delivered plan "docker-compose.yml" = Project.on r "docker"
  /\ Project.delivered plan "tests/" = Project.on r "test"
  /\ Project.delivered plan "jest.config.js" = Project.on r "test".
Proof.
  intros Hs. pose proof (style_sheet_supported r Hs) as Hcss.
  cbv zeta. cbn [forallb]. unfold_generators.
  set (styleSheet := if Project.on r "css" then Project.generateCSSFiles r else []) in *.
  clearbody styleSheet.
  assert (Hsheet : forall entry,
             Deps.mem entry
               ["tsconfig.json"; "Dockerfile"; "docker-compose.yml"; "tests/";
                "jest.config.js"] = true ->
             Project.delivered styleSheet entry = false).
  { intros entry Hentry. apply mem_In in Hentry. cbn [In] in Hentry.
    by_style_sheet Hcss
      ltac:(repeat (destruct Hentry as [<- | Hentry]; [vm_compute; reflexivity |]);
            destruct Hentry). }
  clear Hcss.
  split; [| split; [| split; [| split; [| split]]]].
  - repeat (apply andb_true_iff; split); walk_present.
  - destruct (isTypescript r); cbv iota; [walk_present | walk_absent].
  - destruct (Project.on r "docker"); cbv iota; [walk_present | walk_absent].
  - destruct (Project.on r "docker"); cbv iota; [walk_present | walk_absent].
  - destruct (Project.on r "test"); cbv iota; [walk_present | walk_absent].
  - destruct (Project.on r "test"); cbv iota; [walk_present | walk_absent].
Qed.

(** X25: the dry run lists its fixed entries and, by the options, the
    TypeScript, Docker and test entries; with supported engines the generator
    delivers every entry the dry run announces, and the optional entries only
    when announced. *)
Theorem dry_run_entries_delivered (r : ResolvedOptions) :
  Deps.engines_supported (opts r) = true ->
  showDryRun r =
  ((LInfo, "DRY RUN - Project would be created with the following configuration:")
   :: fst (displayProjectSummary r)
   ++ (LInfo, "Files and directories that would be created:")
   :: map (fun item => (LInfo, "  " +:+ item)) (Project.announced r),
   inr tt)
  /\ forallb (Project.delivered (Project.generateProject r)) (Project.announced r) = true
  /\ forallb
       (fun entry =>
          Bool.eqb (Project.delivered (Project.generateProject r) entry)
                   (Deps.mem entry (Project.announced r)))
       ["tsconfig.json"; "Dockerfile"; "docker-compose.yml"; "tests/"; "jest.config.js"]
     = true.
Proof.
  intros Hsupported. split.
  { unfold showDryRun. cbv zeta.
    destruct (displayProjectSummary_succeeds r) as (ts & [] & Hs). rewrite Hs.
    unfold emit. rewrite !bind_inr. cbn [fst snd].
    rewrite (forEach_emit LInfo (fun item => "  " +:+ item)). reflexivity. }
  destruct (delivered_entries r Hsupported) as (Hfixed & Hts & Hdf & Hdc & Htd & Hjest).
  cbv zeta in Hfixed. cbn [forallb] in Hfixed.
  repeat match type of Hfixed with
         | _ && _ = true =>
             let H := fresh "H" in apply andb_true_iff in Hfixed as [H Hfixed]
         end.
  unfold Project.announced. cbv zeta.
  destruct (isTypescript r), (Project.on r "docker"), (Project.on r "test");
    cbn [push_if app forallb];
    repeat match goal with
           | H : Project.delivered _ _ = _ |- _ => rewrite H; clear H
           end;
    split; vm_compute; reflexivity.
Qed.

Lemma dry_run_entries_delivered_witness :
  forallb (Project.delivered (Project.generateProject Project.styled))
    (Project.announced Project.styled) = true
  /\ In "tests/" (Project.announced Project.styled).
Proof.
  split; [| vm_compute; auto 20].
  destruct (dry_run_entries_delivered Project.styled) as (_ & H & _);
    [reflexivity | exact H].
Defined.

(** ** Files written twice *)

Lemma within_both (Ua Ub la lb : list string) :
  Packages.within Ua la -> Packages.within Ub lb -> Deps.disjoint Ua Ub = true ->
  Packages.within (Ua ++ Ub) (la ++ lb).
Proof.
  intros [Hnd Hin] [Hnd' Hin'] Hdisj. split.
  - apply NoDup_app. split; [exact Hnd |]. split; [| exact Hnd'].
    intros x Hx Hx'. apply list_elem_of_In in Hx, Hx'.
    apply (disjoint_In _ _ Hdisj x); [apply Hin, Hx | apply Hin', Hx'].
  - apply incl_app; [apply incl_appl, Hin | apply incl_appr, Hin'].
Qed.

Lemma within_written_if (U : list string) (c : bool) (a b : list Project.Action) :
  Packages.within U (Project.written a) -> b = [] ->
  Packages.within U (Project.written (if c then a else b)).
Proof.
  intros Ha ->. destruct c; [exact Ha |].
  split; [apply NoDup_nil_2 | intros x []].
Qed.

Lemma within_written_else (U : list string) (c : bool) (a b : list Project.Action) :
  Packages.within U (Project.written b) -> a = [] ->
  Packages.within U (Project.written (if c then a else b)).
Proof.
  intros Hb ->. destruct c; [| exact Hb].
  split; [apply NoDup_nil_2 | intros x []].
Qed.

Lemma found_later {A : Type} (a x y : list A) :
  (exists before, x = before ++ y) -> exists before, a ++ x = before ++ y.
Proof. intros (before & ->). exists (a ++ before). apply app_assoc. Qed.

Lemma written_directories (ds : list string) :
  Project.written (map Project.EnsureDir ds) = [].
Proof. induction ds as [| d ds IH]; [reflexivity | exact IH]. Qed.

(** Collects, generator by generator, the files that can be written and
    checks that no two generators share one. *)
Ltac walk_written :=
  lazymatch goal with
  | H : Packages.within _ (Project.written ?x)
    |- Packages.within _ (Project.written ?x) => exact H
  | |- Packages.within _ (Project.written (_ ++ _)) =>
      rewrite written_app;
      eapply within_both; [walk_written | walk_written | vm_compute; reflexivity]
  | |- Packages.within _ (Project.written (map Project.EnsureDir _)) =>
      rewrite written_directories; apply (within_closed []); reflexivity
  | |- Packages.within _ (Project.written (if _ then [] else _)) =>
      eapply within_written_else; [walk_written | reflexivity]
  | |- Packages.within _ (Project.written (if _ then _ else _)) =>
      eapply within_written_if; [walk_written | reflexivity]
  | |- Packages.within _ _ => apply within_closed; vm_compute; reflexivity
  end.

(** X26: with supported engines no file is written twice, unless both
    MongoDB and PostgreSQL are selected: then the Sequelize user model is
    written right over the Mongoose one. *)
Theorem model_file_written_twice_only (r : ResolvedOptions) :
  Deps.engines_supported (opts r) = true ->
  (Project.on r "mongodb" && Project.on r "postgres" = false ->
   NoDup (Project.written (Project.generateProject r)))
  /\ (Project.on r "mongodb" = true -> Project.on r "postgres" = true ->
      exists before after,
        Project.generateProject r
        = before ++ Project.generateMongoModels r
          ++ Project.generateSequelizeModels r ++ after
        /\ Project.written (Project.generateMongoModels r)
           = ["src/models/User" +:+ (if isTypescript r then ".ts" else ".js")]
        /\ Project.written (Project.generateSequelizeModels r)
           = Project.written (Project.generateMongoModels r)).
Proof.
  intros Hs. split.
  - intros Hnot. pose proof (style_sheet_supported r Hs) as Hcss.
    assert (H : exists U,
               Packages.within U (Project.written (Project.generateProject r))).
    { unfold_generators.
      set (styleSheet := if Project.on r "css" then Project.generateCSSFiles r else [])
        in *.
      clearbody styleSheet.
      assert (Hsheet :
                Packages.within
                  ["public/stylesheets/style.scss"; "public/stylesheets/style.less";
                   "public/stylesheets/style.stylus"; "public/stylesheets/style.compass"]
                  (Project.written styleSheet)).
      { by_style_sheet Hcss
          ltac:(split; [apply distinct_NoDup; reflexivity
                       | intros x Hx; vm_compute in Hx |- *; tauto]). }
      clear Hcss.
      destruct (isTypescript r);
        destruct (Project.on r "mongodb"), (Project.on r "postgres");
        try discriminate Hnot; cbv iota; eexists; walk_written. }
    destruct H as (U & Hnd & _). exact Hnd.
  - intros Hm Hp.
    assert (Hlast : exists before,
               Project.generateProject r = before ++ Project.generateFeatureFiles r).
    { unfold Project.generateProject. do 11 apply found_later.
      exists []. reflexivity. }
    destruct Hlast as (before & ->).
    unfold Project.generateFeatureFiles. rewrite Hm, Hp.
    exists before. eexists. split; [reflexivity |].
    unfold Project.generateMongoModels, Project.generateSequelizeModels.
    destruct (isTypescript r); split; reflexivity.
Qed.

Lemma model_file_written_twice_only_witness :
  NoDup (Project.written
           (Project.generateProject (Project.sample ["mongodb"; "test"; "docker"] true)))
  /\ Project.written
       (Project.generateFeatureFiles (Project.sample ["mongodb"; "postgres"] false))
     = ["src/models/User.js"; "src/models/User.js"; ".gitignore"].
Proof.
  split; [| vm_compute; reflexivity].
  destruct (model_file_written_twice_only
              (Project.sample ["mongodb"; "test"; "docker"] true)) as [H _];
    [reflexivity |].
  apply H. vm_compute. reflexivity.
Defined.

(** ** The language of the generated files *)

Lemma forallb_written_app (p : string -> bool) (a b : list Project.Action) :
  forallb p (Project.written a) = true -> forallb p (Project.written b) = true ->
  forallb p (Project.written (a ++ b)) = true.
Proof. intros Ha Hb. rewrite written_app, forallb_app, Ha, Hb. reflexivity. Qed.

Lemma forallb_written_if (p : string -> bool) (c : bool) (a b : list Project.Action) :
  forallb p (Project.written a) = true -> forallb p (Project.written b) = true ->
  forallb p (Project.written (if c then a else b)) = true.
Proof. destruct c; auto. Qed.

Ltac walk_paths :=
  lazymatch goal with
  | H : forallb ?p (Project.written ?x) = true
    |- forallb ?p (Project.written ?x) = true => exact H
  | |- forallb _ (Project.written (_ ++ _)) = true =>
      apply forallb_written_app; walk_paths
  | |- forallb _ (Project.written (map Project.EnsureDir _)) = true =>
      rewrite written_directories; reflexivity
  | |- forallb _ (Project.written (if _ then _ else _)) = true =>
      apply forallb_written_if; walk_paths
  | |- _ => vm_compute; reflexivity
  end.

(** X27: the generated sources are in one language.  With supported
    engines, a JavaScript project gets no file ending in ".ts", and in a
    TypeScript project the only file ending in ".js" is the Jest
    configuration. *)
Theorem generated_sources_in_one_language (r : ResolvedOptions) :
  Deps.engines_supported (opts r) = true ->
  let paths := Project.written (Project.generateProject r) in
  if isTypescript r then Project.no_javascript_but_jest paths = true
  else Project.no_typescript paths = true.
Proof.
  intros Hs paths. subst paths.
  unfold Project.no_javascript_but_jest, Project.no_typescript.
  pose proof (style_sheet_supported r Hs) as Hcss.
  unfold_generators.
  set (styleSheet := if Project.on r "css" then Project.generateCSSFiles r else []) in *.
  clearbody styleSheet.
  destruct (isTypescript r);
    match goal with
    | |- forallb ?p _ = true =>
        assert (Hsheet : forallb p (Project.written styleSheet) = true)
          by (by_style_sheet Hcss ltac:(vm_compute; reflexivity))
    end;
    clear Hcss; walk_paths.
Qed.

Lemma generated_sources_in_one_language_witness :
  Project.no_typescript
    (Project.written (Project.generateProject (Project.sample ["test"; "auth"] false)))
  = true.
Proof.
  apply (generated_sources_in_one_language (Project.sample ["test"; "auth"] false)).
  reflexivity.
Defined.
